(** * boringproxy: the edge dispatcher, the virtual-host router and the
    HTTP reverse proxy, embedded from [boringproxy.go] and [proxyRequest].

    Go code with side effects is written in a small state monad with four
    ways of leaving a function body: falling through to the next statement,
    [return], a run-time panic and [log.Fatal].  Calls that leave the
    process (network, ACME, OAuth, JSON codecs of the standard library) are
    read from a [World] record, and every such call is recorded in a trace,
    so that what a handler did, and in which order, can be stated. *)

From Stdlib Require Import ZArith Ascii String List Lia.
From stdpp Require Import base gmap strings list pretty.

Open Scope Z_scope.

(** ** Control flow of a Go function body *)

(** How a statement ends: [Next a] continues with the following statement,
    [Returned] is the [return] statement, [Panicked] a run-time panic (a nil
    dereference), [Exited] is [log.Fatal] (it calls [os.Exit(1)], deferred
    calls do not run). *)
Inductive Flow (A : Type) : Type :=
| Next (a : A)
| Returned
| Panicked (msg : string)
| Exited.
Arguments Next {A} a.
Arguments Returned {A}.
Arguments Panicked {A} msg.
Arguments Exited {A}.

Definition Go (S A : Type) : Type := S → Flow A * S.

#[global] Instance Go_ret (S : Type) : MRet (Go S) :=
  λ A a s, (Next a, s).

#[global] Instance Go_bind (S : Type) : MBind (Go S) :=
  λ A B f m s,
    match m s with
    | (Next a, s') => f a s'
    | (Returned, s') => (Returned, s')
    | (Panicked msg, s') => (Panicked msg, s')
    | (Exited, s') => (Exited, s')
    end.

(** The [return] statement. *)
Definition return_ {S A : Type} : Go S A := λ s, (Returned, s).

(** [os.Exit(1)] *)
Definition exit_ {S A : Type} : Go S A := λ s, (Exited, s).

(** [if c { body }] *)
Definition when {S : Type} (c : bool) (body : Go S ()) : Go S () :=
  if c then body else mret ().

(** A call [f(...)] as a statement: the callee's [return] ends the callee,
    not the caller. *)
Definition call {S : Type} (f : Go S ()) : Go S () :=
  λ s, match f s with
       | (Returned, s') => (Next (), s')
       | other => other
       end.

(** [defer d] followed by the rest of the body: [d] runs when the body is
    left by falling off its end, by [return] or by a panic, and does not run
    when the process exits. *)
Definition defer {S : Type} (d : S → S) (rest : Go S ()) : Go S () :=
  λ s, match rest s with
       | (Exited, s') => (Exited, s')
       | (fl, s') => (fl, d s')
       end.

(** The state a body ends in, and how it ended. *)
Definition exec {S A : Type} (m : Go S A) (s : S) : S := snd (m s).
Definition flow {S A : Type} (m : Go S A) (s : S) : Flow A := fst (m s).

(** ** Data *)

(** A Go [error], by its message. *)
Abbreviation error := string (only parsing).

(** [http.Header] and [url.Values]: [map[string][]string]. *)
Abbreviation http_Header := (gmap string (list string)).
Abbreviation url_Values := (gmap string (list string)).

(** [Values.Get]: the first value of the key, or the empty string. *)
Definition Values_Get (v : url_Values) (key : string) : string :=
  match v !! key with
  | Some (x :: _) => x
  | _ => ""
  end.

(** [Header.Clone] makes a deep copy; maps are values here, so the copy is
    the map itself and later writes to the copy leave the original alone. *)
Definition Header_Clone (h : http_Header) : http_Header := h.

(** A request or response body as [io.ReadAll] sees it: the bytes it
    delivers and the error, if any, that ends the stream early. *)
Record ReadCloser : Type := mkBody {
  body_data : string;
  body_err : option error
}.

(** [bytes.NewReader(b)] *)
Definition bytes_NewReader (b : string) : ReadCloser := mkBody b None.

(** [url.URL], the parts the program reads.  [Path] is kept in its escaped
    form. *)
Record url_URL : Type := mkURL {
  Scheme : string;
  UrlHost : string;
  Path : string;
  RawQuery : string
}.

(** [URL.RequestURI()]: path, or [/] when empty, then [?query]. *)
Definition URL_RequestURI (u : url_URL) : string :=
  (if decide (Path u = "") then "/" else Path u)
  +:+ (if decide (RawQuery u = "") then "" else "?" +:+ RawQuery u).

(** [http.Request], for requests received by the server and for requests the
    program sends.  [Form] is the value [r.ParseForm()] fills in. *)
Record Request : Type := mkRequest {
  Method : string;
  URL : url_URL;
  Host : string;
  RequestURI : string;
  RemoteAddr : string;
  Header : http_Header;
  Body : ReadCloser;
  Form : url_Values
}.

(** [http.Response], as returned by [http.Get] and [Client.Do]. *)
Record Response : Type := mkResponse {
  StatusCode : Z;
  resp_Header : http_Header;
  resp_Body : ReadCloser
}.

(** Modelled from the spec: the tunnel record (the [Tunnel] struct is declared
    outside the files at hand).  The fields are the ones the spec's data
    model lists and the code reads, with the types their uses fix ([%d] for
    the ports, string comparison for the rest). *)
Record Tunnel : Type := mkTunnel {
  Domain : string;
  TunnelPort : Z;
  ClientAddress : string;
  ClientPort : Z;
  TlsTermination : string;
  AuthUsername : string;
  AuthPassword : string
}.

(** [time.Duration] counts nanoseconds. *)
Definition Second : Z := 1000000000.

(** ** The response writer *)

(** [http.ResponseWriter]: the header map the handler edits, the status
    line once written together with the header map as it was sent, and the
    body bytes. *)
Record ResponseWriter : Type := mkResponseWriter {
  rw_header : http_Header;
  rw_status : option Z;
  rw_sent : http_Header;
  rw_body : string
}.

Definition newResponseWriter : ResponseWriter :=
  mkResponseWriter ∅ None ∅ "".

(** [w.Header()[k] = v] *)
Definition rw_set (k : string) (v : list string) (w : ResponseWriter) : ResponseWriter :=
  mkResponseWriter (<[k := v]> (rw_header w)) (rw_status w) (rw_sent w) (rw_body w).

(** [w.WriteHeader(code)]: the first call fixes status and headers, later
    calls are ignored by net/http. *)
Definition rw_WriteHeader (code : Z) (w : ResponseWriter) : ResponseWriter :=
  match rw_status w with
  | Some _ => w
  | None => mkResponseWriter (rw_header w) (Some code) (rw_header w) (rw_body w)
  end.

(** [w.Write(b)]: an implicit [WriteHeader(200)] when no status was written. *)
Definition rw_Write (b : string) (w : ResponseWriter) : ResponseWriter :=
  let w' := rw_WriteHeader 200 w in
  mkResponseWriter (rw_header w') (rw_status w') (rw_sent w') (rw_body w' +:+ b).

(** ** The store *)

(** Modelled from the spec: a user has a name, the key it is stored under,
    and an is_admin flag (the [Database] type, its records and its methods
    are declared outside the files at hand). *)
Record User : Type := mkUser {
  IsAdmin : bool
}.

(** Modelled from the spec: a token is an opaque string, the key it is
    stored under, owned by a user. *)
Record TokenData : Type := mkTokenData {
  Owner : string
}.

(** Modelled from the spec: a DNS provisioning request says whether it is
    about the admin domain and which records should result; the fields are
    the ones [setAdminDomain] fills in. *)
Record DNSRecord : Type := mkDNSRecord {
  dns_Type : string;
  dns_Value : string;
  dns_TTL : Z
}.

Record DNSRequest : Type := mkDNSRequest {
  IsAdminDomain : bool;
  Records : list DNSRecord
}.

(** Modelled from the spec: the persisted store holds the admin domain (a
    single string), tunnel records keyed by FQDN, users (name to flags),
    tokens (opaque string to owner name) and DNS provisioning requests
    (random id to request body). *)
Record Database : Type := mkDatabase {
  AdminDomain : string;
  Tunnels : gmap string Tunnel;
  Users : gmap string User;
  Tokens : gmap string TokenData;
  DNSRequests : gmap string DNSRequest
}.

(** Modelled from the spec: [get_tunnel(fqdn)] returns the record and
    whether it exists. *)
Definition db_GetTunnel (d : Database) (fqdn : string) : option Tunnel :=
  Tunnels d !! fqdn.

(** Modelled from the spec: the admin domain is a single stored string. *)
Definition db_GetAdminDomain (d : Database) : string := AdminDomain d.

Definition db_SetAdminDomain (name : string) (d : Database) : Database :=
  mkDatabase name (Tunnels d) (Users d) (Tokens d) (DNSRequests d).

(** Modelled from the spec: the core only reads users and tokens. *)
Definition db_GetUsers (d : Database) : gmap string User := Users d.

Definition db_GetTokens (d : Database) : gmap string TokenData := Tokens d.

(** Modelled from the spec: a user has a name and an is_admin flag. *)
Definition db_AddUser (name : string) (isAdmin : bool) (d : Database) : Database :=
  mkDatabase (AdminDomain d) (Tunnels d) (<[name := mkUser isAdmin]> (Users d))
             (Tokens d) (DNSRequests d).

(** Modelled from the spec: a token is an opaque random string owned by a
    user.  [code] is the outcome of drawing the random string; minting fails
    when the draw fails or the owner is no user of the store. *)
Definition db_AddToken (owner : string) (code : error + string) (d : Database)
  : (error + string) * Database :=
  match Users d !! owner, code with
  | None, _ => (inl "Owner doesn't exist", d)
  | Some _, inl e => (inl e, d)
  | Some _, inr token =>
      (inr token,
       mkDatabase (AdminDomain d) (Tunnels d) (Users d)
                  (<[token := mkTokenData owner]> (Tokens d)) (DNSRequests d))
  end.

(** Modelled from the spec: DNS provisioning requests are kept by id, read
    by the callbacks and deleted by them. *)
Definition db_GetDNSRequest (d : Database) (id : string) : error + DNSRequest :=
  match DNSRequests d !! id with
  | Some req => inr req
  | None => inl "No such DNS Request"
  end.

Definition db_DeleteDNSRequest (id : string) (d : Database) : Database :=
  mkDatabase (AdminDomain d) (Tunnels d) (Users d) (Tokens d) (delete id (DNSRequests d)).

Definition db_SetDNSRequest (id : string) (req : DNSRequest) (d : Database) : Database :=
  mkDatabase (AdminDomain d) (Tunnels d) (Users d) (Tokens d) (<[id := req]> (DNSRequests d)).

(** ** The world outside the process *)

(** [oauth2.Token], [namedrop.TokenData] and [namedrop.Record], the fields
    the program reads and writes. *)
Record oauth2_Token : Type := mkToken {
  AccessToken : string
}.

Record namedrop_Scope : Type := mkScope {
  scope_Domain : string;
  scope_Host : string
}.

Record namedrop_TokenData : Type := mkNamedropTokenData {
  Scopes : list namedrop_Scope
}.

Record namedrop_Record : Type := mkRecord {
  rec_Domain : string;
  rec_Host : string;
  rec_Type : string;
  rec_Value : string;
  rec_TTL : Z
}.

(** What the libraries and the network answer.  Each field is the result of
    one library call of the source; the program's own control flow around
    the calls is written out below. *)
Record World : Type := mkWorld {
  (* net/http *)
  BasicAuth : Request → option (string * string);
  url_Parse : string → error + url_URL;
  client_Do : Request → error + Response;
  http_Get : string → error + Response;
  (* golang.org/x/oauth2: nil token together with the error *)
  oauth_Exchange : string → error + oauth2_Token;
  (* encoding/json *)
  json_Unmarshal_TokenData : string → error + namedrop_TokenData;
  json_Marshal_Record : namedrop_Record → error + string;
  json_Marshal_DNSRequest : DNSRequest → error + string;
  (* certmagic *)
  ManageSync : list string → option error
}.

(** ** Serving one request *)

(** What a handler does besides writing the response, in order. *)
Inductive Event : Type :=
| EvPrint (line : string)
| EvSleep (d : Z)
| EvReadAll (b : ReadCloser)
| EvNewRequest (method url : string) (body : ReadCloser)
| EvDo (req : Request)
| EvGet (url : string)
| EvExchange (code : string)
| EvManageSync (names : list string)
| EvClose (b : ReadCloser)
| EvApi (r : Request)
| EvWebUi (r : Request).

(** The state a handler works on: its response writer, the store, and the
    trace of events so far (oldest first). *)
Record Serving : Type := mkServing {
  sv_w : ResponseWriter;
  sv_db : Database;
  sv_trace : list Event
}.

Definition serving (d : Database) : Serving := mkServing newResponseWriter d [].

Definition emit (e : Event) : Go Serving () :=
  λ s, (Next (), mkServing (sv_w s) (sv_db s) (sv_trace s ++ [e])).

Definition on_w (f : ResponseWriter → ResponseWriter) : Go Serving () :=
  λ s, (Next (), mkServing (f (sv_w s)) (sv_db s) (sv_trace s)).

Definition on_db (f : Database → Database) : Go Serving () :=
  λ s, (Next (), mkServing (sv_w s) (f (sv_db s)) (sv_trace s)).

Definition get_db : Go Serving Database := λ s, (Next (sv_db s), s).

Definition setHeader (k : string) (v : list string) : Go Serving () := on_w (rw_set k v).
Definition WriteHeader (code : Z) : Go Serving () := on_w (rw_WriteHeader code).
Definition io_WriteString (b : string) : Go Serving () := on_w (rw_Write b).
Definition time_Sleep (d : Z) : Go Serving () := emit (EvSleep d).

(** [io.ReadAll(b)]: the bytes read and the error that stopped the read. *)
Definition io_ReadAll (b : ReadCloser) : Go Serving (string * option error) :=
  emit (EvReadAll b);; mret (body_data b, body_err b).

(** [io.Copy(w, b)]: what can be read is written to the response. *)
Definition io_Copy (b : ReadCloser) : Go Serving () :=
  emit (EvReadAll b);; on_w (rw_Write (body_data b)).

(** [b.Close()] of a deferred call, as a state change. *)
Definition closing (b : ReadCloser) (s : Serving) : Serving :=
  mkServing (sv_w s) (sv_db s) (sv_trace s ++ [EvClose b]).

(** The status line, the headers and the body the client receives. *)
Definition status (s : Serving) : option Z := rw_status (sv_w s).
Definition sent_header (s : Serving) (k : string) : option (list string) :=
  rw_sent (sv_w s) !! k.
Definition sent_body (s : Serving) : string := rw_body (sv_w s).

(** The [Host] header of a request as [Client.Do] puts it on the wire:
    [req.Host], and the URL's host when that is empty. *)
Definition wire_Host (req : Request) : string :=
  if decide (Host req = "") then UrlHost (URL req) else Host req.

Section Proxy.
Context (W : World).

(** [http.NewRequest(method, url, body)]: an empty method means GET, the URL
    must parse, the [Host] field starts as the URL's host and the header map
    empty. *)
Definition http_NewRequest (method url : string) (body : ReadCloser)
  : Go Serving (error + Request) :=
  emit (EvNewRequest method url body);;
  mret (match url_Parse W url with
        | inl e => inl e
        | inr u =>
            inr (mkRequest (if decide (method = "") then "GET" else method)
                           u (UrlHost u) "" "" ∅ body ∅)
        end).

Definition httpClient_Do (req : Request) : Go Serving (error + Response) :=
  emit (EvDo req);; mret (client_Do W req).

(** [proxyRequest(w, r, tunnel, httpClient, port)] *)
Definition proxyRequest (r : Request) (tunnel : Tunnel) (port : Z) : Go Serving () :=
  when (bool_decide (AuthUsername tunnel ≠ "") || bool_decide (AuthPassword tunnel ≠ ""))
    (match BasicAuth W r with
     | None =>
         setHeader "WWW-Authenticate" ["Basic"];;
         WriteHeader 401;;
         return_
     | Some (username, password) =>
         when (bool_decide (username ≠ AuthUsername tunnel)
               || bool_decide (password ≠ AuthPassword tunnel))
           (setHeader "WWW-Authenticate" ["Basic"];;
            WriteHeader 401;;
            time_Sleep (2 * Second);;
            return_)
     end);;
  let downstreamReqHeaders := Header_Clone (Header r) in
  let upstreamAddr := "localhost:" +:+ pretty port in
  let upstreamUrl := "http://" +:+ upstreamAddr +:+ URL_RequestURI (URL r) in
  '(body, err) ← io_ReadAll (Body r);
  match err with
  | Some e => WriteHeader 500;; io_WriteString e;; return_
  | None => mret ()
  end;;
  made ← http_NewRequest (Method r) upstreamUrl (bytes_NewReader body);
  match made with
  | inl e => WriteHeader 500;; io_WriteString e;; return_
  | inr upstreamReq =>
      let upstreamReq :=
        mkRequest (Method upstreamReq) (URL upstreamReq)
                  (ClientAddress tunnel +:+ ":" +:+ pretty (ClientPort tunnel))
                  (RequestURI upstreamReq) (RemoteAddr upstreamReq)
                  (<["X-Forwarded-Host" := [Host r]]> downstreamReqHeaders)
                  (Body upstreamReq) (Form upstreamReq) in
      answered ← httpClient_Do upstreamReq;
      match answered with
      | inl e => WriteHeader 502;; io_WriteString e;; return_
      | inr upstreamRes =>
          defer (closing (resp_Body upstreamRes))
            (on_w (λ w, mkResponseWriter (resp_Header upstreamRes ∪ rw_header w)
                          (rw_status w) (rw_sent w) (rw_body w));;
             WriteHeader (StatusCode upstreamRes);;
             io_Copy (resp_Body upstreamRes))
      end
  end.

End Proxy.

(** ** Small pieces of the Go standard library *)

(** [strings.Split(s, ":")[0]]: the part of [s] before its first colon, all
    of [s] when it has none. *)
Fixpoint before_colon (s : string) : string :=
  match s with
  | EmptyString => EmptyString
  | String c rest =>
      if Ascii.eqb c ":"%char then EmptyString else String c (before_colon rest)
  end.

(** [strings.HasPrefix] and [strings.TrimPrefix]. *)
Definition strings_HasPrefix (s p : string) : bool := String.prefix p s.

Definition strings_TrimPrefix (s p : string) : string :=
  if String.prefix p s
  then String.substring (String.length p) (String.length s - String.length p) s
  else s.

Definition dquote : string := String (Ascii.ascii_of_nat 34) EmptyString.
Definition newline : string := String (Ascii.ascii_of_nat 10) EmptyString.

(** [http.StatusText] for the codes the program redirects with. *)
Definition http_StatusText (code : Z) : string :=
  if decide (code = 301) then "Moved Permanently"
  else if decide (code = 303) then "See Other"
  else "".

(** The HTML escaping [http.Redirect] applies to the URL in its note. *)
Fixpoint htmlEscape (s : string) : string :=
  match s with
  | EmptyString => EmptyString
  | String c rest =>
      (if Ascii.eqb c "&"%char then "&amp;"
       else if Ascii.eqb c "<"%char then "&lt;"
       else if Ascii.eqb c ">"%char then "&gt;"
       else if Ascii.eqb c (Ascii.ascii_of_nat 34) then "&#34;"
       else if Ascii.eqb c "'"%char then "&#39;"
       else String c EmptyString) +:+ htmlEscape rest
  end.

(** [http.Redirect(w, r, url, code)] for the URLs the program passes (an
    absolute URL or a clean rooted path, in ASCII): [Location] is the URL; a
    GET or HEAD request without a content type gets one, and a GET request
    a one-line HTML note as body. *)
Definition http_Redirect (r : Request) (url : string) (code : Z) : Go Serving () :=
  on_w (λ w,
    let hadCT := bool_decide (is_Some (rw_header w !! "Content-Type")) in
    let w1 := rw_set "Location" [url] w in
    let w2 := if negb hadCT && (bool_decide (Method r = "GET") || bool_decide (Method r = "HEAD"))
              then rw_set "Content-Type" ["text/html; charset=utf-8"] w1
              else w1 in
    let w3 := rw_WriteHeader code w2 in
    if negb hadCT && bool_decide (Method r = "GET")
    then rw_Write ("<a href=" +:+ dquote +:+ htmlEscape url +:+ dquote +:+ ">"
                   +:+ http_StatusText code +:+ "</a>." +:+ newline +:+ newline) w3
    else w3).

(** [log.Fatal(v)]: print, then [os.Exit(1)]. *)
Definition log_Fatal (line : string) : Go Serving () :=
  emit (EvPrint line);; exit_.

(** A nil pointer dereference. *)
Definition nil_dereference {S A : Type} : Go S A :=
  λ s, (Panicked "invalid memory address or nil pointer dereference", s).

(** ** The virtual-host router: the handler registered for [/] *)

Section Router.
Context (W : World).
(** [config.PublicIp] and the clock reading of [time.Now()], formatted. *)
Context (PublicIp : string) (timestamp : string).

(** The [w.WriteHeader(500); io.WriteString(w, msg); return] of every
    failing branch. *)
Definition fail500 (msg : string) : Go Serving () :=
  WriteHeader 500;; io_WriteString msg;; return_.

(** Branch [r.URL.Path == "/dnsapi/requests"]. *)
Definition dnsapiRequests (r : Request) : Go Serving () :=
  let requestId := Values_Get (Form r) "request-id" in
  d ← get_db;
  match db_GetDNSRequest d requestId with
  | inl err => fail500 err
  | inr dnsRequest =>
      match json_Marshal_DNSRequest W dnsRequest with
      | inl err => fail500 err
      | inr jsonBytes => io_WriteString jsonBytes
      end
  end.

(** Branch [r.URL.Path == "/namedrop/auth-success"]. *)
Definition namedropAuthSuccess (r : Request) : Go Serving () :=
  let requestId := Values_Get (Form r) "state" in
  let code := Values_Get (Form r) "code" in
  d ← get_db;
  match db_GetDNSRequest d requestId with
  | inl err => fail500 err
  | inr dnsRequest =>
  on_db (db_DeleteDNSRequest requestId);;
  emit (EvExchange code);;
  (* tok, err := oauthConf.Exchange(ctx, code): the error is printed and the
     body goes on with the nil token *)
  tok ← match oauth_Exchange W code with
        | inl err => emit (EvPrint err);; mret None
        | inr t => mret (Some t)
        end;
  accessToken ← match tok with
                | None => nil_dereference
                | Some t => mret (AccessToken t)
                end;
  let tokenUrl := "https://takingnames.io/namedrop/token-data?access_token=" +:+ accessToken in
  emit (EvGet tokenUrl);;
  match http_Get W tokenUrl with
  | inl err => fail500 err
  | inr tokenResp =>
  defer (closing (resp_Body tokenResp)) (
  '(bodyJson, _) ← io_ReadAll (resp_Body tokenResp);
  match json_Unmarshal_TokenData W bodyJson with
  | inl err => fail500 err
  | inr namedropTokenData =>
  match Scopes namedropTokenData with
  | [] => fail500 "No scopes returned"
  | scope0 :: _ =>
  let domain := scope_Domain scope0 in
  let host := scope_Host scope0 in
  let createRecordReq := mkRecord domain host "A" PublicIp 300 in
  match json_Marshal_Record W createRecordReq with
  | inl err => fail500 err
  | inr createRecordReqJson =>
  let url := "https://takingnames.io/namedrop/records?access_token=" +:+ accessToken in
  made ← http_NewRequest W "PUT" url (bytes_NewReader createRecordReqJson);
  match made with
  | inl err => fail500 err
  | inr req =>
  answered ← httpClient_Do W req;
  match answered with
  | inl err => fail500 err
  | inr resp =>
  defer (closing (resp_Body resp)) (
  '(body, err) ← io_ReadAll (resp_Body resp);
  match err with
  | Some e => fail500 e
  | None => mret ()
  end;;
  emit (EvPrint body);;
  when (bool_decide (StatusCode resp ≠ 200)) (fail500 "Invalid status code");;
  let fqdn := host +:+ "." +:+ domain in
  if IsAdminDomain dnsRequest
  then
    on_db (db_SetAdminDomain fqdn);;
    emit (EvManageSync [fqdn]);;
    match ManageSync W [fqdn] with
    | Some err => log_Fatal err
    | None => mret ()
    end;;
    http_Redirect r ("https://" +:+ fqdn) 303
  else
    d' ← get_db;
    let adminDomain := db_GetAdminDomain d' in
    http_Redirect r ("https://" +:+ adminDomain +:+ "/edit-tunnel?domain=" +:+ fqdn) 303)
  end end end end end) end end.

(** Branch [r.URL.Path == "/dnsapi/failure"]. *)
Definition dnsapiFailure (r : Request) : Go Serving () :=
  let requestId := Values_Get (Form r) "request-id" in
  d ← get_db;
  match db_GetDNSRequest d requestId with
  | inl err => fail500 err
  | inr _ =>
      on_db (db_DeleteDNSRequest requestId);;
      http_Redirect r "/alert?message=Domain request failed" 303
  end.

(** [http.StripPrefix("/api", api).ServeHTTP(w, r)]: the API collaborator
    receives the request with the prefix cut from its path. *)
Definition stripApi (r : Request) : Request :=
  mkRequest (Method r)
            (mkURL (Scheme (URL r)) (UrlHost (URL r))
                   (strings_TrimPrefix (Path (URL r)) "/api") (RawQuery (URL r)))
            (Host r) (RequestURI r) (RemoteAddr r) (Header r) (Body r) (Form r).

(** The function given to [http.HandleFunc("/", ...)]. *)
Definition rootHandler (r : Request) : Go Serving () :=
  let srcIp := before_colon (RemoteAddr r) in
  emit (EvPrint (timestamp +:+ " " +:+ srcIp +:+ " " +:+ Method r +:+ " "
                 +:+ Host r +:+ " " +:+ Path (URL r)));;
  let hostDomain := before_colon (Host r) in
  d ← get_db;
  if decide (Path (URL r) = "/dnsapi/requests") then dnsapiRequests r
  else if decide (Path (URL r) = "/namedrop/auth-success") then namedropAuthSuccess r
  else if decide (Path (URL r) = "/dnsapi/failure") then dnsapiFailure r
  else if decide (hostDomain = db_GetAdminDomain d) then
    if strings_HasPrefix (Path (URL r)) "/api/"
    then emit (EvApi (stripApi r))
    else emit (EvWebUi r)
  else
    match db_GetTunnel d hostDomain with
    | None => fail500 ("No tunnel attached to " +:+ hostDomain)
    | Some tunnel => call (proxyRequest W r tunnel (TunnelPort tunnel))
    end.

(** ** The HTTP port *)

(** The closure [redirectTLS] of [Listen]. *)
Definition redirectTLS (httpsPort : Z) (r : Request) : Go Serving () :=
  let url := "https://" +:+ Host r +:+ ":" +:+ pretty httpsPort +:+ RequestURI r in
  http_Redirect r url 301.

(** The handler [Listen] gives to [http.ListenAndServe] on the HTTP port:
    [nil], that is the default mux with its one pattern [/], when
    [allow-http] is set, and [redirectTLS] alone otherwise. *)
Definition httpPortHandler (allowHttp : bool) (httpsPort : Z) (r : Request) : Go Serving () :=
  if allowHttp then rootHandler r else redirectTLS httpsPort r.

End Router.

(** An earlier revision of the redirect, with the HTTPS port fixed. *)
Definition redirectTLS_443 (r : Request) : Go Serving () :=
  let url := "https://" +:+ Host r +:+ ":443" +:+ RequestURI r in
  emit (EvPrint ("redir " +:+ url));;
  http_Redirect r url 301.

(** ** The edge dispatcher *)

(** A TCP connection, by identity. *)
Record Conn : Type := mkConn {
  conn_id : nat
}.

(** [tls.ClientHelloInfo], the field the dispatcher reads. *)
Record ClientHelloInfo : Type := mkClientHelloInfo {
  ServerName : string
}.

(** Modelled from the spec: the reader [peekClientHello] hands back, the
    bytes it consumed, to be read again first, in front of the connection
    they came from. *)
Record Replay : Type := mkReplay {
  peeked : string;
  rest_of : Conn
}.

(** Modelled from the spec: [NewProxyConn(conn, reader)] (declared outside
    the files at hand), the connection whose reads come from the replaying
    reader. *)
Record ProxyConn : Type := NewProxyConn {
  pc_conn : Conn;
  pc_reader : Replay
}.

(** What the network answers to the dispatcher.  [peekClientHello] is
    declared outside the files at hand; by the spec it only reads from the
    connection and fails with a malformed hello or an I/O error. *)
Record Network : Type := mkNetwork {
  peekClientHello : Conn → error + (ClientHelloInfo * Replay);
  net_Dial : string → string → error + Conn
}.

(** What the dispatcher does to connections, in order.  [EdSplice c up]
    stands for the two copying goroutines of [passthroughRequest] (client to
    upstream and back, each half-closing its destination when its source
    ends) up to the point where both have finished. *)
Inductive EdgeEvent : Type :=
| EdLog (line : string)
| EdDial (network address : string)
| EdSplice (c : ProxyConn) (up : Conn)
| EdClose (c : Conn).

(** The [Server] of the source: the store and the listener that feeds the
    HTTPS server, with the trace.  The listener is the queue of connections
    submitted and not yet accepted, oldest first. *)
Record Server : Type := mkServer {
  srv_db : Database;
  httpListener : list ProxyConn;
  srv_trace : list EdgeEvent
}.

Definition edge (e : EdgeEvent) : Go Server () :=
  λ p, (Next (), mkServer (srv_db p) (httpListener p) (srv_trace p ++ [e])).

(** Modelled from the spec: [PassConn], the spec's submit (the
    [PassthroughListener] type is declared outside the files at hand), hands
    the connection to the listener, which delivers in FIFO order. *)
Definition PassConn (c : ProxyConn) : Go Server () :=
  λ p, (Next (), mkServer (srv_db p) (httpListener p ++ [c]) (srv_trace p)).

Definition closing_conn (c : Conn) (p : Server) : Server :=
  mkServer (srv_db p) (httpListener p) (srv_trace p ++ [EdClose c]).

Definition get_server : Go Server Server := λ p, (Next p, p).

Section Edge.
Context (N : Network).

(** [(p *Server) passthroughRequest(conn, tunnel)] *)
Definition passthroughRequest (conn : ProxyConn) (tunnel : Tunnel) : Go Server () :=
  let upstreamAddr := "localhost:" +:+ pretty (TunnelPort tunnel) in
  edge (EdDial "tcp" upstreamAddr);;
  match net_Dial N "tcp" upstreamAddr with
  | inl err => edge (EdLog err);; return_
  | inr upstreamConn =>
      defer (closing_conn upstreamConn) (edge (EdSplice conn upstreamConn))
  end.

(** [(p *Server) handleConnection(clientConn)] *)
Definition handleConnection (clientConn : Conn) : Go Server () :=
  match peekClientHello N clientConn with
  | inl err => edge (EdLog ("peekClientHello error " +:+ err));; return_
  | inr (clientHello, clientReader) =>
      let passConn := NewProxyConn clientConn clientReader in
      p ← get_server;
      match db_GetTunnel (srv_db p) (ServerName clientHello) with
      | Some tunnel =>
          if bool_decide (TlsTermination tunnel = "client")
             || bool_decide (TlsTermination tunnel = "passthrough")
          then call (passthroughRequest passConn tunnel)
          else PassConn passConn
      | None => PassConn passConn
      end
  end.

End Edge.

(** ** Start-up: [Listen] up to the login banner *)

(** The command-line flags of [Listen]. *)
Record Flags : Type := mkFlags {
  newAdminDomain : string;
  sshServerPort : Z;
  certDir : string;
  printLogin : bool;
  httpPort : Z;
  httpsPort : Z;
  allowHttp : bool
}.

(** What start-up reads from outside: the outcome of the two reachability
    probes, the stored database, the lines typed on standard input and the
    random codes drawn, by draw number. *)
Record Machine : Type := mkMachine {
  checkPublicAddress : string → Z → option error;
  NewDatabase : error + Database;
  stdin_lines : list string;
  genRandomCode : nat → Z → error + string
}.

Inductive BootEvent : Type :=
| BtLog (line : string)
| BtManageSync (names : list string)
| BtLoginInfo (token adminDomain : string).

(** The state of start-up: the store, the standard input left to read, the
    number of random codes drawn, and the trace. *)
Record Boot : Type := mkBoot {
  bt_db : Database;
  bt_stdin : list string;
  bt_draws : nat;
  bt_trace : list BootEvent
}.

Definition boot (e : BootEvent) : Go Boot () :=
  λ b, (Next (), mkBoot (bt_db b) (bt_stdin b) (bt_draws b) (bt_trace b ++ [e])).

Definition boot_db (f : Database → Database) : Go Boot () :=
  λ b, (Next (), mkBoot (f (bt_db b)) (bt_stdin b) (bt_draws b) (bt_trace b)).

Definition get_boot : Go Boot Boot := λ b, (Next b, b).

(** [log.Fatal] during start-up. *)
Definition boot_Fatal {A : Type} (line : string) : Go Boot A :=
  boot (BtLog line);; exit_.

Section Startup.
Context (W : World) (Mc : Machine) (flags : Flags).

(** [prompt(text)]: print, read one line, trim it (the lines of
    [stdin_lines] are kept trimmed; end of input reads as the empty line). *)
Definition read_line : Go Boot string :=
  λ b, match bt_stdin b with
       | [] => (Next "", b)
       | line :: more => (Next line, mkBoot (bt_db b) more (bt_draws b) (bt_trace b))
       end.

Definition prompt (promptText : string) : Go Boot string :=
  boot (BtLog promptText);; read_line.

(** [genRandomCode(n)] *)
Definition draw (n : Z) : Go Boot (error + string) :=
  λ b, (Next (genRandomCode Mc (bt_draws b) n),
        mkBoot (bt_db b) (bt_stdin b) (S (bt_draws b)) (bt_trace b)).

(** [certConfig.ManageSync(names)] followed by [log.Fatal] on error. *)
Definition manage_or_die (names : list string) : Go Boot () :=
  boot (BtManageSync names);;
  match ManageSync W names with
  | Some err => boot_Fatal err
  | None => mret ()
  end.

(** [getPublicIp()]: only a failed request is an error, the body is
    returned as far as it could be read. *)
Definition getPublicIp : error + string :=
  match http_Get W "https://takingnames.io/my-ip" with
  | inl err => inl err
  | inr resp => inr (body_data (resp_Body resp))
  end.

(** [setAdminDomain(ip, certConfig, db)]; its result is the returned error. *)
Definition setAdminDomain (ip : string) : Go Boot (option error) :=
  action ← prompt (newline +:+ "No admin domain set. Enter '1' to input manually, or '2' to configure through TakingNames.io" +:+ newline);
  if decide (action = "1") then
    adminDomain ← prompt (newline +:+ "Enter admin domain:" +:+ newline);
    manage_or_die [adminDomain];;
    boot_db (db_SetAdminDomain adminDomain);;
    mret None
  else if decide (action = "2") then
    boot (BtLog "Get bootstrap domain");;
    match http_Get W "https://takingnames.io/dnsapi/bootstrap-domain" with
    | inl err => mret (Some err)
    | inr resp =>
        let bootstrapDomain := body_data (resp_Body resp) in
        if bool_decide (StatusCode resp ≠ 200) then
          boot (BtLog bootstrapDomain);;
          mret (Some "bootstrap domain request failed")
        else
          boot (BtLog "Get cert");;
          manage_or_die [bootstrapDomain];;
          drawn ← draw 32;
          let requestId := match drawn with inl _ => "" | inr c => c end in
          let req := mkDNSRequest true [mkDNSRecord "A" ip 300] in
          boot_db (db_SetDNSRequest requestId req);;
          boot (BtLog ("Use the link below to select an admin domain:" +:+ newline +:+ newline
                       +:+ "https://takingnames.io/dnsapi?requester=" +:+ bootstrapDomain
                       +:+ "&request-id=" +:+ requestId +:+ newline));;
          mret None
    end
  else boot_Fatal "Invalid option".

(** The block headed [// Add admin user if it doesn't already exist]. *)
Definition addAdminUser : Go Boot () :=
  b ← get_boot;
  let users := db_GetUsers (bt_db b) in
  when (bool_decide (size users = 0%nat))
    (boot_db (db_AddUser "admin" true);;
     drawn ← draw 32;
     b' ← get_boot;
     let '(minted, d') := db_AddToken "admin" drawn (bt_db b') in
     boot_db (λ _, d');;
     match minted with
     | inl _ => boot_Fatal "Failed to initialize admin user"
     | inr _ => mret ()
     end).

(** The [*printLogin] block: the login data of one token owned by admin, if
    there is one (the map is ranged over in some order; the first hit in
    the order of [map_to_list] is taken here). *)
Definition printLoginBlock : Go Boot () :=
  when (printLogin flags)
    (b ← get_boot;
     match filter (λ kv, Owner kv.2 = "admin") (map_to_list (db_GetTokens (bt_db b))) with
     | (token, _) :: _ => boot (BtLoginInfo token (db_GetAdminDomain (bt_db b)))
     | [] => mret ()
     end).

(** [Listen], from [Starting up] to the login banner.  The body goes on to
    build the handlers and to enter the accept loop; nothing after this
    point writes users or tokens before requests are served. *)
Definition Listen_startup : Go Boot () :=
  boot (BtLog "Starting up");;
  match getPublicIp with
  | inl err => boot_Fatal err
  | inr ip =>
  match checkPublicAddress Mc ip (httpPort flags) with
  | Some err => boot_Fatal err
  | None =>
  match checkPublicAddress Mc ip (httpsPort flags) with
  | Some err => boot_Fatal err
  | None =>
  match NewDatabase Mc with
  | inl err => boot_Fatal err
  | inr stored =>
  boot_db (λ _, stored);;
  when (bool_decide (newAdminDomain flags ≠ ""))
    (boot_db (db_SetAdminDomain (newAdminDomain flags)));;
  b ← get_boot;
  let adminDomain := db_GetAdminDomain (bt_db b) in
  (if decide (adminDomain = "") then
     failed ← setAdminDomain ip;
     match failed with
     | Some err => boot_Fatal err
     | None => mret ()
     end
   else
     manage_or_die [adminDomain];;
     boot (BtLog ("Successfully acquired certificate for admin domain ("
                  +:+ adminDomain +:+ ")")));;
  addAdminUser;;
  printLoginBlock
  end end end end.

End Startup.

(** The start-up state: nothing loaded yet. *)
Definition power_on (Mc : Machine) : Boot :=
  mkBoot (mkDatabase "" ∅ ∅ ∅ ∅) (stdin_lines Mc) 0 [].

(** ** Notions the statements use *)

(** The events a body adds to the trace when run from [s]. *)
Definition added {A : Type} (m : Go Serving A) (s : Serving) : list Event :=
  drop (length (sv_trace s)) (sv_trace (exec m s)).

(** The Basic-Auth gate of [proxyRequest] lets the request through: the
    tunnel defines no credentials, or the request carries exactly them. *)
Definition gate_open (W : World) (r : Request) (tunnel : Tunnel) : Prop :=
  (AuthUsername tunnel = "" ∧ AuthPassword tunnel = "")
  ∨ BasicAuth W r = Some (AuthUsername tunnel, AuthPassword tunnel).

(** The same tunnel with its credentials removed. *)
Definition without_auth (tunnel : Tunnel) : Tunnel :=
  mkTunnel (Domain tunnel) (TunnelPort tunnel) (ClientAddress tunnel) (ClientPort tunnel)
           (TlsTermination tunnel) "" "".

(** The URL [proxyRequest] builds for the backend. *)
Definition upstream_url (r : Request) (port : Z) : string :=
  "http://" +:+ ("localhost:" +:+ pretty port) +:+ URL_RequestURI (URL r).

(** The request [proxyRequest] sends once [http.NewRequest] parsed the URL
    into [u]. *)
Definition upstream_request (r : Request) (tunnel : Tunnel) (u : url_URL) : Request :=
  mkRequest (if decide (Method r = "") then "GET" else Method r) u
            (ClientAddress tunnel +:+ ":" +:+ pretty (ClientPort tunnel)) "" ""
            (<["X-Forwarded-Host" := [Host r]]> (Header r))
            (bytes_NewReader (body_data (Body r))) ∅.

(** The cases of [proxyRequest], by what it adds to the trace. *)
Inductive ProxyCase (W : World) (r : Request) (tunnel : Tunnel) (port : Z)
  : list Event → Prop :=
| case_denied :
    AuthUsername tunnel ≠ "" ∨ AuthPassword tunnel ≠ "" →
    BasicAuth W r = None →
    ProxyCase W r tunnel port []
| case_wrong u p :
    AuthUsername tunnel ≠ "" ∨ AuthPassword tunnel ≠ "" →
    BasicAuth W r = Some (u, p) →
    u ≠ AuthUsername tunnel ∨ p ≠ AuthPassword tunnel →
    ProxyCase W r tunnel port [EvSleep (2 * Second)]
| case_unread e :
    gate_open W r tunnel →
    body_err (Body r) = Some e →
    ProxyCase W r tunnel port [EvReadAll (Body r)]
| case_unbuilt e :
    gate_open W r tunnel →
    body_err (Body r) = None →
    url_Parse W (upstream_url r port) = inl e →
    ProxyCase W r tunnel port
      [EvReadAll (Body r);
       EvNewRequest (Method r) (upstream_url r port) (bytes_NewReader (body_data (Body r)))]
| case_unreached u e :
    gate_open W r tunnel →
    body_err (Body r) = None →
    url_Parse W (upstream_url r port) = inr u →
    client_Do W (upstream_request r tunnel u) = inl e →
    ProxyCase W r tunnel port
      [EvReadAll (Body r);
       EvNewRequest (Method r) (upstream_url r port) (bytes_NewReader (body_data (Body r)));
       EvDo (upstream_request r tunnel u)]
| case_answered u res :
    gate_open W r tunnel →
    body_err (Body r) = None →
    url_Parse W (upstream_url r port) = inr u →
    client_Do W (upstream_request r tunnel u) = inr res →
    ProxyCase W r tunnel port
      [EvReadAll (Body r);
       EvNewRequest (Method r) (upstream_url r port) (bytes_NewReader (body_data (Body r)));
       EvDo (upstream_request r tunnel u);
       EvReadAll (resp_Body res);
       EvClose (resp_Body res)].

(** How the [/namedrop/auth-success] branch can end when the code exchange
    worked: the flow, the status sent and the events added. *)
Inductive AuthSuccessEnd (W : World) : Flow () → option Z → list Event → Prop :=
| end_500 evs :
    (∀ names, EvManageSync names ∉ evs) →
    (∀ req resp, EvDo req ∈ evs → client_Do W req = inr resp →
       StatusCode resp = 200 → body_err (resp_Body resp) ≠ None) →
    AuthSuccessEnd W Returned (Some 500) evs
| end_redirect evs req :
    EvDo req ∈ evs →
    (∀ req', EvDo req' ∈ evs →
       ∃ resp, client_Do W req' = inr resp ∧ StatusCode resp = 200) →
    (∀ names, EvManageSync names ∈ evs → ManageSync W names = None) →
    AuthSuccessEnd W (Next ()) (Some 303) evs
| end_exit evs names e :
    EvManageSync names ∈ evs → ManageSync W names = Some e →
    (∀ req', EvDo req' ∈ evs →
       ∃ resp, client_Do W req' = inr resp ∧ StatusCode resp = 200) →
    AuthSuccessEnd W Exited None evs.

(** A request for an ACME HTTP-01 challenge (RFC 8555, section 8.3). *)
Definition is_acme_challenge (r : Request) : Prop :=
  strings_HasPrefix (Path (URL r)) "/.well-known/acme-challenge/" = true.

(** The events the dispatcher adds to the trace when run from [p]. *)
Definition edge_added (m : Go Server ()) (p : Server) : list EdgeEvent :=
  drop (length (srv_trace p)) (srv_trace (exec m p)).

(** The address [passthroughRequest] dials for a tunnel. *)
Definition upstream_addr (tunnel : Tunnel) : string :=
  "localhost:" +:+ pretty (TunnelPort tunnel).

(** The tunnel's policy keeps TLS termination away from the proxy. *)
Definition passes_through (tunnel : Tunnel) : Prop :=
  TlsTermination tunnel = "client" ∨ TlsTermination tunnel = "passthrough".

(** Users and tokens of the store during start-up. *)
Definition accounts (b : Boot) : gmap string User * gmap string TokenData :=
  (Users (bt_db b), Tokens (bt_db b)).

(** ** Sample inputs *)

(** The tunnels of the spec's scenarios S1, S2 and S3. *)
Definition tunnel_a : Tunnel :=
  mkTunnel "a.example" 9001 "a.example" 443 "passthrough" "" "".
Definition tunnel_b : Tunnel :=
  mkTunnel "b.example" 9002 "b.example" 443 "server" "" "".
Definition tunnel_c : Tunnel :=
  mkTunnel "c.example" 9003 "c.example" 443 "server" "u" "p".

(** A pending DNS provisioning request for the admin domain. *)
Definition admin_dns_request : DNSRequest :=
  mkDNSRequest true [mkDNSRecord "A" "198.51.100.1" 300].

Definition store_example : Database :=
  mkDatabase "admin.example"
             {[ "a.example" := tunnel_a; "b.example" := tunnel_b; "c.example" := tunnel_c ]}
             ∅ ∅ {[ "req1" := admin_dns_request ]}.

(** A stored database that already has a user, and no token. *)
Definition store_bob : Database :=
  mkDatabase "admin.example" ∅ {[ "bob" := mkUser false ]} ∅ ∅.

(** A stored database of a first start. *)
Definition store_new : Database := mkDatabase "admin.example" ∅ ∅ ∅ ∅.

(** [s] cut at the first occurrence of [sep]. *)
Definition cut (sep s : string) : option (string * string) :=
  match String.index 0 sep s with
  | Some i =>
      Some (String.substring 0 i s,
            String.substring (i + String.length sep)
                             (String.length s - i - String.length sep) s)
  | None => None
  end.

(** A URL parser for the sample worlds: [scheme://host/path?query]. *)
Definition parse_url (s : string) : error + url_URL :=
  match cut "://" s with
  | None => inl ("parse " +:+ s +:+ ": missing protocol scheme")
  | Some (scheme, rest) =>
      let '(host, tail) :=
        match cut "/" rest with
        | Some (h, t) => (h, "/" +:+ t)
        | None => (rest, "")
        end in
      let '(path, query) :=
        match cut "?" tail with
        | Some (p, q) => (p, q)
        | None => (tail, "")
        end in
      inr (mkURL scheme host path query)
  end.

(** Basic-Auth decoding for the sample worlds: the two header values are
    the base64 forms of [u:p] and [u:x]. *)
Definition sample_BasicAuth (r : Request) : option (string * string) :=
  match Header r !! "Authorization" with
  | Some [v] =>
      if decide (v = "Basic dTpw") then Some ("u", "p")
      else if decide (v = "Basic dTp4") then Some ("u", "x")
      else None
  | _ => None
  end.

(** A world in which every call succeeds: backends answer 200, the DNS
    service grants [admin.example], certificates are issued. *)
Definition calm : World :=
  mkWorld sample_BasicAuth parse_url
          (λ _, inr (mkResponse 200 ∅ (mkBody "ok" None)))
          (λ _, inr (mkResponse 200 ∅ (mkBody "{scopes}" None)))
          (λ _, inr (mkToken "tok"))
          (λ _, inr (mkNamedropTokenData [mkScope "example" "admin"]))
          (λ _, inr "{record}")
          (λ _, inr "{request}")
          (λ _, None).

Definition with_Do (answer : Request → error + Response) (W : World) : World :=
  mkWorld (BasicAuth W) (url_Parse W) answer (http_Get W) (oauth_Exchange W)
          (json_Unmarshal_TokenData W) (json_Marshal_Record W) (json_Marshal_DNSRequest W)
          (ManageSync W).

Definition with_ManageSync (answer : list string → option error) (W : World) : World :=
  mkWorld (BasicAuth W) (url_Parse W) (client_Do W) (http_Get W) (oauth_Exchange W)
          (json_Unmarshal_TokenData W) (json_Marshal_Record W) (json_Marshal_DNSRequest W)
          answer.

Definition with_Exchange (answer : string → error + oauth2_Token) (W : World) : World :=
  mkWorld (BasicAuth W) (url_Parse W) (client_Do W) (http_Get W) answer
          (json_Unmarshal_TokenData W) (json_Marshal_Record W) (json_Marshal_DNSRequest W)
          (ManageSync W).

(** Nothing listens on the tunnel port. *)
Definition backend_down : World :=
  with_Do (λ _, inl "dial tcp 127.0.0.1:9002: connect: connection refused") calm.

(** The DNS service refuses to create the record. *)
Definition dns_refusing : World :=
  with_Do (λ _, inr (mkResponse 403 ∅ (mkBody "forbidden" None))) calm.

(** The authorisation server rejects the code. *)
Definition oauth_rejecting : World :=
  with_Exchange (λ _, inl "oauth2: cannot fetch token: 400 Bad Request") calm.

(** The certificate authority refuses every order. *)
Definition acme_failing : World :=
  with_ManageSync (λ _, Some "acme: could not obtain certificate") calm.

Definition get_request (host uri path query : string) (h : http_Header) : Request :=
  mkRequest "GET" (mkURL "" "" path query) host uri "203.0.113.7:50000" h
            (mkBody "" None) ∅.

(** [GET /x] for [b.example], as in scenario S2. *)
Definition request_b : Request := get_request "b.example" "/x" "/x" "" ∅.

(** [GET /x] for [c.example] with an [Authorization] header. *)
Definition request_c (authorization : string) : Request :=
  get_request "c.example" "/x" "/x" "" {[ "Authorization" := [authorization] ]}.

Definition request_c_anonymous : Request := get_request "c.example" "/x" "/x" "" ∅.

(** An ACME HTTP-01 validation request. *)
Definition acme_request : Request :=
  get_request "a.example" "/.well-known/acme-challenge/tok"
              "/.well-known/acme-challenge/tok" "" ∅.

(** The OAuth callback for the pending request [req1]. *)
Definition callback_request : Request :=
  mkRequest "GET" (mkURL "" "" "/namedrop/auth-success" "state=req1&code=c0de")
            "admin.example" "/namedrop/auth-success?state=req1&code=c0de"
            "203.0.113.7:50000" ∅ (mkBody "" None)
            {[ "state" := ["req1"]; "code" := ["c0de"] ]}.

(** The record-creation request the callback sends in the sample worlds. *)
Definition record_request : Request :=
  mkRequest "PUT" (mkURL "https" "takingnames.io" "/namedrop/records" "access_token=tok")
            "takingnames.io" "" "" ∅ (bytes_NewReader "{record}") ∅.

Definition conn1 : Conn := mkConn 1.
Definition conn2 : Conn := mkConn 2.
Definition hello_a : ClientHelloInfo := mkClientHelloInfo "a.example".
Definition replay1 : Replay := mkReplay "ClientHello(a.example)" conn1.

(** The hello names [a.example]; nothing listens on the tunnel port. *)
Definition net_refusing : Network :=
  mkNetwork (λ _, inr (hello_a, replay1))
            (λ _ _, inl "dial tcp 127.0.0.1:9001: connect: connection refused").

(** The hello names [a.example]; the backend accepts. *)
Definition net_accepting : Network :=
  mkNetwork (λ _, inr (hello_a, replay1)) (λ _ _, inr conn2).

(** A client that does not speak TLS. *)
Definition net_plaintext : Network :=
  mkNetwork (λ _, inl "tls: first record does not look like a TLS handshake")
            (λ _ _, inr conn2).

Definition server_example : Server := mkServer store_example [] [].

Definition default_flags : Flags := mkFlags "" 22 "" false 80 443 false.

(** A machine whose ports are reachable and whose disk holds [stored]. *)
Definition machine_of (stored : Database) : Machine :=
  mkMachine (λ _ _, None) (inr stored) [] (λ _ _, inr "c2FtcGxlIHRva2Vu").

(** * The rest of the code *)

(** ** The reachability probe *)

Module Probe.

(** What the network and the random source answer to one probe. *)
Record Answers : Type := mkAnswers {
  pb_Listen : string → string → option error;
  pb_code : Z → error + string;
  pb_Dial : string → string → Z → error + Conn;
  pb_read : Conn → string * option error
}.

(** What the probe does, in order.  [PbServe a code] starts the goroutine
    that writes [code] to every connection accepted on the listener at [a];
    [PbCloseAfter d c] starts the goroutine that closes [c] after [d]. *)
Inductive Event : Type :=
| PbListen (network address : string)
| PbServe (address code : string)
| PbDialTimeout (network address : string) (timeout : Z)
| PbCloseAfter (d : Z) (c : Conn)
| PbReadAll (c : Conn)
| PbCloseConn (c : Conn)
| PbCloseListener (address : string).

Definition say (e : Event) : Go (list Event) () :=
  λ t, (Next (), t ++ [e]).

(** [defer] of a call that adds one event, around a body with a result. *)
Definition deferring {A : Type} (e : Event) (rest : Go (list Event) A) : Go (list Event) A :=
  λ t, match rest t with
       | (Exited, t') => (Exited, t')
       | (fl, t') => (fl, t' ++ [e])
       end.

Section Probe.
Context (N : Answers).

(** [checkPublicAddress(host, port)]; its result is the returned error. *)
Definition checkPublicAddress (host : string) (port : Z) : Go (list Event) (option error) :=
  let laddr := ":" +:+ pretty port in
  say (PbListen "tcp" laddr);;
  match pb_Listen N "tcp" laddr with
  | Some err => mret (Some err)
  | None =>
  deferring (PbCloseListener laddr) (
  match pb_code N 32 with
  | inl err => mret (Some err)
  | inr code =>
  say (PbServe laddr code);;
  let addr := host +:+ ":" +:+ pretty port in
  say (PbDialTimeout "tcp" addr Second);;
  match pb_Dial N "tcp" addr Second with
  | inl err => mret (Some err)
  | inr conn =>
  deferring (PbCloseConn conn) (
  say (PbCloseAfter Second conn);;
  say (PbReadAll conn);;
  let '(data, err) := pb_read N conn in
  match err with
  | Some _ =>
      mret (Some ("Error connecting to public address " +:+ addr
                  +:+ ". Probably timed out"))
  | None =>
      let retCode := data in
      if decide (retCode ≠ code) then mret (Some "Mismatched codes")
      else mret None
  end)
  end
  end)
  end.

End Probe.

End Probe.

(** ** The administrative API of the earlier revision *)

Module Api.

(** What the collaborators of the API answer: token extraction and
    authorisation, the tunnel manager, the JSON encoder and
    [r.URL.Query()]. *)
Record Backing : Type := mkBacking {
  extractToken : string → Request → error + string;
  Authorized : string → bool;
  GetTunnels : gmap string Tunnel;
  CreateTunnel : string → error + Tunnel;
  DeleteTunnel : string → option error;
  json_Marshal_tunnels : gmap string Tunnel → error + string;
  json_MarshalIndent_tunnel : Tunnel → error + string;
  URL_Query : Request → url_Values
}.

(** The calls a handler makes to its collaborators, in order. *)
Inductive Event : Type :=
| ApExtractToken (name : string)
| ApAuthorized (token : string)
| ApGetTunnels
| ApCreateTunnel (domain : string)
| ApDeleteTunnel (domain : string).

Record Handling : Type := mkHandling {
  ap_w : ResponseWriter;
  ap_trace : list Event
}.

Definition handling : Handling := mkHandling newResponseWriter [].

Definition did (e : Event) : Go Handling () :=
  λ s, (Next (), mkHandling (ap_w s) (ap_trace s ++ [e])).

Definition WriteHeader (code : Z) : Go Handling () :=
  λ s, (Next (), mkHandling (rw_WriteHeader code (ap_w s)) (ap_trace s)).

Definition Write (b : string) : Go Handling () :=
  λ s, (Next (), mkHandling (rw_Write b (ap_w s)) (ap_trace s)).

(** The status the client receives: the one written, and 200 when the
    handler returns without writing one. *)
Definition final_status (s : Handling) : Z :=
  match rw_status (ap_w s) with
  | Some code => code
  | None => 200
  end.

Section Api.
Context (B : Backing).

(** [(a *Api) handleCreateTunnel(w, r)] *)
Definition handleCreateTunnel (r : Request) : Go Handling () :=
  let query := URL_Query B r in
  match default [] (query !! "domain") with
  | [domain] =>
      did (ApCreateTunnel domain);;
      match CreateTunnel B domain with
      | inl err => WriteHeader 400;; Write err;; return_
      | inr tunnel =>
          match json_MarshalIndent_tunnel B tunnel with
          | inl _ => WriteHeader 500;; Write "Error encoding tunnel";; return_
          | inr tunnelJson => Write tunnelJson
          end
      end
  | _ => WriteHeader 400;; Write "Invalid domain parameter";; return_
  end.

(** [(a *Api) handleDeleteTunnel(w, r)] *)
Definition handleDeleteTunnel (r : Request) : Go Handling () :=
  let query := URL_Query B r in
  match default [] (query !! "domain") with
  | [domain] =>
      did (ApDeleteTunnel domain);;
      match DeleteTunnel B domain with
      | Some _ => WriteHeader 500;; Write "Failed to delete tunnel";; return_
      | None => mret ()
      end
  | _ => WriteHeader 400;; Write "Invalid domain parameter";; return_
  end.

(** [(a *Api) validateSession(h)], applied to a request. *)
Definition validateSession (h : Request → Go Handling ()) (r : Request) : Go Handling () :=
  did (ApExtractToken "access_token");;
  match extractToken B "access_token" r with
  | inl _ => WriteHeader 401;; Write "No token provided";; return_
  | inr token =>
      did (ApAuthorized token);;
      if negb (Authorized B token)
      then WriteHeader 403;; Write "Not authorized";; return_
      else call (h r)
  end.

(** [(a *Api) handleTunnels(w, r)] *)
Definition handleTunnels (r : Request) : Go Handling () :=
  if decide (Method r = "GET") then
    did ApGetTunnels;;
    match json_Marshal_tunnels B (GetTunnels B) with
    | inl _ => WriteHeader 500;; Write "Error encoding tunnels";; return_
    | inr body => Write body
    end
  else if decide (Method r = "POST") then
    call (validateSession handleCreateTunnel r)
  else if decide (Method r = "DELETE") then
    call (validateSession handleDeleteTunnel r)
  else
    WriteHeader 405;; Write "Invalid method for /tunnels".

End Api.

End Api.

(** ** The reverse proxy of the earlier revision *)

Module Rev0.

Section Rev0.
Context (W : World).
(** [p.tunMan.GetPort], declared outside the files at hand. *)
Context (GetPort : string → error + Z).

(** [(p *BoringProxy) proxyRequest(w, r)] *)
Definition proxyRequest (r : Request) : Go Serving () :=
  emit (EvPrint "proxy conn");;
  match GetPort (Host r) with
  | inl err =>
      emit (EvPrint err);;
      let errMessage := "No tunnel attached to " +:+ Host r in
      WriteHeader 500;; io_WriteString errMessage;; return_
  | inr port =>
  let downstreamReqHeaders := Header_Clone (Header r) in
  let upstreamAddr := "localhost:" +:+ pretty port in
  let upstreamUrl := "http://" +:+ upstreamAddr +:+ URL_RequestURI (URL r) in
  made ← http_NewRequest W (Method r) upstreamUrl (Body r);
  match made with
  | inl err =>
      emit (EvPrint err);;
      WriteHeader 500;; io_WriteString err;; return_
  | inr upstreamReq =>
      let upstreamReq :=
        mkRequest (Method upstreamReq) (URL upstreamReq) (Host upstreamReq)
                  (RequestURI upstreamReq) (RemoteAddr upstreamReq)
                  (<["X-Forwarded-Host" := [Host r]]> downstreamReqHeaders)
                  (Body upstreamReq) (Form upstreamReq) in
      answered ← httpClient_Do W upstreamReq;
      match answered with
      | inl err =>
          emit (EvPrint err);;
          WriteHeader 502;; io_WriteString err;; return_
      | inr upstreamRes =>
          defer (closing (resp_Body upstreamRes))
            (on_w (λ w, mkResponseWriter (resp_Header upstreamRes ∪ rw_header w)
                          (rw_status w) (rw_sent w) (rw_body w));;
             WriteHeader (StatusCode upstreamRes);;
             io_Copy (resp_Body upstreamRes))
      end
  end
  end.

End Rev0.

End Rev0.

(** ** More notions for statements *)

(** The events start-up adds to the trace when run from [b]. *)
Definition boot_added {A : Type} (m : Go Boot A) (b : Boot) : list BootEvent :=
  drop (length (bt_trace b)) (bt_trace (exec m b)).

(** [s] has no colon. *)
Fixpoint colon_free (s : string) : bool :=
  match s with
  | EmptyString => true
  | String c rest => negb (Ascii.eqb c ":"%char) && colon_free rest
  end.

(** The three paths the router serves itself, whatever the host. *)
Definition own_path (path : string) : Prop :=
  path = "/dnsapi/requests" ∨ path = "/namedrop/auth-success" ∨ path = "/dnsapi/failure".

(** ** More sample inputs *)

(** A reachable host: the dialled connection delivers the code drawn. *)
Definition probe_reachable : Probe.Answers :=
  Probe.mkAnswers (λ _ _, None) (λ _, inr "cmVhY2hhYmxl") (λ _ _ _, inr conn2)
                  (λ _, ("cmVhY2hhYmxl", None)).

(** Another service answers on the public address. *)
Definition probe_elsewhere : Probe.Answers :=
  Probe.mkAnswers (λ _ _, None) (λ _, inr "cmVhY2hhYmxl") (λ _ _ _, inr conn2)
                  (λ _, ("SSH-2.0-OpenSSH", None)).

(** Collaborators of the API: the token [good] is authorised, tunnels are
    created and deleted without error. *)
Definition api_backing : Api.Backing :=
  Api.mkBacking
    (λ _ r, match Form r !! "access_token" with
            | Some [t] => inr t
            | _ => inl "No token provided"
            end)
    (λ t, bool_decide (t = "good"))
    {[ "b.example" := tunnel_b ]}
    (λ domain, inr (mkTunnel domain 9004 domain 443 "server" "" ""))
    (λ _, None)
    (λ _, inr "{tunnels}")
    (λ _, inr "{tunnel}")
    (λ r, Form r).

Definition api_request (method : string) (form : url_Values) : Request :=
  mkRequest method (mkURL "" "" "" "") "admin.example" "/api/tunnels"
            "203.0.113.7:50000" ∅ (mkBody "" None) form.

(** [GET /x] for [b.example:8443]. *)
Definition request_b_port : Request := get_request "b.example:8443" "/x" "/x" "" ∅.

(** [GET /] for a host without tunnel. *)
Definition request_z : Request := get_request "z.example:443" "/" "/" "" ∅.

(** [GET /api/tunnels] for the admin domain. *)
Definition request_api : Request :=
  get_request "admin.example" "/api/tunnels" "/api/tunnels" "" ∅.

(** The failure callback for the pending request [req1]. *)
Definition failure_request : Request :=
  mkRequest "GET" (mkURL "" "" "/dnsapi/failure" "request-id=req1")
            "admin.example" "/dnsapi/failure?request-id=req1"
            "203.0.113.7:50000" ∅ (mkBody "" None)
            {[ "request-id" := ["req1"] ]}.

(** A first start on a machine without stored admin domain, where the
    operator types the lines of [typed]. *)
Definition store_blank : Database := mkDatabase "" ∅ ∅ ∅ ∅.

Definition machine_typing (typed : list string) : Machine :=
  mkMachine (λ _ _, None) (inr store_blank) typed (λ _ _, inr "c2FtcGxlIHRva2Vu").

(** A machine whose HTTP port is not reachable from outside. *)
Definition machine_unreachable : Machine :=
  mkMachine (λ _ port, if decide (port = 80) then Some "Mismatched codes" else None)
            (inr store_new) [] (λ _ _, inr "c2FtcGxlIHRva2Vu").

Definition login_flags : Flags := mkFlags "" 22 "" true 80 443 false.

Definition domain_flags : Flags := mkFlags "new.example" 22 "" false 80 443 false.

(** The poll for the pending request [req1]. *)
Definition poll_request : Request :=
  mkRequest "GET" (mkURL "" "" "/dnsapi/requests" "request-id=req1")
            "admin.example" "/dnsapi/requests?request-id=req1"
            "203.0.113.7:50000" ∅ (mkBody "" None)
            {[ "request-id" := ["req1"] ]}.

(** A world whose bootstrap-domain request is answered with [boot.example]. *)
Definition bootstrap_world : World :=
  mkWorld (BasicAuth calm) (url_Parse calm) (client_Do calm)
          (λ _, inr (mkResponse 200 ∅ (mkBody "boot.example" None)))
          (oauth_Exchange calm) (json_Unmarshal_TokenData calm) (json_Marshal_Record calm)
          (json_Marshal_DNSRequest calm) (ManageSync calm).

(** No login banner among the events of [t]. *)
Definition no_banner (t : list BootEvent) : Prop :=
  ∀ token adminDomain, BtLoginInfo token adminDomain ∉ t.

(** [GET /login] for the admin domain, with the port in the host. *)
Definition request_ui : Request :=
  get_request "admin.example:443" "/login" "/login" "" ∅.

(** A store with a tunnel registered under the admin domain itself. *)
Definition store_shadowed : Database :=
  mkDatabase "admin.example"
             {[ "admin.example" := mkTunnel "admin.example" 9005 "admin.example" 443
                                            "server" "" "" ]}
             ∅ ∅ ∅.

(** ** What the OAuth callback asks the world *)

(** The two addresses the callback builds from the token [tok]. *)
Definition token_data_url (tok : oauth2_Token) : string :=
  "https://takingnames.io/namedrop/token-data?access_token=" +:+ AccessToken tok.

Definition records_url (tok : oauth2_Token) : string :=
  "https://takingnames.io/namedrop/records?access_token=" +:+ AccessToken tok.

(** The record it asks for, from the first scope of the token data, the
    request [http.NewRequest] makes of it once the URL parsed into [u], and
    the name the record gives. *)
Definition record_for (PublicIp : string) (scope : namedrop_Scope) : namedrop_Record :=
  mkRecord (scope_Domain scope) (scope_Host scope) "A" PublicIp 300.

Definition put_record (u : url_URL) (recordJson : string) : Request :=
  mkRequest "PUT" u (UrlHost u) "" "" ∅ (bytes_NewReader recordJson) ∅.

Definition fqdn_of (scope : namedrop_Scope) : string :=
  scope_Host scope +:+ "." +:+ scope_Domain scope.

(** The handler returns early and the client gets status 500. *)
Definition answers_500 (m : Go Serving ()) (s : Serving) : Prop :=
  flow m s = Returned ∧ status (exec m s) = Some 500.

(** A stored database that has the user [admin] and no token. *)
Definition store_admin : Database :=
  mkDatabase "admin.example" ∅ {[ "admin" := mkUser true ]} ∅ ∅.

(** * Proofs *)

(** ** Tactics *)

Ltac go_unfold :=
  unfold proxyRequest, rootHandler, namedropAuthSuccess, dnsapiRequests, dnsapiFailure,
    fail500, log_Fatal, nil_dereference, http_NewRequest, httpClient_Do, io_ReadAll,
    io_Copy, setHeader, WriteHeader, io_WriteString, time_Sleep, emit, on_w, on_db, get_db,
    when, return_, exit_, defer, call, closing,
    mbind, mret, Go_bind, Go_ret in *.

Ltac edge_unfold :=
  unfold handleConnection, passthroughRequest, edge, PassConn, closing_conn, get_server,
    when, return_, defer, call, mbind, mret, Go_bind, Go_ret in *.

Ltac boot_unfold :=
  unfold Listen_startup, addAdminUser, printLoginBlock, setAdminDomain, manage_or_die,
    prompt, read_line, draw, boot_Fatal, boot, boot_db, get_boot,
    when, return_, exit_, defer, call, mbind, mret, Go_bind, Go_ret in *.

(** The callback run on the answers the hypotheses give. *)
Ltac callback_run :=
  unfold answers_500, flow, exec, status, serving; go_unfold;
  unfold http_Redirect, on_w, db_GetDNSRequest, token_data_url, records_url, record_for,
    put_record, fqdn_of in *;
  simpl;
  repeat match goal with
         | H : ?l = _ |- context [?l] => rewrite H; simpl
         end.

(** Membership in a trace that is written out. *)
Ltac in_trace :=
  repeat first [ apply list_elem_of_here | apply list_elem_of_further ].

Ltac split_trace H :=
  repeat (apply elem_of_cons in H as [H | H]; [ try discriminate H | ]);
  try (by apply elem_of_nil in H).

Ltac not_in_trace :=
  let Hin := fresh "Hin" in
  intros ? Hin; split_trace Hin.

Ltac no_request :=
  let Hin := fresh "Hin" in
  intros ? ? Hin; split_trace Hin.

(** ** The monad *)

Lemma bind_flow_next {S A B : Type} (m : Go S A) (f : A → Go S B) (s : S) (b : B) :
  flow (m ≫= f) s = Next b →
  ∃ a, m s = (Next a, exec m s) ∧ flow (f a) (exec m s) = Next b
       ∧ exec (m ≫= f) s = exec (f a) (exec m s).
Proof.
  unfold flow, exec, mbind, Go_bind.
  destruct (m s) as [[a | | msg | ] s']; simpl; try done.
  intros Hf. by exists a.
Qed.

Lemma added_exec {A : Type} (m : Go Serving A) (s : Serving) (l : list Event) :
  sv_trace (exec m s) = sv_trace s ++ l → added m s = l.
Proof. intros E. unfold added. rewrite E. apply drop_app_length. Qed.

Lemma edge_added_exec (m : Go Server ()) (p : Server) (l : list EdgeEvent) :
  srv_trace (exec m p) = srv_trace p ++ l → edge_added m p = l.
Proof. intros E. unfold edge_added. rewrite E. apply drop_app_length. Qed.

Lemma address_not_empty (a b : string) : a +:+ ":" +:+ b ≠ "".
Proof. destruct a; discriminate. Qed.

(** ** [proxyRequest], case by case *)

Section ProxyShape.
Context (W : World) (r : Request) (tunnel : Tunnel) (port : Z).

Lemma gate_no_credentials s :
  AuthUsername tunnel ≠ "" ∨ AuthPassword tunnel ≠ "" →
  BasicAuth W r = None →
  proxyRequest W r tunnel port s =
    (Returned,
     mkServing (rw_WriteHeader 401 (rw_set "WWW-Authenticate" ["Basic"] (sv_w s)))
               (sv_db s) (sv_trace s)).
Proof.
  intros Hreq Hnone. go_unfold. rewrite Hnone.
  destruct Hreq; repeat case_bool_decide; simpl; congruence.
Qed.

Lemma gate_wrong_credentials s u p :
  AuthUsername tunnel ≠ "" ∨ AuthPassword tunnel ≠ "" →
  BasicAuth W r = Some (u, p) →
  u ≠ AuthUsername tunnel ∨ p ≠ AuthPassword tunnel →
  proxyRequest W r tunnel port s =
    (Returned,
     mkServing (rw_WriteHeader 401 (rw_set "WWW-Authenticate" ["Basic"] (sv_w s)))
               (sv_db s) (sv_trace s ++ [EvSleep (2 * Second)])).
Proof.
  intros Hreq Hsome Hbad. go_unfold. rewrite Hsome.
  destruct Hreq, Hbad; repeat case_bool_decide; simpl; congruence.
Qed.

Lemma gate_passes s :
  gate_open W r tunnel →
  proxyRequest W r tunnel port s = proxyRequest W r (without_auth tunnel) port s.
Proof.
  intros [[Hu Hp] | Hok]; go_unfold; simpl.
  - rewrite Hu, Hp. reflexivity.
  - rewrite Hok. repeat case_bool_decide; simpl; congruence.
Qed.

Lemma forward_read_error s e :
  body_err (Body r) = Some e →
  proxyRequest W r (without_auth tunnel) port s =
    (Returned,
     mkServing (rw_Write e (rw_WriteHeader 500 (sv_w s))) (sv_db s)
               (sv_trace s ++ [EvReadAll (Body r)])).
Proof.
  intros He. go_unfold. simpl. rewrite He. reflexivity.
Qed.

Lemma forward_parse_error s e :
  body_err (Body r) = None →
  url_Parse W (upstream_url r port) = inl e →
  proxyRequest W r (without_auth tunnel) port s =
    (Returned,
     mkServing (rw_Write e (rw_WriteHeader 500 (sv_w s))) (sv_db s)
               (sv_trace s ++ [EvReadAll (Body r);
                               EvNewRequest (Method r) (upstream_url r port)
                                            (bytes_NewReader (body_data (Body r)))])).
Proof.
  intros Hb Hu. go_unfold. unfold upstream_url in *. simpl in *. rewrite Hb. simpl.
  rewrite Hu. simpl. rewrite <- app_assoc. reflexivity.
Qed.

Lemma forward_do_error s u e :
  body_err (Body r) = None →
  url_Parse W (upstream_url r port) = inr u →
  client_Do W (upstream_request r tunnel u) = inl e →
  proxyRequest W r (without_auth tunnel) port s =
    (Returned,
     mkServing (rw_Write e (rw_WriteHeader 502 (sv_w s))) (sv_db s)
               (sv_trace s ++ [EvReadAll (Body r);
                               EvNewRequest (Method r) (upstream_url r port)
                                            (bytes_NewReader (body_data (Body r)));
                               EvDo (upstream_request r tunnel u)])).
Proof.
  intros Hb Hu Hd. go_unfold. unfold upstream_url in *. simpl in *. rewrite Hb. simpl.
  rewrite Hu. simpl. unfold upstream_request, Header_Clone in *. rewrite Hd. simpl.
  rewrite <- !app_assoc. reflexivity.
Qed.

Lemma forward_answered s u res :
  body_err (Body r) = None →
  url_Parse W (upstream_url r port) = inr u →
  client_Do W (upstream_request r tunnel u) = inr res →
  proxyRequest W r (without_auth tunnel) port s =
    (Next (),
     mkServing (rw_Write (body_data (resp_Body res))
                  (rw_WriteHeader (StatusCode res)
                     (mkResponseWriter (resp_Header res ∪ rw_header (sv_w s))
                        (rw_status (sv_w s)) (rw_sent (sv_w s)) (rw_body (sv_w s)))))
               (sv_db s)
               (sv_trace s ++ [EvReadAll (Body r);
                               EvNewRequest (Method r) (upstream_url r port)
                                            (bytes_NewReader (body_data (Body r)));
                               EvDo (upstream_request r tunnel u);
                               EvReadAll (resp_Body res);
                               EvClose (resp_Body res)])).
Proof.
  intros Hb Hu Hd. go_unfold. unfold upstream_url in *. simpl in *. rewrite Hb. simpl.
  rewrite Hu. simpl. unfold upstream_request, Header_Clone in *. rewrite Hd. simpl.
  rewrite <- !app_assoc. reflexivity.
Qed.

Lemma gate_cases :
  gate_open W r tunnel
  ∨ ((AuthUsername tunnel ≠ "" ∨ AuthPassword tunnel ≠ "") ∧ BasicAuth W r = None)
  ∨ ((AuthUsername tunnel ≠ "" ∨ AuthPassword tunnel ≠ "")
     ∧ ∃ u p, BasicAuth W r = Some (u, p)
              ∧ (u ≠ AuthUsername tunnel ∨ p ≠ AuthPassword tunnel)).
Proof.
  unfold gate_open.
  assert (Hreq : (AuthUsername tunnel = "" ∧ AuthPassword tunnel = "")
                 ∨ (AuthUsername tunnel ≠ "" ∨ AuthPassword tunnel ≠ "")).
  { destruct (decide (AuthUsername tunnel = "")); destruct (decide (AuthPassword tunnel = ""));
      auto. }
  destruct Hreq as [Hoff | Hon]; [ by left; left | ].
  destruct (BasicAuth W r) as [[u p] | ]; [ | by right; left ].
  destruct (decide (u = AuthUsername tunnel)) as [-> | Hu].
  - destruct (decide (p = AuthPassword tunnel)) as [-> | Hp]; [ by left; right | ].
    right; right. split; [ done | ]. exists (AuthUsername tunnel), p. auto.
  - right; right. split; [ done | ]. exists u, p. auto.
Qed.

Lemma proxyRequest_cases s :
  ProxyCase W r tunnel port (added (proxyRequest W r tunnel port) s).
Proof.
  destruct gate_cases as [Hg | [[Hreq Hn] | [Hreq (u & p & Hb & Hbad)]]].
  - destruct (body_err (Body r)) as [e | ] eqn:He.
    { erewrite added_exec;
        [ | unfold exec; rewrite gate_passes, (forward_read_error _ e) by done; done ].
      by eapply case_unread. }
    destruct (url_Parse W (upstream_url r port)) as [e | u] eqn:Hu.
    { erewrite added_exec;
        [ | unfold exec; rewrite gate_passes, (forward_parse_error _ e) by done; done ].
      by eapply case_unbuilt. }
    destruct (client_Do W (upstream_request r tunnel u)) as [e | res] eqn:Hd.
    { erewrite added_exec;
        [ | unfold exec; rewrite gate_passes, (forward_do_error _ u e) by done; done ].
      by eapply case_unreached. }
    erewrite added_exec;
      [ | unfold exec; rewrite gate_passes, (forward_answered _ u res) by done; done ].
    by eapply case_answered.
  - erewrite added_exec;
      [ | unfold exec; rewrite gate_no_credentials by done; simpl; by rewrite app_nil_r ].
    by apply case_denied.
  - erewrite added_exec;
      [ | unfold exec; rewrite (gate_wrong_credentials _ u p) by done; done ].
    by eapply case_wrong.
Qed.

(** A request reaches the backend only as the one request [proxyRequest]
    builds, after the body was read and the URL parsed. *)
Lemma sent_upstream s req :
  EvDo req ∈ added (proxyRequest W r tunnel port) s →
  ∃ u later,
    gate_open W r tunnel
    ∧ body_err (Body r) = None
    ∧ url_Parse W (upstream_url r port) = inr u
    ∧ req = upstream_request r tunnel u
    ∧ added (proxyRequest W r tunnel port) s =
        EvReadAll (Body r)
        :: EvNewRequest (Method r) (upstream_url r port) (bytes_NewReader (body_data (Body r)))
        :: EvDo req :: later.
Proof.
  intros Hin. destruct (proxyRequest_cases s); split_trace Hin.
  all: injection Hin as ->; exists u; eexists; done.
Qed.

End ProxyShape.

(** ** The HTTP reverse proxy *)

(** C3.  Every request [proxyRequest] sends to the backend carries the
    tunnel's [client_address:client_port] as its [Host] header and the
    original request's [Host], port suffix included, as [X-Forwarded-Host];
    every other header is the client's, unchanged. *)
Theorem proxyRequest_upstream_headers (W : World) (r : Request) (tunnel : Tunnel)
    (port : Z) (s : Serving) (req : Request) :
  EvDo req ∈ added (proxyRequest W r tunnel port) s →
  wire_Host req = ClientAddress tunnel +:+ ":" +:+ pretty (ClientPort tunnel)
  ∧ Header req !! "X-Forwarded-Host" = Some [Host r]
  ∧ ∀ k, k ≠ "X-Forwarded-Host" → Header req !! k = Header r !! k.
Proof.
  intros Hin.
  destruct (sent_upstream W r tunnel port s req Hin) as (u & later & _ & _ & _ & -> & _).
  unfold wire_Host, upstream_request. simpl.
  rewrite decide_False by apply address_not_empty.
  split; [ done | split; [ apply lookup_insert_eq | ] ].
  intros k Hk. by rewrite lookup_insert_ne.
Qed.

Lemma proxyRequest_upstream_headers_witness :
  EvDo (upstream_request request_b tunnel_b (mkURL "http" "localhost:9002" "/x" ""))
    ∈ added (proxyRequest calm request_b tunnel_b 9002) (serving store_example)
  ∧ wire_Host (upstream_request request_b tunnel_b (mkURL "http" "localhost:9002" "/x" ""))
    = "b.example:443"
  ∧ Header (upstream_request request_b tunnel_b (mkURL "http" "localhost:9002" "/x" ""))
      !! "X-Forwarded-Host" = Some ["b.example"].
Proof.
  assert (Hin : EvDo (upstream_request request_b tunnel_b
                        (mkURL "http" "localhost:9002" "/x" ""))
                  ∈ added (proxyRequest calm request_b tunnel_b 9002)
                          (serving store_example)).
  { vm_compute. in_trace. }
  split; [ exact Hin | ].
  destruct (proxyRequest_upstream_headers calm request_b tunnel_b 9002
              (serving store_example) _ Hin) as (Hhost & Hfwd & _).
  split; [ rewrite Hhost; vm_compute; reflexivity | exact Hfwd ].
Defined.

(** C4.  For a tunnel with a username or a password: a request without
    Basic-Auth credentials gets 401 with [WWW-Authenticate: Basic]; one with
    wrong credentials gets the same and the handler sleeps two seconds
    before it returns; one with the right username and password passes the
    gate, is handled as for a tunnel without credentials, and reaches the
    backend when its body can be read and its URL parses. *)
Theorem proxyRequest_basic_auth (W : World) (r : Request) (tunnel : Tunnel) (port : Z)
    (s : Serving) :
  AuthUsername tunnel ≠ "" ∨ AuthPassword tunnel ≠ "" →
  rw_status (sv_w s) = None →
  (BasicAuth W r = None →
     flow (proxyRequest W r tunnel port) s = Returned
     ∧ status (exec (proxyRequest W r tunnel port) s) = Some 401
     ∧ sent_header (exec (proxyRequest W r tunnel port) s) "WWW-Authenticate" = Some ["Basic"]
     ∧ added (proxyRequest W r tunnel port) s = [])
  ∧ (∀ u p, BasicAuth W r = Some (u, p) →
       u ≠ AuthUsername tunnel ∨ p ≠ AuthPassword tunnel →
     flow (proxyRequest W r tunnel port) s = Returned
     ∧ status (exec (proxyRequest W r tunnel port) s) = Some 401
     ∧ sent_header (exec (proxyRequest W r tunnel port) s) "WWW-Authenticate" = Some ["Basic"]
     ∧ added (proxyRequest W r tunnel port) s = [EvSleep (2 * Second)])
  ∧ (BasicAuth W r = Some (AuthUsername tunnel, AuthPassword tunnel) →
     proxyRequest W r tunnel port s = proxyRequest W r (without_auth tunnel) port s
     ∧ (body_err (Body r) = None →
        ∀ u, url_Parse W (upstream_url r port) = inr u →
        ∃ req, EvDo req ∈ added (proxyRequest W r tunnel port) s ∧ URL req = u)).
Proof.
  intros Hreq Hfresh. split; [ | split ].
  - intros Hnone. repeat split.
    + unfold flow. by rewrite gate_no_credentials.
    + unfold exec, status. rewrite gate_no_credentials by done. simpl.
      unfold rw_WriteHeader. simpl. by rewrite Hfresh.
    + unfold exec, sent_header. rewrite gate_no_credentials by done. simpl.
      unfold rw_WriteHeader. simpl. rewrite Hfresh. simpl. apply lookup_insert_eq.
    + apply added_exec. unfold exec. rewrite gate_no_credentials by done.
      simpl. by rewrite app_nil_r.
  - intros u p Hsome Hbad. repeat split.
    + unfold flow. by rewrite (gate_wrong_credentials _ _ _ _ _ u p).
    + unfold exec, status. rewrite (gate_wrong_credentials _ _ _ _ _ u p) by done. simpl.
      unfold rw_WriteHeader. simpl. by rewrite Hfresh.
    + unfold exec, sent_header. rewrite (gate_wrong_credentials _ _ _ _ _ u p) by done.
      simpl. unfold rw_WriteHeader. simpl. rewrite Hfresh. simpl. apply lookup_insert_eq.
    + apply added_exec. unfold exec. by rewrite (gate_wrong_credentials _ _ _ _ _ u p).
  - intros Hok. assert (Hg : gate_open W r tunnel) by (by right).
    split; [ by apply gate_passes | ].
    intros Hb u Hu.
    exists (upstream_request r tunnel u). split; [ | done ].
    destruct (client_Do W (upstream_request r tunnel u)) as [e | res] eqn:Hd.
    + erewrite added_exec;
        [ | unfold exec; rewrite gate_passes, (forward_do_error _ _ _ _ _ u e) by done; done ].
      in_trace.
    + erewrite added_exec;
        [ | unfold exec; rewrite gate_passes, (forward_answered _ _ _ _ _ u res) by done; done ].
      in_trace.
Qed.

Lemma proxyRequest_basic_auth_witness :
  (sample_BasicAuth request_c_anonymous = None
   ∧ status (exec (proxyRequest calm request_c_anonymous tunnel_c 9003)
                  (serving store_example)) = Some 401
   ∧ added (proxyRequest calm request_c_anonymous tunnel_c 9003) (serving store_example) = [])
  ∧ (sample_BasicAuth (request_c "Basic dTp4") = Some ("u", "x")
     ∧ status (exec (proxyRequest calm (request_c "Basic dTp4") tunnel_c 9003)
                    (serving store_example)) = Some 401
     ∧ added (proxyRequest calm (request_c "Basic dTp4") tunnel_c 9003)
             (serving store_example) = [EvSleep (2 * Second)])
  ∧ (sample_BasicAuth (request_c "Basic dTpw") = Some ("u", "p")
     ∧ ∃ req, EvDo req ∈ added (proxyRequest calm (request_c "Basic dTpw") tunnel_c 9003)
                               (serving store_example)
              ∧ URL req = mkURL "http" "localhost:9003" "/x" "").
Proof.
  assert (Hset : AuthUsername tunnel_c ≠ "" ∨ AuthPassword tunnel_c ≠ "")
    by (left; discriminate).
  assert (Hnone : BasicAuth calm request_c_anonymous = None) by (vm_compute; reflexivity).
  assert (Hbad : BasicAuth calm (request_c "Basic dTp4") = Some ("u", "x"))
    by (vm_compute; reflexivity).
  assert (Hgood : BasicAuth calm (request_c "Basic dTpw")
                  = Some (AuthUsername tunnel_c, AuthPassword tunnel_c))
    by (vm_compute; reflexivity).
  assert (Hurl : url_Parse calm (upstream_url (request_c "Basic dTpw") 9003)
                 = inr (mkURL "http" "localhost:9003" "/x" ""))
    by (vm_compute; reflexivity).
  split; [ | split ].
  - destruct (proxyRequest_basic_auth calm request_c_anonymous tunnel_c 9003
                (serving store_example) Hset eq_refl) as (Hcase & _ & _).
    destruct (Hcase Hnone) as (_ & Hs & _ & Ha).
    exact (conj Hnone (conj Hs Ha)).
  - destruct (proxyRequest_basic_auth calm (request_c "Basic dTp4") tunnel_c 9003
                (serving store_example) Hset eq_refl) as (_ & Hcase & _).
    assert (Hne : "u" ≠ AuthUsername tunnel_c ∨ "x" ≠ AuthPassword tunnel_c)
      by (right; discriminate).
    destruct (Hcase "u" "x" Hbad Hne) as (_ & Hs & _ & Ha).
    exact (conj Hbad (conj Hs Ha)).
  - destruct (proxyRequest_basic_auth calm (request_c "Basic dTpw") tunnel_c 9003
                (serving store_example) Hset eq_refl) as (_ & _ & Hcase).
    destruct (Hcase Hgood) as (_ & Hsent).
    exact (conj Hgood (Hsent eq_refl _ Hurl)).
Defined.

(** C8.  Once a request is past the Basic-Auth gate: a failed body read and
    a failed request construction answer 500, a failed call to the backend
    answers 502, each with the error text as body. *)
Theorem proxyRequest_error_status (W : World) (r : Request) (tunnel : Tunnel) (port : Z)
    (s : Serving) :
  gate_open W r tunnel →
  sv_w s = newResponseWriter →
  (∀ e, body_err (Body r) = Some e →
     status (exec (proxyRequest W r tunnel port) s) = Some 500
     ∧ sent_body (exec (proxyRequest W r tunnel port) s) = e)
  ∧ (∀ e, body_err (Body r) = None →
       url_Parse W (upstream_url r port) = inl e →
     status (exec (proxyRequest W r tunnel port) s) = Some 500
     ∧ sent_body (exec (proxyRequest W r tunnel port) s) = e)
  ∧ (∀ req e, EvDo req ∈ added (proxyRequest W r tunnel port) s →
       client_Do W req = inl e →
     status (exec (proxyRequest W r tunnel port) s) = Some 502
     ∧ sent_body (exec (proxyRequest W r tunnel port) s) = e).
Proof.
  intros Hg Hw. split; [ | split ].
  - intros e He. unfold exec, status, sent_body.
    rewrite gate_passes, (forward_read_error _ _ _ _ _ e) by done.
    simpl. by rewrite Hw.
  - intros e Hb Hu. unfold exec, status, sent_body.
    rewrite gate_passes, (forward_parse_error _ _ _ _ _ e) by done.
    simpl. by rewrite Hw.
  - intros req e Hin Hfail.
    destruct (sent_upstream W r tunnel port s req Hin) as (u & later & _ & Hb & Hu & -> & _).
    unfold exec, status, sent_body.
    rewrite gate_passes, (forward_do_error _ _ _ _ _ u e) by done.
    simpl. by rewrite Hw.
Qed.

Lemma proxyRequest_error_status_witness :
  gate_open backend_down request_b tunnel_b
  ∧ status (exec (proxyRequest backend_down request_b tunnel_b 9002) (serving store_example))
    = Some 502
  ∧ sent_body (exec (proxyRequest backend_down request_b tunnel_b 9002)
                    (serving store_example))
    = "dial tcp 127.0.0.1:9002: connect: connection refused".
Proof.
  assert (Hg : gate_open backend_down request_b tunnel_b) by (by left).
  assert (Hin : EvDo (upstream_request request_b tunnel_b
                        (mkURL "http" "localhost:9002" "/x" ""))
                  ∈ added (proxyRequest backend_down request_b tunnel_b 9002)
                          (serving store_example)).
  { vm_compute. in_trace. }
  split; [ exact Hg | ].
  destruct (proxyRequest_error_status backend_down request_b tunnel_b 9002
              (serving store_example) Hg eq_refl) as (_ & _ & Hdown).
  exact (Hdown _ "dial tcp 127.0.0.1:9002: connect: connection refused" Hin eq_refl).
Defined.

(** C9.  A request reaches the backend only after the whole client body
    was read, and carries exactly the bytes read; when reading the body
    fails no upstream request is built or sent, and a request past the gate
    is answered 500 with the error text. *)
Theorem proxyRequest_reads_body_first (W : World) (r : Request) (tunnel : Tunnel) (port : Z)
    (s : Serving) :
  (∀ req, EvDo req ∈ added (proxyRequest W r tunnel port) s →
     body_err (Body r) = None
     ∧ Body req = bytes_NewReader (body_data (Body r))
     ∧ ∃ later, added (proxyRequest W r tunnel port) s =
         EvReadAll (Body r)
         :: EvNewRequest (Method r) (upstream_url r port) (Body req)
         :: EvDo req :: later)
  ∧ (∀ e, body_err (Body r) = Some e →
       (∀ req, EvDo req ∉ added (proxyRequest W r tunnel port) s)
       ∧ (∀ m u b, EvNewRequest m u b ∉ added (proxyRequest W r tunnel port) s)
       ∧ (gate_open W r tunnel → sv_w s = newResponseWriter →
          flow (proxyRequest W r tunnel port) s = Returned
          ∧ status (exec (proxyRequest W r tunnel port) s) = Some 500
          ∧ sent_body (exec (proxyRequest W r tunnel port) s) = e)).
Proof.
  split.
  - intros req Hin.
    destruct (sent_upstream W r tunnel port s req Hin)
      as (u & later & _ & Hb & _ & -> & Hadded).
    split; [ done | split; [ done | by exists later ] ].
  - intros e He. split; [ | split ].
    + intros req Hin.
      destruct (sent_upstream W r tunnel port s req Hin) as (u & later & _ & Hb & _).
      congruence.
    + intros m u b Hin.
      destruct (proxyRequest_cases W r tunnel port s); split_trace Hin; congruence.
    + intros Hg Hw. unfold flow, exec, status, sent_body.
      rewrite gate_passes, (forward_read_error _ _ _ _ _ e) by done.
      simpl. by rewrite Hw.
Qed.

(** ** The edge dispatcher *)

Section EdgeShape.
Context (N : Network) (clientConn : Conn) (p : Server).

Lemma dispatch_peek_error e :
  peekClientHello N clientConn = inl e →
  handleConnection N clientConn p =
    (Returned,
     mkServer (srv_db p) (httpListener p)
              (srv_trace p ++ [EdLog ("peekClientHello error " +:+ e)])).
Proof. intros Hp. edge_unfold. by rewrite Hp. Qed.

Lemma dispatch_terminate hello reader :
  peekClientHello N clientConn = inr (hello, reader) →
  (∀ tunnel, db_GetTunnel (srv_db p) (ServerName hello) = Some tunnel →
             ¬ passes_through tunnel) →
  handleConnection N clientConn p =
    (Next (),
     mkServer (srv_db p) (httpListener p ++ [NewProxyConn clientConn reader]) (srv_trace p)).
Proof.
  intros Hp Hno. edge_unfold. rewrite Hp. simpl.
  destruct (db_GetTunnel (srv_db p) (ServerName hello)) as [tunnel | ] eqn:Ht; [ | done ].
  specialize (Hno tunnel eq_refl). unfold passes_through in Hno.
  repeat case_bool_decide; simpl; try done; exfalso; auto.
Qed.

Lemma passes_through_test tunnel :
  passes_through tunnel →
  bool_decide (TlsTermination tunnel = "client")
  || bool_decide (TlsTermination tunnel = "passthrough") = true.
Proof. intros [Hc | Hp]; repeat case_bool_decide; done. Qed.

Lemma dispatch_dial_error hello reader tunnel e :
  peekClientHello N clientConn = inr (hello, reader) →
  db_GetTunnel (srv_db p) (ServerName hello) = Some tunnel →
  passes_through tunnel →
  net_Dial N "tcp" (upstream_addr tunnel) = inl e →
  handleConnection N clientConn p =
    (Next (),
     mkServer (srv_db p) (httpListener p)
              (srv_trace p ++ [EdDial "tcp" (upstream_addr tunnel); EdLog e])).
Proof.
  intros Hp Ht Hpass Hd. edge_unfold. unfold upstream_addr in *. rewrite Hp. simpl.
  rewrite Ht, (passes_through_test tunnel Hpass).
  simpl in *. rewrite Hd. simpl. by rewrite <- app_assoc.
Qed.

Lemma dispatch_splice hello reader tunnel up :
  peekClientHello N clientConn = inr (hello, reader) →
  db_GetTunnel (srv_db p) (ServerName hello) = Some tunnel →
  passes_through tunnel →
  net_Dial N "tcp" (upstream_addr tunnel) = inr up →
  handleConnection N clientConn p =
    (Next (),
     mkServer (srv_db p) (httpListener p)
              (srv_trace p ++ [EdDial "tcp" (upstream_addr tunnel);
                               EdSplice (NewProxyConn clientConn reader) up;
                               EdClose up])).
Proof.
  intros Hp Ht Hpass Hd. edge_unfold. unfold upstream_addr in *. rewrite Hp. simpl.
  rewrite Ht, (passes_through_test tunnel Hpass).
  simpl in *. rewrite Hd. simpl. by rewrite <- !app_assoc.
Qed.

End EdgeShape.

(** C1, as stated, fails: the hello names a passthrough tunnel of the
    registry, the dial to its port is refused, and nothing is spliced; the
    address dialled is [localhost:9001]. *)
Lemma passthrough_dial_refused_no_splice :
  peekClientHello net_refusing conn1 = inr (hello_a, replay1)
  ∧ db_GetTunnel (srv_db server_example) (ServerName hello_a) = Some tunnel_a
  ∧ TlsTermination tunnel_a = "passthrough"
  ∧ srv_trace (exec (handleConnection net_refusing conn1) server_example) =
      [EdDial "tcp" "localhost:9001";
       EdLog "dial tcp 127.0.0.1:9001: connect: connection refused"]
  ∧ ¬ ∃ up, EdSplice (NewProxyConn conn1 replay1) up
            ∈ srv_trace (exec (handleConnection net_refusing conn1) server_example).
Proof.
  assert (Ht : srv_trace (exec (handleConnection net_refusing conn1) server_example) =
      [EdDial "tcp" "localhost:9001";
       EdLog "dial tcp 127.0.0.1:9001: connect: connection refused"])
    by (vm_compute; reflexivity).
  split; [ reflexivity | ]. split; [ vm_compute; reflexivity | ].
  split; [ reflexivity | ]. split; [ exact Ht | ].
  intros [up Hin]. rewrite Ht in Hin. split_trace Hin.
Qed.

(** C1, amended.  After a successful peek: when the registry has a tunnel
    for the server name whose termination is [client] or [passthrough], the
    dispatcher dials [localhost:<tunnel port>]; if the dial succeeds the
    replayed connection is spliced with the upstream connection, which is
    closed afterwards, and if it fails the error is logged and nothing is
    spliced; either way the connection is not handed to the TLS terminator.
    In every other case, the empty server name with no tunnel under it
    included, the replayed connection is appended to the passthrough
    listener's queue and nothing is dialled. *)
Theorem handleConnection_dispatch (N : Network) (clientConn : Conn) (p : Server)
    (hello : ClientHelloInfo) (reader : Replay) :
  peekClientHello N clientConn = inr (hello, reader) →
  (∀ tunnel, db_GetTunnel (srv_db p) (ServerName hello) = Some tunnel →
     passes_through tunnel →
     httpListener (exec (handleConnection N clientConn) p) = httpListener p
     ∧ (∀ up, net_Dial N "tcp" ("localhost:" +:+ pretty (TunnelPort tunnel)) = inr up →
          edge_added (handleConnection N clientConn) p =
            [EdDial "tcp" ("localhost:" +:+ pretty (TunnelPort tunnel));
             EdSplice (NewProxyConn clientConn reader) up;
             EdClose up])
     ∧ (∀ e, net_Dial N "tcp" ("localhost:" +:+ pretty (TunnelPort tunnel)) = inl e →
          edge_added (handleConnection N clientConn) p =
            [EdDial "tcp" ("localhost:" +:+ pretty (TunnelPort tunnel)); EdLog e]))
  ∧ ((∀ tunnel, db_GetTunnel (srv_db p) (ServerName hello) = Some tunnel →
        ¬ passes_through tunnel) →
     httpListener (exec (handleConnection N clientConn) p)
       = httpListener p ++ [NewProxyConn clientConn reader]
     ∧ edge_added (handleConnection N clientConn) p = [])
  ∧ (ServerName hello = "" → db_GetTunnel (srv_db p) "" = None →
     httpListener (exec (handleConnection N clientConn) p)
       = httpListener p ++ [NewProxyConn clientConn reader]).
Proof.
  intros Hp.
  assert (Hother : (∀ tunnel, db_GetTunnel (srv_db p) (ServerName hello) = Some tunnel →
                      ¬ passes_through tunnel) →
                   httpListener (exec (handleConnection N clientConn) p)
                     = httpListener p ++ [NewProxyConn clientConn reader]
                   ∧ edge_added (handleConnection N clientConn) p = []).
  { intros Hno.
    pose proof (dispatch_terminate N clientConn p hello reader Hp Hno) as E. split.
    - unfold exec. by rewrite E.
    - apply edge_added_exec. unfold exec. rewrite E. simpl. by rewrite app_nil_r. }
  split; [ | split; [ exact Hother | ] ].
  2:{ intros Hempty Hnone. apply Hother. intros tunnel Ht.
      rewrite Hempty, Hnone in Ht. done. }
  - intros tunnel Ht Hpass.
    destruct (net_Dial N "tcp" (upstream_addr tunnel)) as [e | up] eqn:Hd.
    + pose proof (dispatch_dial_error N clientConn p hello reader tunnel e Hp Ht Hpass Hd) as E.
      unfold upstream_addr in *. split; [ | split ].
      * unfold exec. by rewrite E.
      * intros up Hup. congruence.
      * intros e' He'. apply edge_added_exec. unfold exec. rewrite E. simpl. congruence.
    + pose proof (dispatch_splice N clientConn p hello reader tunnel up Hp Ht Hpass Hd) as E.
      unfold upstream_addr in *. split; [ | split ].
      * unfold exec. by rewrite E.
      * intros up' Hup. apply edge_added_exec. unfold exec. rewrite E. simpl. congruence.
      * intros e He. congruence.
Qed.

Lemma handleConnection_dispatch_witness :
  peekClientHello net_accepting conn1 = inr (hello_a, replay1)
  ∧ edge_added (handleConnection net_accepting conn1) server_example =
      [EdDial "tcp" "localhost:9001"; EdSplice (NewProxyConn conn1 replay1) conn2;
       EdClose conn2].
Proof.
  split; [ reflexivity | ].
  destruct (handleConnection_dispatch net_accepting conn1 server_example hello_a replay1
              eq_refl) as [Hpass _].
  assert (Ht : db_GetTunnel (srv_db server_example) (ServerName hello_a) = Some tunnel_a)
    by (vm_compute; reflexivity).
  assert (Hp : passes_through tunnel_a) by (by right).
  destruct (Hpass tunnel_a Ht Hp) as (_ & Hup & _).
  rewrite (Hup conn2 eq_refl). vm_compute. reflexivity.
Defined.

(** C2, on the code: when peeking the ClientHello fails, the dispatcher
    logs the error and returns; it adds no other event, so the accepted
    connection is not closed on this path. *)
Theorem handleConnection_peek_error_no_close (N : Network) (clientConn : Conn) (p : Server)
    (e : error) :
  peekClientHello N clientConn = inl e →
  flow (handleConnection N clientConn) p = Returned
  ∧ edge_added (handleConnection N clientConn) p = [EdLog ("peekClientHello error " +:+ e)]
  ∧ (EdClose clientConn ∉ edge_added (handleConnection N clientConn) p)
  ∧ httpListener (exec (handleConnection N clientConn) p) = httpListener p.
Proof.
  intros Hp. pose proof (dispatch_peek_error N clientConn p e Hp) as E.
  assert (Ha : edge_added (handleConnection N clientConn) p
               = [EdLog ("peekClientHello error " +:+ e)]).
  { apply edge_added_exec. unfold exec. by rewrite E. }
  split; [ unfold flow; by rewrite E | ]. split; [ done | ]. split.
  - rewrite Ha. intros Hin. split_trace Hin.
  - unfold exec. by rewrite E.
Qed.

Lemma handleConnection_peek_error_witness :
  peekClientHello net_plaintext conn1
    = inl "tls: first record does not look like a TLS handshake"
  ∧ edge_added (handleConnection net_plaintext conn1) server_example =
      [EdLog "peekClientHello error tls: first record does not look like a TLS handshake"]
  ∧ (EdClose conn1 ∉ edge_added (handleConnection net_plaintext conn1) server_example).
Proof.
  split; [ reflexivity | ].
  destruct (handleConnection_peek_error_no_close net_plaintext conn1 server_example
              "tls: first record does not look like a TLS handshake" eq_refl)
    as (_ & Ha & Hc & _).
  exact (conj Ha Hc).
Defined.

(** ** The OAuth callback of the virtual-host router *)

Lemma auth_success_ends (W : World) (ip ts : string) (r : Request) (d : Database)
    (tok : oauth2_Token) :
  Path (URL r) = "/namedrop/auth-success" →
  oauth_Exchange W (Values_Get (Form r) "code") = inr tok →
  AuthSuccessEnd W (flow (rootHandler W ip ts r) (serving d))
                   (status (exec (rootHandler W ip ts r) (serving d)))
                   (added (rootHandler W ip ts r) (serving d)).
Proof.
  intros Hpath Hex.
  unfold added, flow, exec, status, serving. go_unfold. simpl.
  rewrite Hpath. simpl.
  destruct (db_GetDNSRequest d (Values_Get (Form r) "state")) as [e | dnsRequest]; simpl.
  { apply end_500; [ not_in_trace | no_request ]. }
  rewrite Hex. simpl.
  destruct (http_Get W _) as [e | tokenResp]; simpl.
  { apply end_500; [ not_in_trace | no_request ]. }
  destruct (json_Unmarshal_TokenData W _) as [e | td]; simpl.
  { apply end_500; [ not_in_trace | no_request ]. }
  destruct (Scopes td) as [ | scope0 more]; simpl.
  { apply end_500; [ not_in_trace | no_request ]. }
  destruct (json_Marshal_Record W _) as [e | js]; simpl.
  { apply end_500; [ not_in_trace | no_request ]. }
  destruct (url_Parse W _) as [e | u]; simpl.
  { apply end_500; [ not_in_trace | no_request ]. }
  match goal with |- context [client_Do W ?q] => set (req := q) end.
  destruct (client_Do W req) as [e | resp] eqn:Hdo; simpl.
  { apply end_500; [ not_in_trace | ].
    intros req' resp' Hin. split_trace Hin. injection Hin as ->. congruence. }
  destruct (body_err (resp_Body resp)) as [e | ] eqn:Hbody; simpl.
  { apply end_500; [ not_in_trace | ].
    intros req' resp' Hin. split_trace Hin. injection Hin as ->. congruence. }
  case_bool_decide as Hcode; simpl.
  { apply end_500; [ not_in_trace | ].
    intros req' resp' Hin. split_trace Hin. injection Hin as ->. congruence. }
  assert (Hok : StatusCode resp = 200) by (destruct (decide (StatusCode resp = 200)); done).
  assert (Hdone : ∀ (req' : Request) (evs : list Event),
             EvDo req' ∈ evs → (∀ q, EvDo q ∈ evs → q = req) →
             ∃ resp', client_Do W req' = inr resp' ∧ StatusCode resp' = 200).
  { intros req' evs Hin Hone. rewrite (Hone req' Hin). by exists resp. }
  destruct (IsAdminDomain dnsRequest); simpl.
  - destruct (ManageSync W _) as [e | ] eqn:Hm; simpl.
    + eapply end_exit; [ | exact Hm | ]; [ in_trace | ].
      intros req' Hin. eapply Hdone; [ exact Hin | ].
      intros q Hq. split_trace Hq. by injection Hq.
    + repeat case_bool_decide; simpl.
      all: eapply (end_redirect _ _ req); [ in_trace | | ].
      all: try (intros req' Hin; eapply Hdone; [ exact Hin | ];
                intros q Hq; split_trace Hq; by injection Hq).
      all: intros names Hin; split_trace Hin; injection Hin as ->; exact Hm.
  - repeat case_bool_decide; simpl.
    all: eapply (end_redirect _ _ req); [ in_trace | | ].
    all: try (intros req' Hin; eapply Hdone; [ exact Hin | ];
              intros q Hq; split_trace Hq; by injection Hq).
    all: intros names Hin; split_trace Hin.
Qed.

(** With a failed code exchange the callback prints the error and then
    dereferences the nil token: the handler panics and sends no status. *)
Lemma auth_success_exchange_error (W : World) (ip ts : string) (r : Request) (d : Database)
    (e : error) (pending : DNSRequest) :
  Path (URL r) = "/namedrop/auth-success" →
  db_GetDNSRequest d (Values_Get (Form r) "state") = inr pending →
  oauth_Exchange W (Values_Get (Form r) "code") = inl e →
  (∃ msg, flow (rootHandler W ip ts r) (serving d) = Panicked msg)
  ∧ status (exec (rootHandler W ip ts r) (serving d)) = None
  ∧ EvPrint e ∈ added (rootHandler W ip ts r) (serving d).
Proof.
  intros Hpath Hreq Hex.
  unfold added, flow, exec, status, serving. go_unfold. simpl.
  rewrite Hpath. simpl. rewrite Hreq. simpl. rewrite Hex. simpl.
  split; [ by eexists | ]. split; [ done | in_trace ].
Qed.

Lemma auth_success_exchange_error_witness :
  oauth_Exchange oauth_rejecting (Values_Get (Form callback_request) "code")
    = inl "oauth2: cannot fetch token: 400 Bad Request"
  ∧ (∃ msg, flow (rootHandler oauth_rejecting "198.51.100.1" "2026-01-01T00:00:00Z"
                    callback_request) (serving store_example) = Panicked msg)
  ∧ status (exec (rootHandler oauth_rejecting "198.51.100.1" "2026-01-01T00:00:00Z"
                    callback_request) (serving store_example)) = None.
Proof.
  assert (Hreq : db_GetDNSRequest store_example (Values_Get (Form callback_request) "state")
                 = inr admin_dns_request) by (vm_compute; reflexivity).
  split; [ reflexivity | ].
  destruct (auth_success_exchange_error oauth_rejecting "198.51.100.1" "2026-01-01T00:00:00Z"
              callback_request store_example "oauth2: cannot fetch token: 400 Bad Request"
              admin_dns_request eq_refl Hreq eq_refl) as (Hpanic & Hstatus & _).
  exact (conj Hpanic Hstatus).
Defined.

(** C5, as stated, fails: certificate acquisition for the new admin domain
    fails, and the handler ends the process without any HTTP status. *)
Lemma auth_success_cert_failure_exits :
  ManageSync acme_failing ["admin.example"] = Some "acme: could not obtain certificate"
  ∧ EvManageSync ["admin.example"]
      ∈ added (rootHandler acme_failing "198.51.100.1" "2026-01-01T00:00:00Z" callback_request)
              (serving store_example)
  ∧ flow (rootHandler acme_failing "198.51.100.1" "2026-01-01T00:00:00Z" callback_request)
         (serving store_example) = Exited
  ∧ status (exec (rootHandler acme_failing "198.51.100.1" "2026-01-01T00:00:00Z"
                    callback_request) (serving store_example)) ≠ Some 500.
Proof.
  split; [ reflexivity | ]. split; [ vm_compute; in_trace | ].
  split; [ vm_compute; reflexivity | ].
  assert (Hs : status (exec (rootHandler acme_failing "198.51.100.1" "2026-01-01T00:00:00Z"
                               callback_request) (serving store_example)) = None)
    by (vm_compute; reflexivity).
  rewrite Hs. discriminate.
Qed.

(** C5, amended.  In the [/namedrop/auth-success] handler, when the code
    exchange succeeds, every failure the handler checks gives status 500 and
    an early return: an unknown request id, a failed token-data request,
    token data that do not decode, no scopes, a record that does not
    encode, a record request that cannot be built or sent, a reply that
    cannot be read, and a status other than 200 from the record-creation
    call.  When all of these pass, a failed certificate acquisition for the
    new admin domain ends the process through [log.Fatal] and no status is
    sent; otherwise the handler redirects with 303.  So the handler ends in
    one of these three ways. *)
Theorem auth_success_failures (W : World) (ip ts : string) (r : Request) (d : Database)
    (tok : oauth2_Token) :
  Path (URL r) = "/namedrop/auth-success" →
  oauth_Exchange W (Values_Get (Form r) "code") = inr tok →
  ((flow (rootHandler W ip ts r) (serving d) = Returned
    ∧ status (exec (rootHandler W ip ts r) (serving d)) = Some 500)
   ∨ (flow (rootHandler W ip ts r) (serving d) = Next ()
      ∧ status (exec (rootHandler W ip ts r) (serving d)) = Some 303)
   ∨ (flow (rootHandler W ip ts r) (serving d) = Exited
      ∧ status (exec (rootHandler W ip ts r) (serving d)) = None))
  ∧ (DNSRequests d !! Values_Get (Form r) "state" = None →
     answers_500 (rootHandler W ip ts r) (serving d))
  ∧ (∀ pending, DNSRequests d !! Values_Get (Form r) "state" = Some pending →
     (∀ e, http_Get W (token_data_url tok) = inl e →
        answers_500 (rootHandler W ip ts r) (serving d))
     ∧ (∀ tokenResp, http_Get W (token_data_url tok) = inr tokenResp →
        (∀ e, json_Unmarshal_TokenData W (body_data (resp_Body tokenResp)) = inl e →
           answers_500 (rootHandler W ip ts r) (serving d))
        ∧ (∀ td, json_Unmarshal_TokenData W (body_data (resp_Body tokenResp)) = inr td →
           (Scopes td = [] → answers_500 (rootHandler W ip ts r) (serving d))
           ∧ (∀ scope0 more, Scopes td = scope0 :: more →
              (∀ e, json_Marshal_Record W (record_for ip scope0) = inl e →
                 answers_500 (rootHandler W ip ts r) (serving d))
              ∧ (∀ js, json_Marshal_Record W (record_for ip scope0) = inr js →
                 (∀ e, url_Parse W (records_url tok) = inl e →
                    answers_500 (rootHandler W ip ts r) (serving d))
                 ∧ (∀ u, url_Parse W (records_url tok) = inr u →
                    (∀ e, client_Do W (put_record u js) = inl e →
                       answers_500 (rootHandler W ip ts r) (serving d))
                    ∧ (∀ resp, client_Do W (put_record u js) = inr resp →
                       (∀ e, body_err (resp_Body resp) = Some e →
                          answers_500 (rootHandler W ip ts r) (serving d))
                       ∧ (StatusCode resp ≠ 200 →
                          answers_500 (rootHandler W ip ts r) (serving d))
                       ∧ (body_err (resp_Body resp) = None → StatusCode resp = 200 →
                          (IsAdminDomain pending = true →
                           ∀ e, ManageSync W [fqdn_of scope0] = Some e →
                           flow (rootHandler W ip ts r) (serving d) = Exited
                           ∧ status (exec (rootHandler W ip ts r) (serving d)) = None)
                          ∧ (IsAdminDomain pending = true →
                             ManageSync W [fqdn_of scope0] = None →
                             flow (rootHandler W ip ts r) (serving d) = Next ()
                             ∧ status (exec (rootHandler W ip ts r) (serving d)) = Some 303)
                          ∧ (IsAdminDomain pending = false →
                             flow (rootHandler W ip ts r) (serving d) = Next ()
                             ∧ status (exec (rootHandler W ip ts r) (serving d))
                               = Some 303))))))))).
Proof.
  intros Hpath Hex. split.
  { destruct (auth_success_ends W ip ts r d tok Hpath Hex)
      as [evs Hnm Hdo | evs req Hin Hdo Hms | evs names e Hin Hm Hdo].
    - by left.
    - right. by left.
    - right. by right. }
  split; [ intros Hnone; by callback_run | ].
  intros pending Hreq.
  split; [ intros e Hget; by callback_run | ]. intros tokenResp Hget.
  split; [ intros e Hjson; by callback_run | ]. intros td Hjson.
  split; [ intros Hscopes; by callback_run | ]. intros scope0 more Hscopes.
  split; [ intros e Hrec; by callback_run | ]. intros js Hrec.
  split; [ intros e Hurl; by callback_run | ]. intros u Hurl.
  split; [ intros e Hdo; by callback_run | ]. intros resp Hdo.
  split; [ intros e Hbody; by callback_run | ].
  split.
  { intros Hcode. callback_run.
    destruct (body_err (resp_Body resp)); simpl; [ done | ].
    by rewrite bool_decide_eq_true_2. }
  intros Hbody Hcode.
  assert (Hsame : bool_decide (StatusCode resp ≠ 200) = false)
    by (apply bool_decide_eq_false_2; intros Hne; by apply Hne).
  split; [ | split ].
  - intros Hadmin e Hcert. by callback_run.
  - intros Hadmin Hcert. callback_run. repeat case_bool_decide; done.
  - intros Hadmin. callback_run. repeat case_bool_decide; done.
Qed.

Lemma auth_success_failures_witness :
  Path (URL callback_request) = "/namedrop/auth-success"
  ∧ oauth_Exchange dns_refusing (Values_Get (Form callback_request) "code")
    = inr (mkToken "tok")
  ∧ client_Do dns_refusing record_request = inr (mkResponse 403 ∅ (mkBody "forbidden" None))
  ∧ flow (rootHandler dns_refusing "198.51.100.1" "2026-01-01T00:00:00Z" callback_request)
         (serving store_example) = Returned
  ∧ status (exec (rootHandler dns_refusing "198.51.100.1" "2026-01-01T00:00:00Z"
                    callback_request) (serving store_example)) = Some 500.
Proof.
  assert (Hex : oauth_Exchange dns_refusing (Values_Get (Form callback_request) "code")
                = inr (mkToken "tok")) by reflexivity.
  assert (Hreq : DNSRequests store_example !! Values_Get (Form callback_request) "state"
                 = Some admin_dns_request) by (vm_compute; reflexivity).
  assert (Hget : http_Get dns_refusing (token_data_url (mkToken "tok"))
                 = inr (mkResponse 200 ∅ (mkBody "{scopes}" None))) by reflexivity.
  assert (Hjson : json_Unmarshal_TokenData dns_refusing
                    (body_data (resp_Body (mkResponse 200 ∅ (mkBody "{scopes}" None))))
                  = inr (mkNamedropTokenData [mkScope "example" "admin"])) by reflexivity.
  assert (Hrec : json_Marshal_Record dns_refusing
                   (record_for "198.51.100.1" (mkScope "example" "admin"))
                 = inr "{record}") by reflexivity.
  assert (Hurl : url_Parse dns_refusing (records_url (mkToken "tok"))
                 = inr (mkURL "https" "takingnames.io" "/namedrop/records" "access_token=tok"))
    by (vm_compute; reflexivity).
  assert (Hdo : client_Do dns_refusing
                  (put_record (mkURL "https" "takingnames.io" "/namedrop/records"
                                     "access_token=tok") "{record}")
                = inr (mkResponse 403 ∅ (mkBody "forbidden" None))) by reflexivity.
  assert (Hcode : StatusCode (mkResponse 403 ∅ (mkBody "forbidden" None)) ≠ 200)
    by discriminate.
  split; [ reflexivity | ]. split; [ exact Hex | ]. split; [ reflexivity | ].
  destruct (auth_success_failures dns_refusing "198.51.100.1" "2026-01-01T00:00:00Z"
              callback_request store_example (mkToken "tok") eq_refl Hex)
    as (_ & _ & Hknown).
  destruct (Hknown _ Hreq) as (_ & Hgot).
  destruct (Hgot _ Hget) as (_ & Hdecoded).
  destruct (Hdecoded _ Hjson) as (_ & Hscoped).
  destruct (Hscoped _ [] eq_refl) as (_ & Hencoded).
  destruct (Hencoded _ Hrec) as (_ & Hbuilt).
  destruct (Hbuilt _ Hurl) as (_ & Hsent).
  destruct (Hsent _ Hdo) as (_ & Hrefused & _).
  exact (Hrefused Hcode).
Defined.

(** ** The HTTP port *)

(** [http.Redirect] on a writer nobody wrote to. *)
Lemma redirect_fresh (r : Request) (url : string) (code : Z) (s : Serving) :
  rw_status (sv_w s) = None →
  flow (http_Redirect r url code) s = Next ()
  ∧ status (exec (http_Redirect r url code) s) = Some code
  ∧ sent_header (exec (http_Redirect r url code) s) "Location" = Some [url]
  ∧ sv_trace (exec (http_Redirect r url code) s) = sv_trace s
  ∧ sv_db (exec (http_Redirect r url code) s) = sv_db s.
Proof.
  intros Hf. unfold http_Redirect, on_w, flow, exec, status, sent_header. simpl.
  unfold rw_WriteHeader, rw_Write, rw_WriteHeader, rw_set. simpl.
  repeat case_bool_decide; simpl; rewrite ?Hf; simpl; rewrite ?Hf; simpl.
  all: repeat split; try done.
  all: rewrite ?lookup_insert_ne by done; by rewrite lookup_insert_eq.
Qed.

(** C7.  With [allow-http] off, every request on the HTTP port is answered
    301 with [Location: https://<Host>:<https port><request URI>]; a GET of
    [http://h/p?q=1] is sent to [https://h:<https port>/p?q=1]. *)
Theorem redirectTLS_location (W : World) (ip ts : string) (httpsPort : Z) (r : Request)
    (d : Database) :
  status (exec (httpPortHandler W ip ts false httpsPort r) (serving d)) = Some 301
  ∧ sent_header (exec (httpPortHandler W ip ts false httpsPort r) (serving d)) "Location"
    = Some ["https://" +:+ Host r +:+ ":" +:+ pretty httpsPort +:+ RequestURI r]
  ∧ (Host r = "h" → RequestURI r = "/p?q=1" →
     sent_header (exec (httpPortHandler W ip ts false httpsPort r) (serving d)) "Location"
     = Some ["https://h:" +:+ pretty httpsPort +:+ "/p?q=1"]).
Proof.
  unfold httpPortHandler, redirectTLS.
  destruct (redirect_fresh r ("https://" +:+ Host r +:+ ":" +:+ pretty httpsPort +:+ RequestURI r)
              301 (serving d) eq_refl) as (_ & Hs & Hl & _).
  split; [ done | split; [ done | ] ].
  intros Hh Hu. rewrite Hl, Hh, Hu. reflexivity.
Qed.

(** The earlier revision with the port fixed answers as the current one
    does for port 443. *)
Lemma redirectTLS_443_location (r : Request) (d : Database) :
  status (exec (redirectTLS_443 r) (serving d)) = Some 301
  ∧ sent_header (exec (redirectTLS_443 r) (serving d)) "Location"
    = sent_header (exec (redirectTLS 443 r) (serving d)) "Location".
Proof.
  unfold redirectTLS_443, redirectTLS, emit, mbind, Go_bind. simpl.
  destruct (redirect_fresh r ("https://" +:+ Host r +:+ ":443" +:+ RequestURI r) 301
              (mkServing newResponseWriter d
                 [EvPrint ("redir " +:+ "https://" +:+ Host r +:+ ":443" +:+ RequestURI r)])
              eq_refl) as (_ & Hs & Hl & _).
  destruct (redirect_fresh r ("https://" +:+ Host r +:+ ":" +:+ pretty 443 +:+ RequestURI r)
              301 (serving d) eq_refl) as (_ & _ & Hl' & _).
  split; [ exact Hs | ]. rewrite Hl'. exact Hl.
Qed.

(** C6, as stated, fails: with [allow-http] off an ACME HTTP-01 challenge
    request on the HTTP port is answered with the 301 redirect. *)
Lemma acme_challenge_gets_redirect :
  is_acme_challenge acme_request
  ∧ status (exec (httpPortHandler calm "198.51.100.1" "2026-01-01T00:00:00Z" false 443
                    acme_request) (serving store_example)) = Some 301
  ∧ sent_header (exec (httpPortHandler calm "198.51.100.1" "2026-01-01T00:00:00Z" false 443
                         acme_request) (serving store_example)) "Location"
    = Some ["https://a.example:443/.well-known/acme-challenge/tok"].
Proof. split; [ reflexivity | ]. split; vm_compute; reflexivity. Qed.

(** C6, amended.  With [allow-http] off the handler on the HTTP port is the
    redirect handler alone: an ACME HTTP-01 challenge request is answered
    like any other request, with the 301 redirect to the HTTPS port, and
    nothing else is done for it. *)
Theorem http_port_redirects_challenges (W : World) (ip ts : string) (httpsPort : Z)
    (r : Request) (d : Database) :
  is_acme_challenge r →
  httpPortHandler W ip ts false httpsPort r = redirectTLS httpsPort r
  ∧ flow (httpPortHandler W ip ts false httpsPort r) (serving d) = Next ()
  ∧ status (exec (httpPortHandler W ip ts false httpsPort r) (serving d)) = Some 301
  ∧ sent_header (exec (httpPortHandler W ip ts false httpsPort r) (serving d)) "Location"
    = Some ["https://" +:+ Host r +:+ ":" +:+ pretty httpsPort +:+ RequestURI r]
  ∧ added (httpPortHandler W ip ts false httpsPort r) (serving d) = [].
Proof.
  intros _. unfold httpPortHandler, redirectTLS.
  destruct (redirect_fresh r ("https://" +:+ Host r +:+ ":" +:+ pretty httpsPort +:+ RequestURI r)
              301 (serving d) eq_refl) as (Hf & Hs & Hl & Ht & _).
  split; [ done | ]. split; [ done | ]. split; [ done | ]. split; [ done | ].
  apply added_exec. rewrite Ht. reflexivity.
Qed.

Lemma http_port_redirects_challenges_witness :
  is_acme_challenge acme_request
  ∧ status (exec (httpPortHandler calm "198.51.100.1" "2026-01-01T00:00:00Z" false 443
                    acme_request) (serving store_example)) = Some 301.
Proof.
  assert (Hc : is_acme_challenge acme_request) by reflexivity.
  split; [ exact Hc | ].
  destruct (http_port_redirects_challenges calm "198.51.100.1" "2026-01-01T00:00:00Z" 443
              acme_request store_example Hc) as (_ & _ & Hs & _).
  exact Hs.
Defined.

(** ** Start-up *)

Lemma setAdminDomain_accounts (W : World) (Mc : Machine) (ip : string) (b : Boot) :
  accounts (exec (setAdminDomain W Mc ip) b) = accounts b.
Proof.
  unfold exec, accounts. boot_unfold. simpl.
  destruct (bt_stdin b) as [ | action more]; simpl.
  { repeat case_decide; simpl; try done. }
  destruct (decide (action = "1")) as [H1 | H1]; simpl.
  { destruct more as [ | name more']; simpl; destruct (ManageSync W _); simpl; done. }
  destruct (decide (action = "2")) as [H2 | H2]; simpl; [ | done ].
  destruct (http_Get W _) as [err | resp]; simpl; [ done | ].
  case_bool_decide; simpl; [ done | ].
  destruct (ManageSync W _); simpl; [ done | ].
  done.
Qed.

Lemma manage_or_die_accounts (W : World) (names : list string) (b : Boot) :
  accounts (exec (manage_or_die W names) b) = accounts b.
Proof.
  unfold exec, accounts. boot_unfold. simpl. destruct (ManageSync W names); done.
Qed.

(** The part of [Listen] between the database load and the admin-user
    block leaves users and tokens alone. *)
Lemma admin_domain_block_accounts (W : World) (Mc : Machine) (ip : string) (b : Boot) :
  accounts
    (exec (if decide (db_GetAdminDomain (bt_db b) = "") then
             failed ← setAdminDomain W Mc ip;
             match failed with
             | Some err => boot_Fatal err
             | None => mret ()
             end
           else
             manage_or_die W [db_GetAdminDomain (bt_db b)];;
             boot (BtLog ("Successfully acquired certificate for admin domain ("
                          +:+ db_GetAdminDomain (bt_db b) +:+ ")"))) b)
  = accounts b.
Proof.
  destruct (decide (db_GetAdminDomain (bt_db b) = "")) as [Hempty | Hset].
  - pose proof (setAdminDomain_accounts W Mc ip b) as Hkeep.
    unfold exec, mbind, Go_bind in *.
    destruct (setAdminDomain W Mc ip b) as [[[err | ] | | msg | ] b']; simpl in *; done.
  - pose proof (manage_or_die_accounts W [db_GetAdminDomain (bt_db b)] b) as Hkeep.
    unfold exec, mbind, Go_bind in *.
    destruct (manage_or_die W [db_GetAdminDomain (bt_db b)] b) as [[[] | | msg | ] b'];
      simpl in *; done.
Qed.

Lemma addAdminUser_no_users (Mc : Machine) (b : Boot) :
  size (Users (bt_db b)) = 0%nat →
  flow (addAdminUser Mc) b = Next () →
  ∃ token,
    genRandomCode Mc (bt_draws b) 32 = inr token
    ∧ Users (bt_db (exec (addAdminUser Mc) b)) = <["admin" := mkUser true]> (Users (bt_db b))
    ∧ Tokens (bt_db (exec (addAdminUser Mc) b))
      = <[token := mkTokenData "admin"]> (Tokens (bt_db b)).
Proof.
  intros Hsize. unfold flow, exec. boot_unfold. unfold db_GetUsers. simpl.
  rewrite Hsize. simpl. unfold db_AddToken. simpl.
  rewrite lookup_insert_eq.
  destruct (genRandomCode Mc (bt_draws b) 32) as [e | token]; simpl; [ done | ].
  intros _. by exists token.
Qed.

Lemma addAdminUser_some_users (Mc : Machine) (b : Boot) :
  size (Users (bt_db b)) ≠ 0%nat →
  addAdminUser Mc b = (Next (), b).
Proof.
  intros Hsize. boot_unfold. unfold db_GetUsers. simpl.
  rewrite bool_decide_eq_false_2 by done. done.
Qed.

Lemma printLoginBlock_db (flags : Flags) (b : Boot) :
  bt_db (exec (printLoginBlock flags) b) = bt_db b.
Proof.
  unfold exec. boot_unfold.
  destruct (printLogin flags); simpl; [ | done ].
  destruct (filter _ _) as [ | [token td] rest]; done.
Qed.

(** A start-up that succeeds has loaded a store and reached the admin-user
    block with the stored users and tokens untouched. *)
Lemma startup_reaches_admin_block (W : World) (Mc : Machine) (flags : Flags) :
  flow (Listen_startup W Mc flags) (power_on Mc) = Next () →
  ∃ stored b,
    NewDatabase Mc = inr stored
    ∧ accounts b = (Users stored, Tokens stored)
    ∧ flow (addAdminUser Mc) b = Next ()
    ∧ bt_db (exec (Listen_startup W Mc flags) (power_on Mc))
      = bt_db (exec (addAdminUser Mc) b).
Proof.
  unfold Listen_startup.
  destruct (getPublicIp W) as [e | ip]; [ done | ].
  destruct (checkPublicAddress Mc ip (httpPort flags)) as [e | ]; [ done | ].
  destruct (checkPublicAddress Mc ip (httpsPort flags)) as [e | ]; [ done | ].
  destruct (NewDatabase Mc) as [e | stored]; [ done | ].
  intros Hflow. exists stored.
  apply bind_flow_next in Hflow as ([] & _ & Hflow & ->).
  apply bind_flow_next in Hflow as ([] & _ & Hflow & ->).
  apply bind_flow_next in Hflow as ([] & _ & Hflow & ->).
  apply bind_flow_next in Hflow as (b1 & Hget & Hflow & ->).
  apply bind_flow_next in Hflow as ([] & _ & Hflow & ->).
  unfold get_boot in Hget. injection Hget as Hb1.
  match type of Hflow with flow _ ?b2 = _ => exists b2 end.
  apply bind_flow_next in Hflow as ([] & Hadd & _ & ->).
  split; [ done | ]. split; [ | split ].
  - subst b1.
    match goal with |- context [exec get_boot ?s2] => change (exec get_boot s2) with s2 end.
    rewrite admin_domain_block_accounts.
    unfold when. destruct (bool_decide (newAdminDomain flags ≠ "")); reflexivity.
  - unfold flow. by rewrite Hadd.
  - apply printLoginBlock_db.
Qed.

(** C10, as stated, fails: the stored database has the user [admin] and
    no token; start-up succeeds, adds nothing, and the store still holds no
    token at all. *)
Lemma startup_admin_without_token :
  NewDatabase (machine_of store_admin) = inr store_admin
  ∧ db_GetUsers store_admin = {[ "admin" := mkUser true ]}
  ∧ flow (Listen_startup calm (machine_of store_admin) default_flags)
         (power_on (machine_of store_admin)) = Next ()
  ∧ map_to_list (db_GetTokens (bt_db (exec (Listen_startup calm (machine_of store_admin)
                                              default_flags)
                                           (power_on (machine_of store_admin))))) = [].
Proof.
  split; [ reflexivity | ]. split; [ reflexivity | ].
  split; vm_compute; reflexivity.
Qed.

(** C10, amended.  A start-up that succeeds has loaded the stored database.
    If that holds no users, the store afterwards has the one user [admin],
    with the admin flag, and exactly one token more than before, owned by
    [admin]; so an admin-owned token exists.  If it already holds the user
    [admin], start-up leaves users and tokens as stored. *)
Theorem startup_admin_account (W : World) (Mc : Machine) (flags : Flags) :
  flow (Listen_startup W Mc flags) (power_on Mc) = Next () →
  ∃ stored,
    NewDatabase Mc = inr stored
    ∧ (size (db_GetUsers stored) = 0%nat →
       db_GetUsers (bt_db (exec (Listen_startup W Mc flags) (power_on Mc)))
         = {[ "admin" := mkUser true ]}
       ∧ ∃ token,
           db_GetTokens (bt_db (exec (Listen_startup W Mc flags) (power_on Mc)))
             = <[token := mkTokenData "admin"]> (db_GetTokens stored)
           ∧ db_GetTokens (bt_db (exec (Listen_startup W Mc flags) (power_on Mc))) !! token
             = Some (mkTokenData "admin"))
    ∧ (is_Some (db_GetUsers stored !! "admin") →
       db_GetUsers (bt_db (exec (Listen_startup W Mc flags) (power_on Mc)))
         = db_GetUsers stored
       ∧ db_GetTokens (bt_db (exec (Listen_startup W Mc flags) (power_on Mc)))
         = db_GetTokens stored).
Proof.
  intros Hflow.
  destruct (startup_reaches_admin_block W Mc flags Hflow)
    as (stored & b & Hstored & Hacc & Hnext & Hdb).
  exists stored. split; [ done | ].
  unfold accounts in Hacc. injection Hacc as Husers Htokens.
  unfold db_GetUsers, db_GetTokens. rewrite Hdb. split.
  - intros Hnone. rewrite <- Husers in Hnone.
    destruct (addAdminUser_no_users Mc b Hnone Hnext) as (token & _ & Hu & Ht).
    rewrite Hu, Ht, Husers, Htokens.
    apply map_size_empty_inv in Hnone. rewrite Husers in Hnone. rewrite Hnone.
    split; [ done | ].
    exists token. split; [ done | apply lookup_insert_eq ].
  - intros [u Hadmin].
    assert (Hsome : size (Users (bt_db b)) ≠ 0%nat).
    { intros Hnone. apply map_size_empty_inv in Hnone.
      rewrite Husers in Hnone. rewrite Hnone in Hadmin. by rewrite lookup_empty in Hadmin. }
    unfold exec. rewrite (addAdminUser_some_users Mc b Hsome). done.
Qed.

Lemma startup_admin_account_witness :
  flow (Listen_startup calm (machine_of store_new) default_flags)
       (power_on (machine_of store_new)) = Next ()
  ∧ ∃ token,
      db_GetTokens (bt_db (exec (Listen_startup calm (machine_of store_new) default_flags)
                                (power_on (machine_of store_new)))) !! token
      = Some (mkTokenData "admin").
Proof.
  assert (Hflow : flow (Listen_startup calm (machine_of store_new) default_flags)
                       (power_on (machine_of store_new)) = Next ())
    by (vm_compute; reflexivity).
  split; [ exact Hflow | ].
  destruct (startup_admin_account calm (machine_of store_new) default_flags Hflow)
    as (stored & Hstored & Hnone & _).
  assert (Hsame : stored = store_new) by (injection Hstored as <-; reflexivity).
  assert (Hsize : size (db_GetUsers stored) = 0%nat) by (rewrite Hsame; reflexivity).
  destruct (Hnone Hsize) as (_ & token & _ & Hlook).
  exact (ex_intro _ token Hlook).
Defined.

(** * The rest of the code: proofs *)

(** ** More on the reverse proxy *)

Lemma exec_call {S : Type} (m : Go S ()) (s : S) : exec (call m) s = exec m s.
Proof. unfold exec, call. destruct (m s) as [[[] | | msg | ] s']; done. Qed.

(** [proxyRequest] only appends to the trace. *)
Lemma proxyRequest_extends (W : World) (r : Request) (tunnel : Tunnel) (port : Z)
    (s : Serving) :
  sv_trace (exec (proxyRequest W r tunnel port) s)
  = sv_trace s ++ added (proxyRequest W r tunnel port) s.
Proof.
  assert (Hsome : ∃ l, sv_trace (exec (proxyRequest W r tunnel port) s) = sv_trace s ++ l).
  { unfold exec.
    destruct (gate_cases W r tunnel) as [Hg | [[Hreq Hn] | [Hreq (u & p & Hb & Hbad)]]].
    - rewrite gate_passes by done.
      destruct (body_err (Body r)) as [e | ] eqn:He.
      { rewrite (forward_read_error _ _ _ _ _ e) by done. by eexists. }
      destruct (url_Parse W (upstream_url r port)) as [e | u] eqn:Hu.
      { rewrite (forward_parse_error _ _ _ _ _ e) by done. by eexists. }
      destruct (client_Do W (upstream_request r tunnel u)) as [e | res] eqn:Hd.
      { rewrite (forward_do_error _ _ _ _ _ u e) by done. by eexists. }
      rewrite (forward_answered _ _ _ _ _ u res) by done. by eexists.
    - rewrite gate_no_credentials by done. exists []. simpl. by rewrite app_nil_r.
    - rewrite (gate_wrong_credentials _ _ _ _ _ u p) by done. by eexists. }
  destruct Hsome as [l Hl]. by rewrite (added_exec _ _ l Hl).
Qed.

(** X2.  A request past the gate whose body reads, whose URL parses and
    which the backend answers is relayed: the client gets the backend's
    status, its headers and its body, and the backend's response body is
    closed last. *)
Theorem proxyRequest_relays (W : World) (r : Request) (tunnel : Tunnel) (port : Z)
    (s : Serving) (u : url_URL) (res : Response) :
  gate_open W r tunnel →
  sv_w s = newResponseWriter →
  body_err (Body r) = None →
  url_Parse W (upstream_url r port) = inr u →
  client_Do W (upstream_request r tunnel u) = inr res →
  flow (proxyRequest W r tunnel port) s = Next ()
  ∧ status (exec (proxyRequest W r tunnel port) s) = Some (StatusCode res)
  ∧ (∀ k, sent_header (exec (proxyRequest W r tunnel port) s) k = resp_Header res !! k)
  ∧ sent_body (exec (proxyRequest W r tunnel port) s) = body_data (resp_Body res)
  ∧ ∃ before, added (proxyRequest W r tunnel port) s = before ++ [EvClose (resp_Body res)].
Proof.
  intros Hg Hw Hb Hu Hd.
  pose proof (forward_answered W r tunnel port s u res Hb Hu Hd) as E.
  rewrite <- gate_passes in E by done.
  unfold flow, exec, status, sent_header, sent_body. rewrite E. simpl.
  rewrite Hw. simpl. split; [ done | ]. split; [ done | ].
  split; [ intros k; by rewrite (right_id ∅ (∪)) | ]. split; [ done | ].
  eexists [_; _; _; _]. apply added_exec. unfold exec. rewrite E. reflexivity.
Qed.

Lemma proxyRequest_relays_witness :
  gate_open calm request_b tunnel_b
  ∧ status (exec (proxyRequest calm request_b tunnel_b 9002) (serving store_example))
    = Some 200
  ∧ sent_body (exec (proxyRequest calm request_b tunnel_b 9002) (serving store_example))
    = "ok".
Proof.
  assert (Hgate : gate_open calm request_b tunnel_b) by (left; split; reflexivity).
  assert (Hu : url_Parse calm (upstream_url request_b 9002)
               = inr (mkURL "http" "localhost:9002" "/x" "")) by (vm_compute; reflexivity).
  assert (Hd : client_Do calm (upstream_request request_b tunnel_b
                                 (mkURL "http" "localhost:9002" "/x" ""))
               = inr (mkResponse 200 ∅ (mkBody "ok" None))) by reflexivity.
  split; [ exact Hgate | ].
  destruct (proxyRequest_relays calm request_b tunnel_b 9002 (serving store_example) _ _
              Hgate eq_refl eq_refl Hu Hd) as (_ & Hs & _ & Hb & _).
  split; [ exact Hs | exact Hb ].
Defined.

(** ** More on the virtual-host router *)

(** The host name the router routes by is the [Host] header up to its
    first colon. *)
Lemma before_colon_free (s : string) : colon_free (before_colon s) = true.
Proof.
  induction s as [ | c s IH]; [ done | ]. simpl.
  destruct (Ascii.eqb c ":") eqn:Hc; [ done | ]. simpl. by rewrite Hc.
Qed.

Lemma before_colon_id (s : string) : colon_free s = true → before_colon s = s.
Proof.
  induction s as [ | c s IH]; [ done | ]. simpl.
  destruct (Ascii.eqb c ":"); simpl; [ done | ]. intros Hs. by rewrite IH.
Qed.

Lemma before_colon_app (h rest : string) :
  colon_free h = true → before_colon (h +:+ ":" +:+ rest) = h.
Proof.
  induction h as [ | c h IH]; [ done | ]. simpl.
  destruct (Ascii.eqb c ":"); simpl; [ done | ]. intros Hs. by rewrite IH.
Qed.

(** X3.  The routing key is the [Host] header with everything from its
    first colon on cut off: it never contains a colon, a host without a
    port is its own key, and [h:port] has the key [h]. *)
Theorem before_colon_host (h rest : string) :
  colon_free (before_colon rest) = true
  ∧ (colon_free h = true →
     before_colon h = h ∧ before_colon (h +:+ ":" +:+ rest) = h).
Proof.
  split; [ apply before_colon_free | ].
  intros Hh. split; [ by apply before_colon_id | by apply before_colon_app ].
Qed.

Lemma before_colon_host_witness :
  colon_free "b.example" = true
  ∧ before_colon ("b.example" +:+ ":" +:+ "8443") = "b.example".
Proof.
  assert (Hf : colon_free "b.example" = true) by reflexivity.
  split; [ exact Hf | ].
  destruct (before_colon_host "b.example" "8443") as [_ Hcut].
  destruct (Hcut Hf) as [_ Hport]. exact Hport.
Defined.

(** The router on a path it does not serve itself, for a host that is not
    the admin domain: the tunnel lookup decides. *)
Lemma rootHandler_tunnel_branch (W : World) (ip ts : string) (r : Request) (d : Database) :
  ¬ own_path (Path (URL r)) →
  before_colon (Host r) ≠ db_GetAdminDomain d →
  rootHandler W ip ts r (serving d) =
    match db_GetTunnel d (before_colon (Host r)) with
    | None => fail500 ("No tunnel attached to " +:+ before_colon (Host r))
    | Some tunnel => call (proxyRequest W r tunnel (TunnelPort tunnel))
    end (mkServing newResponseWriter d
           [EvPrint (ts +:+ " " +:+ before_colon (RemoteAddr r) +:+ " " +:+ Method r +:+ " "
                     +:+ Host r +:+ " " +:+ Path (URL r))]).
Proof.
  intros Hown Hadmin. unfold own_path in Hown.
  unfold rootHandler, serving, emit, get_db, mbind, Go_bind. simpl.
  repeat case_decide; try done; exfalso; auto.
Qed.

(** X4.  A request for a host that is neither the admin domain nor a
    registered tunnel, on a path the router does not serve itself, gets
    500 with [No tunnel attached to <host without port>]; nothing is sent
    anywhere and the store is left as it was. *)
Theorem rootHandler_unknown_host (W : World) (ip ts : string) (r : Request) (d : Database) :
  ¬ own_path (Path (URL r)) →
  before_colon (Host r) ≠ db_GetAdminDomain d →
  db_GetTunnel d (before_colon (Host r)) = None →
  flow (rootHandler W ip ts r) (serving d) = Returned
  ∧ status (exec (rootHandler W ip ts r) (serving d)) = Some 500
  ∧ sent_body (exec (rootHandler W ip ts r) (serving d))
    = "No tunnel attached to " +:+ before_colon (Host r)
  ∧ (∃ line, added (rootHandler W ip ts r) (serving d) = [EvPrint line])
  ∧ sv_db (exec (rootHandler W ip ts r) (serving d)) = d.
Proof.
  intros Hown Hadmin Hnone.
  unfold added, flow, exec, status, sent_body.
  rewrite rootHandler_tunnel_branch by done. rewrite Hnone.
  unfold fail500, WriteHeader, io_WriteString, on_w, return_, mbind, Go_bind. simpl.
  split; [ done | ]. split; [ done | ]. split; [ done | ]. split; [ by eexists | done ].
Qed.

Lemma rootHandler_unknown_host_witness :
  db_GetTunnel store_example (before_colon (Host request_z)) = None
  ∧ status (exec (rootHandler calm "198.51.100.1" "2026-01-01T00:00:00Z" request_z)
                 (serving store_example)) = Some 500
  ∧ sent_body (exec (rootHandler calm "198.51.100.1" "2026-01-01T00:00:00Z" request_z)
                    (serving store_example)) = "No tunnel attached to z.example".
Proof.
  assert (Hown : ¬ own_path (Path (URL request_z))).
  { intros [H | [H | H]]; discriminate H. }
  assert (Hadmin : before_colon (Host request_z) ≠ db_GetAdminDomain store_example)
    by discriminate.
  assert (Hnone : db_GetTunnel store_example (before_colon (Host request_z)) = None)
    by (vm_compute; reflexivity).
  split; [ exact Hnone | ].
  destruct (rootHandler_unknown_host calm "198.51.100.1" "2026-01-01T00:00:00Z" request_z
              store_example Hown Hadmin Hnone) as (_ & Hs & Hb & _).
  split; [ exact Hs | ]. rewrite Hb. vm_compute. reflexivity.
Defined.

(** X5.  For a host with a tunnel, the port of the [Host] header plays no
    part in the routing: the upstream URL is built from the tunnel's port
    and the request URI, the upstream [Host] is the tunnel's client
    address and port, and [X-Forwarded-Host] keeps the [Host] header as
    the client sent it. *)
Theorem rootHandler_proxies_by_host (W : World) (ip ts : string) (r : Request) (d : Database)
    (tunnel : Tunnel) (req : Request) :
  ¬ own_path (Path (URL r)) →
  before_colon (Host r) ≠ db_GetAdminDomain d →
  db_GetTunnel d (before_colon (Host r)) = Some tunnel →
  EvDo req ∈ added (rootHandler W ip ts r) (serving d) →
  EvNewRequest (Method r)
               ("http://" +:+ ("localhost:" +:+ pretty (TunnelPort tunnel))
                +:+ URL_RequestURI (URL r))
               (Body req)
    ∈ added (rootHandler W ip ts r) (serving d)
  ∧ wire_Host req = ClientAddress tunnel +:+ ":" +:+ pretty (ClientPort tunnel)
  ∧ Header req !! "X-Forwarded-Host" = Some [Host r].
Proof.
  intros Hown Hadmin Hsome Hin.
  set (s1 := mkServing newResponseWriter d
               [EvPrint (ts +:+ " " +:+ before_colon (RemoteAddr r) +:+ " " +:+ Method r
                         +:+ " " +:+ Host r +:+ " " +:+ Path (URL r))]).
  assert (Hadd : added (rootHandler W ip ts r) (serving d)
                 = sv_trace s1 ++ added (proxyRequest W r tunnel (TunnelPort tunnel)) s1).
  { unfold added at 1. unfold exec.
    rewrite rootHandler_tunnel_branch by done. rewrite Hsome.
    fold s1. change ((call (proxyRequest W r tunnel (TunnelPort tunnel)) s1).2)
      with (exec (call (proxyRequest W r tunnel (TunnelPort tunnel))) s1).
    rewrite exec_call, proxyRequest_extends. reflexivity. }
  rewrite Hadd in Hin |- *. simpl in Hin |- *.
  apply elem_of_cons in Hin as [Hin | Hin]; [ discriminate Hin | ].
  destruct (sent_upstream W r tunnel (TunnelPort tunnel) s1 req Hin)
    as (u & later & _ & _ & _ & -> & Hshape).
  split; [ | split ].
  - rewrite Hshape. in_trace.
  - unfold wire_Host, upstream_request. simpl.
    by rewrite decide_False by apply address_not_empty.
  - unfold upstream_request. simpl. apply lookup_insert_eq.
Qed.

Lemma rootHandler_proxies_by_host_witness :
  db_GetTunnel store_example (before_colon (Host request_b_port)) = Some tunnel_b
  ∧ wire_Host (upstream_request request_b_port tunnel_b
                 (mkURL "http" "localhost:9002" "/x" "")) = "b.example:443"
  ∧ Header (upstream_request request_b_port tunnel_b (mkURL "http" "localhost:9002" "/x" ""))
      !! "X-Forwarded-Host" = Some ["b.example:8443"].
Proof.
  assert (Hown : ¬ own_path (Path (URL request_b_port))).
  { intros [H | [H | H]]; discriminate H. }
  assert (Hadmin : before_colon (Host request_b_port) ≠ db_GetAdminDomain store_example)
    by discriminate.
  assert (Hsome : db_GetTunnel store_example (before_colon (Host request_b_port))
                  = Some tunnel_b) by (vm_compute; reflexivity).
  assert (Hin : EvDo (upstream_request request_b_port tunnel_b
                        (mkURL "http" "localhost:9002" "/x" ""))
                  ∈ added (rootHandler calm "198.51.100.1" "2026-01-01T00:00:00Z"
                             request_b_port) (serving store_example)).
  { vm_compute. in_trace. }
  split; [ exact Hsome | ].
  destruct (rootHandler_proxies_by_host calm "198.51.100.1" "2026-01-01T00:00:00Z"
              request_b_port store_example tunnel_b _ Hown Hadmin Hsome Hin)
    as (_ & Hhost & Hfwd).
  split; [ rewrite Hhost; vm_compute; reflexivity | exact Hfwd ].
Defined.

(** ** The callbacks the router serves itself *)

(** X6.  A request on one of the router's own paths is never handed to the
    API or the web UI and never proxied to a tunnel, whatever its [Host]:
    the only request the router builds for it goes to the DNS service. *)
Theorem rootHandler_own_paths (W : World) (ip ts : string) (r : Request) (d : Database) :
  own_path (Path (URL r)) →
  (∀ r', EvApi r' ∉ added (rootHandler W ip ts r) (serving d))
  ∧ (∀ r', EvWebUi r' ∉ added (rootHandler W ip ts r) (serving d))
  ∧ (∀ m u b, EvNewRequest m u b ∈ added (rootHandler W ip ts r) (serving d) →
       m = "PUT" ∧ strings_HasPrefix u "https://takingnames.io/namedrop/records" = true).
Proof.
  intros Hown.
  assert (Hall : ∀ e, e ∈ added (rootHandler W ip ts r) (serving d) →
            match e with
            | EvApi _ | EvWebUi _ => False
            | EvNewRequest m u _ =>
                m = "PUT"
                ∧ strings_HasPrefix u "https://takingnames.io/namedrop/records" = true
            | _ => True
            end).
  { intros e. unfold added, exec, serving. go_unfold. unfold http_Redirect, on_w. simpl.
    destruct Hown as [Hp | [Hp | Hp]]; rewrite Hp; simpl.
    - destruct (db_GetDNSRequest d _) as [err | pending]; simpl;
        [ | destruct (json_Marshal_DNSRequest W _); simpl ].
      all: intros Hin; split_trace Hin; by subst e.
    - destruct (db_GetDNSRequest d _) as [err | pending]; simpl.
      { intros Hin; split_trace Hin; by subst e. }
      destruct (oauth_Exchange W _) as [err | tok]; simpl.
      { intros Hin; split_trace Hin; by subst e. }
      destruct (http_Get W _) as [err | tokenResp]; simpl.
      { intros Hin; split_trace Hin; by subst e. }
      destruct (json_Unmarshal_TokenData W _) as [err | td]; simpl.
      { intros Hin; split_trace Hin; by subst e. }
      destruct (Scopes td) as [ | scope0 more]; simpl.
      { intros Hin; split_trace Hin; by subst e. }
      destruct (json_Marshal_Record W _) as [err | js]; simpl.
      { intros Hin; split_trace Hin; by subst e. }
      destruct (url_Parse W _) as [err | u]; simpl.
      { intros Hin; split_trace Hin; by subst e. }
      destruct (client_Do W _) as [err | resp]; simpl.
      { intros Hin; split_trace Hin; by subst e. }
      destruct (body_err (resp_Body resp)) as [err | ]; simpl.
      { intros Hin; split_trace Hin; by subst e. }
      case_bool_decide; simpl.
      { intros Hin; split_trace Hin; by subst e. }
      destruct (IsAdminDomain pending); simpl;
        [ destruct (ManageSync W _); simpl | ].
      all: intros Hin; split_trace Hin; by subst e.
    - destruct (db_GetDNSRequest d _) as [err | pending]; simpl.
      all: intros Hin; split_trace Hin; by subst e. }
  split; [ | split ].
  - intros r' Hin. exact (Hall _ Hin).
  - intros r' Hin. exact (Hall _ Hin).
  - intros m u b Hin. exact (Hall _ Hin).
Qed.

Lemma rootHandler_own_paths_witness :
  own_path (Path (URL callback_request))
  ∧ (∀ r', EvApi r' ∉ added (rootHandler calm "198.51.100.1" "2026-01-01T00:00:00Z"
                               callback_request) (serving store_example)).
Proof.
  assert (Hown : own_path (Path (URL callback_request))) by (right; left; reflexivity).
  split; [ exact Hown | ].
  destruct (rootHandler_own_paths calm "198.51.100.1" "2026-01-01T00:00:00Z" callback_request
              store_example Hown) as (Hapi & _ & _).
  exact Hapi.
Defined.

(** X7.  On each of the three paths a request id the store does not know
    gets 500; the store is left as it was and nothing is sent: in
    particular the OAuth callback does not exchange the code. *)
Theorem callbacks_unknown_request (W : World) (ip ts : string) (r : Request) (d : Database) :
  (Path (URL r) = "/dnsapi/requests" ∨ Path (URL r) = "/dnsapi/failure") ∧
    DNSRequests d !! Values_Get (Form r) "request-id" = None
  ∨ Path (URL r) = "/namedrop/auth-success" ∧
    DNSRequests d !! Values_Get (Form r) "state" = None →
  flow (rootHandler W ip ts r) (serving d) = Returned
  ∧ status (exec (rootHandler W ip ts r) (serving d)) = Some 500
  ∧ sv_db (exec (rootHandler W ip ts r) (serving d)) = d
  ∧ ∃ line, added (rootHandler W ip ts r) (serving d) = [EvPrint line].
Proof.
  intros Hcase.
  unfold added, flow, exec, status, serving. go_unfold. unfold db_GetDNSRequest. simpl.
  destruct Hcase as [[[Hp | Hp] Hnone] | [Hp Hnone]]; rewrite Hp; simpl; rewrite Hnone; simpl.
  all: split; [ done | ]; split; [ done | ]; split; [ done | by eexists ].
Qed.

Lemma callbacks_unknown_request_witness :
  DNSRequests store_new !! Values_Get (Form callback_request) "state" = None
  ∧ status (exec (rootHandler calm "198.51.100.1" "2026-01-01T00:00:00Z" callback_request)
                 (serving store_new)) = Some 500.
Proof.
  assert (Hnone : DNSRequests store_new !! Values_Get (Form callback_request) "state" = None)
    by (vm_compute; reflexivity).
  split; [ exact Hnone | ].
  destruct (callbacks_unknown_request calm "198.51.100.1" "2026-01-01T00:00:00Z"
              callback_request store_new (or_intror (conj eq_refl Hnone))) as (_ & Hs & _).
  exact Hs.
Defined.

(** X8.  The OAuth callback uses up the request id before it exchanges the
    code: once the id is known, the pending request is gone from the store
    however the handler ends (500, redirect, panic or exit), and tunnels,
    users and tokens are untouched. *)
Theorem auth_success_consumes_request (W : World) (ip ts : string) (r : Request)
    (d : Database) (pending : DNSRequest) :
  Path (URL r) = "/namedrop/auth-success" →
  DNSRequests d !! Values_Get (Form r) "state" = Some pending →
  DNSRequests (sv_db (exec (rootHandler W ip ts r) (serving d)))
    = delete (Values_Get (Form r) "state") (DNSRequests d)
  ∧ Tunnels (sv_db (exec (rootHandler W ip ts r) (serving d))) = Tunnels d
  ∧ Users (sv_db (exec (rootHandler W ip ts r) (serving d))) = Users d
  ∧ Tokens (sv_db (exec (rootHandler W ip ts r) (serving d))) = Tokens d
  ∧ EvExchange (Values_Get (Form r) "code") ∈ added (rootHandler W ip ts r) (serving d).
Proof.
  intros Hp Hsome.
  unfold added, exec, serving. go_unfold. unfold http_Redirect, on_w, db_GetDNSRequest. simpl.
  rewrite Hp. simpl. rewrite Hsome. simpl.
  destruct (oauth_Exchange W _) as [err | tok]; simpl.
  { repeat (split; [ done | ]). in_trace. }
  destruct (http_Get W _) as [err | tokenResp]; simpl.
  { repeat (split; [ done | ]). in_trace. }
  destruct (json_Unmarshal_TokenData W _) as [err | td]; simpl.
  { repeat (split; [ done | ]). in_trace. }
  destruct (Scopes td) as [ | scope0 more]; simpl.
  { repeat (split; [ done | ]). in_trace. }
  destruct (json_Marshal_Record W _) as [err | js]; simpl.
  { repeat (split; [ done | ]). in_trace. }
  destruct (url_Parse W _) as [err | u]; simpl.
  { repeat (split; [ done | ]). in_trace. }
  destruct (client_Do W _) as [err | resp]; simpl.
  { repeat (split; [ done | ]). in_trace. }
  destruct (body_err (resp_Body resp)) as [err | ]; simpl.
  { repeat (split; [ done | ]). in_trace. }
  case_bool_decide; simpl.
  { repeat (split; [ done | ]). in_trace. }
  destruct (IsAdminDomain pending); simpl; [ destruct (ManageSync W _); simpl | ].
  all: repeat (split; [ done | ]); in_trace.
Qed.

Lemma auth_success_consumes_request_witness :
  DNSRequests store_example !! Values_Get (Form callback_request) "state"
    = Some admin_dns_request
  ∧ DNSRequests (sv_db (exec (rootHandler oauth_rejecting "198.51.100.1"
                                 "2026-01-01T00:00:00Z" callback_request)
                              (serving store_example)))
    = delete "req1" (DNSRequests store_example).
Proof.
  assert (Hsome : DNSRequests store_example !! Values_Get (Form callback_request) "state"
                  = Some admin_dns_request) by (vm_compute; reflexivity).
  split; [ exact Hsome | ].
  destruct (auth_success_consumes_request oauth_rejecting "198.51.100.1"
              "2026-01-01T00:00:00Z" callback_request store_example admin_dns_request
              eq_refl Hsome) as (Hgone & _).
  rewrite Hgone. vm_compute. reflexivity.
Defined.

(** X9.  The failure callback is single use: for a known request id it
    redirects (303) to the alert page and deletes the pending request, so
    the same callback on the resulting store gets 500. *)
Theorem dnsapi_failure_single_use (W : World) (ip ts : string) (r : Request) (d : Database)
    (pending : DNSRequest) :
  Path (URL r) = "/dnsapi/failure" →
  DNSRequests d !! Values_Get (Form r) "request-id" = Some pending →
  status (exec (rootHandler W ip ts r) (serving d)) = Some 303
  ∧ sent_header (exec (rootHandler W ip ts r) (serving d)) "Location"
    = Some ["/alert?message=Domain request failed"]
  ∧ sv_db (exec (rootHandler W ip ts r) (serving d))
    = db_DeleteDNSRequest (Values_Get (Form r) "request-id") d
  ∧ status (exec (rootHandler W ip ts r)
                 (serving (sv_db (exec (rootHandler W ip ts r) (serving d))))) = Some 500.
Proof.
  intros Hp Hsome.
  assert (Hdb : sv_db (exec (rootHandler W ip ts r) (serving d))
                = db_DeleteDNSRequest (Values_Get (Form r) "request-id") d).
  { unfold exec, serving. go_unfold. unfold http_Redirect, on_w, db_GetDNSRequest. simpl.
    rewrite Hp. simpl. by rewrite Hsome. }
  split; [ | split; [ | split; [ exact Hdb | ] ] ].
  - unfold status, exec, serving. go_unfold. unfold http_Redirect, on_w, db_GetDNSRequest.
    simpl. rewrite Hp. simpl. rewrite Hsome. simpl.
    repeat case_bool_decide; done.
  - unfold sent_header, exec, serving. go_unfold.
    unfold http_Redirect, on_w, db_GetDNSRequest. simpl. rewrite Hp. simpl. rewrite Hsome.
    simpl. repeat case_bool_decide; simpl; try done.
    all: rewrite ?lookup_insert_ne by done; by rewrite lookup_insert_eq.
  - rewrite Hdb.
    unfold status, exec, serving. go_unfold. unfold db_GetDNSRequest, db_DeleteDNSRequest.
    simpl. rewrite Hp. simpl. by rewrite lookup_delete_eq.
Qed.

Lemma dnsapi_failure_single_use_witness :
  DNSRequests store_example !! Values_Get (Form failure_request) "request-id"
    = Some admin_dns_request
  ∧ status (exec (rootHandler calm "198.51.100.1" "2026-01-01T00:00:00Z" failure_request)
                 (serving store_example)) = Some 303.
Proof.
  assert (Hsome : DNSRequests store_example !! Values_Get (Form failure_request) "request-id"
                  = Some admin_dns_request) by (vm_compute; reflexivity).
  split; [ exact Hsome | ].
  destruct (dnsapi_failure_single_use calm "198.51.100.1" "2026-01-01T00:00:00Z"
              failure_request store_example admin_dns_request eq_refl Hsome) as (Hs & _).
  exact Hs.
Defined.

(** X10.  Reading a pending request over [/dnsapi/requests] changes
    nothing: the store is the same afterwards, nothing is sent out, and a
    known request that encodes is answered with status 200 and its JSON, so
    the same question gets the same answer again. *)
Theorem dnsapi_requests_read_only (W : World) (ip ts : string) (r : Request) (d : Database) :
  Path (URL r) = "/dnsapi/requests" →
  sv_db (exec (rootHandler W ip ts r) (serving d)) = d
  ∧ (∃ line, added (rootHandler W ip ts r) (serving d) = [EvPrint line])
  ∧ ∀ pending js,
      DNSRequests d !! Values_Get (Form r) "request-id" = Some pending →
      json_Marshal_DNSRequest W pending = inr js →
      flow (rootHandler W ip ts r) (serving d) = Next ()
      ∧ status (exec (rootHandler W ip ts r) (serving d)) = Some 200
      ∧ sent_body (exec (rootHandler W ip ts r) (serving d)) = js.
Proof.
  intros Hp.
  unfold added, flow, exec, status, sent_body, serving. go_unfold.
  unfold db_GetDNSRequest. simpl. rewrite Hp. simpl.
  destruct (DNSRequests d !! Values_Get (Form r) "request-id") as [pending | ] eqn:Hreq; simpl.
  - destruct (json_Marshal_DNSRequest W pending) as [err | js] eqn:Hjs; simpl.
    + split; [ done | ]. split; [ by eexists | ]. intros p js Hp' Hjs'.
      injection Hp' as <-. congruence.
    + split; [ done | ]. split; [ by eexists | ]. intros p js' Hp' Hjs'.
      injection Hp' as <-. rewrite Hjs in Hjs'. injection Hjs' as <-. done.
  - split; [ done | ]. split; [ by eexists | ]. intros p js Hp' _. discriminate Hp'.
Qed.

Lemma dnsapi_requests_read_only_witness :
  Path (URL poll_request) = "/dnsapi/requests"
  ∧ sv_db (exec (rootHandler calm "198.51.100.1" "2026-01-01T00:00:00Z" poll_request)
                (serving store_example)) = store_example.
Proof.
  split; [ reflexivity | ].
  destruct (dnsapi_requests_read_only calm "198.51.100.1" "2026-01-01T00:00:00Z"
              poll_request store_example eq_refl) as (Hdb & _).
  exact Hdb.
Defined.

Lemma substring_all (s : string) : String.substring 0 (String.length s) s = s.
Proof. induction s as [ | c s IH]; simpl; [ done | by rewrite IH ]. Qed.

(** X11.  A request for the admin domain whose path starts with [/api/] is
    handed to the API, and to nothing else, with [/api] cut from the front
    of its path and everything else as it arrived; the router itself writes
    no response. *)
Theorem rootHandler_api_prefix (W : World) (ip ts : string) (r : Request) (d : Database)
    (rest : string) :
  Path (URL r) = "/api/" +:+ rest →
  ¬ own_path (Path (URL r)) →
  before_colon (Host r) = db_GetAdminDomain d →
  (∃ line, added (rootHandler W ip ts r) (serving d) = [EvPrint line; EvApi (stripApi r)])
  ∧ Path (URL (stripApi r)) = "/" +:+ rest
  ∧ RawQuery (URL (stripApi r)) = RawQuery (URL r)
  ∧ Header (stripApi r) = Header r
  ∧ Body (stripApi r) = Body r
  ∧ status (exec (rootHandler W ip ts r) (serving d)) = None
  ∧ sv_db (exec (rootHandler W ip ts r) (serving d)) = d.
Proof.
  intros Hp Hown Hadmin.
  assert (Hpre : strings_HasPrefix (Path (URL r)) "/api/" = true) by (rewrite Hp; unfold strings_HasPrefix; simpl; by destruct rest).
  assert (Hcut : strings_TrimPrefix (Path (URL r)) "/api" = "/" +:+ rest).
  { rewrite Hp. unfold strings_TrimPrefix. simpl.
    by rewrite substring_all. }
  assert (H1 : Path (URL r) ≠ "/dnsapi/requests") by (intros E; apply Hown; by left).
  assert (H2 : Path (URL r) ≠ "/namedrop/auth-success")
    by (intros E; apply Hown; right; by left).
  assert (H3 : Path (URL r) ≠ "/dnsapi/failure") by (intros E; apply Hown; right; by right).
  split; [ | split; [ exact Hcut | ] ].
  - unfold added, exec, serving, rootHandler. go_unfold. simpl.
    rewrite !decide_False by done. rewrite decide_True by done. rewrite Hpre. simpl.
    by eexists.
  - split; [ done | ]. split; [ done | ]. split; [ done | ].
    unfold status, exec, serving, rootHandler. go_unfold. simpl.
    rewrite !decide_False by done. rewrite decide_True by done. rewrite Hpre. by simpl.
Qed.

Lemma rootHandler_api_prefix_witness :
  before_colon (Host request_api) = db_GetAdminDomain store_example
  ∧ Path (URL (stripApi request_api)) = "/tunnels".
Proof.
  assert (Hadmin : before_colon (Host request_api) = db_GetAdminDomain store_example)
    by (vm_compute; reflexivity).
  assert (Hown : ¬ own_path (Path (URL request_api))).
  { intros [E | [E | E]]; vm_compute in E; discriminate E. }
  split; [ exact Hadmin | ].
  destruct (rootHandler_api_prefix calm "198.51.100.1" "2026-01-01T00:00:00Z" request_api
              store_example "tunnels" eq_refl Hown Hadmin) as (_ & Hpath & _).
  exact Hpath.
Defined.

(** X12.  The admin domain is looked at before the tunnels: a request
    whose host, port cut off, is the admin domain, on a path the router
    does not serve itself, is never proxied, also when a tunnel is
    registered under that name; unless its path starts with [/api/] it is
    handed to the web UI as it arrived, and the router writes nothing. *)
Theorem rootHandler_admin_first (W : World) (ip ts : string) (r : Request) (d : Database) :
  ¬ own_path (Path (URL r)) →
  before_colon (Host r) = db_GetAdminDomain d →
  (∀ req, EvDo req ∉ added (rootHandler W ip ts r) (serving d))
  ∧ (∀ m u b, EvNewRequest m u b ∉ added (rootHandler W ip ts r) (serving d))
  ∧ status (exec (rootHandler W ip ts r) (serving d)) = None
  ∧ sv_db (exec (rootHandler W ip ts r) (serving d)) = d
  ∧ (strings_HasPrefix (Path (URL r)) "/api/" = false →
     ∃ line, added (rootHandler W ip ts r) (serving d) = [EvPrint line; EvWebUi r]).
Proof.
  intros Hown Hadmin.
  assert (H1 : Path (URL r) ≠ "/dnsapi/requests") by (intros E; apply Hown; by left).
  assert (H2 : Path (URL r) ≠ "/namedrop/auth-success")
    by (intros E; apply Hown; right; by left).
  assert (H3 : Path (URL r) ≠ "/dnsapi/failure") by (intros E; apply Hown; right; by right).
  unfold added, status, exec, serving, rootHandler. go_unfold. simpl.
  rewrite !decide_False by done. rewrite decide_True by done.
  destruct (strings_HasPrefix (Path (URL r)) "/api/"); simpl.
  - split; [ not_in_trace | ]. split; [ intros m u b Hin; split_trace Hin | ]. done.
  - split; [ not_in_trace | ]. split; [ intros m u b Hin; split_trace Hin | ].
    split; [ done | ]. split; [ done | ]. intros _. by eexists.
Qed.

Lemma rootHandler_admin_first_witness :
  before_colon (Host request_ui) = db_GetAdminDomain store_shadowed
  ∧ db_GetTunnel store_shadowed (before_colon (Host request_ui)) ≠ None
  ∧ ∀ req, EvDo req ∉ added (rootHandler calm "198.51.100.1" "2026-01-01T00:00:00Z"
                               request_ui) (serving store_shadowed).
Proof.
  assert (Hadmin : before_colon (Host request_ui) = db_GetAdminDomain store_shadowed)
    by (vm_compute; reflexivity).
  assert (Hown : ¬ own_path (Path (URL request_ui))).
  { intros [E | [E | E]]; discriminate E. }
  assert (Htun : db_GetTunnel store_shadowed (before_colon (Host request_ui)) ≠ None).
  { vm_compute. intros E. discriminate E. }
  split; [ exact Hadmin | ]. split; [ exact Htun | ].
  destruct (rootHandler_admin_first calm "198.51.100.1" "2026-01-01T00:00:00Z" request_ui
              store_shadowed Hown Hadmin) as (Hno & _).
  exact Hno.
Defined.

(** X13.  Whatever the hello and the network do, the dispatcher leaves the
    store alone, keeps the connections already queued for the TLS terminator
    in their order and adds at most the one it was given, behind them, and
    closes no connection but one it dialled itself; a connection it queued
    it has neither dialled for nor spliced. *)
Theorem handleConnection_frame (N : Network) (clientConn : Conn) (p : Server) :
  srv_db (exec (handleConnection N clientConn) p) = srv_db p
  ∧ (httpListener (exec (handleConnection N clientConn) p) = httpListener p
     ∨ (edge_added (handleConnection N clientConn) p = []
        ∧ ∃ hello reader, peekClientHello N clientConn = inr (hello, reader)
          ∧ httpListener (exec (handleConnection N clientConn) p)
            = httpListener p ++ [NewProxyConn clientConn reader]))
  ∧ (∀ c, EdClose c ∈ edge_added (handleConnection N clientConn) p →
       ∃ addr, EdDial "tcp" addr ∈ edge_added (handleConnection N clientConn) p
               ∧ net_Dial N "tcp" addr = inr c)
  ∧ (∀ addr c, EdDial "tcp" addr ∈ edge_added (handleConnection N clientConn) p →
       net_Dial N "tcp" addr = inr c →
       last (edge_added (handleConnection N clientConn) p) = Some (EdClose c)).
Proof.
  unfold edge_added, exec. edge_unfold. simpl.
  destruct (peekClientHello N clientConn) as [err | [hello reader]] eqn:Hpk; simpl.
  { rewrite drop_app_length. split; [ done | ]. split; [ by left | ].
    split; [ not_in_trace | ]. intros addr c Hin. split_trace Hin. }
  assert (Hpeek : ∃ hello' reader', @inr error _ (hello, reader) = inr (hello', reader')
                    ∧ httpListener p ++ [NewProxyConn clientConn reader]
                      = httpListener p ++ [NewProxyConn clientConn reader'])
    by (by exists hello, reader).
  destruct (db_GetTunnel (srv_db p) (ServerName hello)) as [tunnel | ]; simpl;
    [ | rewrite drop_all; split; [ done | ]; split; [ by right | ];
        split; [ intros c Hin; by apply elem_of_nil in Hin
               | intros addr c Hin; by apply elem_of_nil in Hin ] ].
  destruct (bool_decide (TlsTermination tunnel = "client")
            || bool_decide (TlsTermination tunnel = "passthrough")); simpl;
    [ | rewrite drop_all; split; [ done | ]; split; [ by right | ];
        split; [ intros c Hin; by apply elem_of_nil in Hin
               | intros addr c Hin; by apply elem_of_nil in Hin ] ].
  destruct (net_Dial N "tcp" ("localhost:" +:+ pretty (TunnelPort tunnel)))
    as [err | up] eqn:Hd; simpl.
  - rewrite <- app_assoc, drop_app_length. simpl.
    split; [ done | ]. split; [ by left | ]. split; [ not_in_trace | ].
    intros addr c Hin Hc. split_trace Hin. injection Hin as ->. congruence.
  - rewrite <- !app_assoc, drop_app_length. simpl.
    split; [ done | ]. split; [ by left | ]. split.
    + intros c Hin. split_trace Hin. injection Hin as ->.
      exists ("localhost:" +:+ pretty (TunnelPort tunnel)). split; [ in_trace | done ].
    + intros addr c Hin Hc. split_trace Hin. injection Hin as ->. congruence.
Qed.

(** ** More of start-up *)

(** X14.  Start-up asks for no certificate before the machine has passed
    its preflight: a certificate request in the trace means the public
    address was found, both ports answered the probe and the store was
    loaded.  A failed probe of the HTTP port ends the process with that
    error as the only line after the greeting, whatever the HTTPS port
    would have answered, and without reading the operator's input. *)
Theorem startup_preflight (W : World) (Mc : Machine) (flags : Flags) :
  (∀ names, BtManageSync names ∈ bt_trace (exec (Listen_startup W Mc flags) (power_on Mc)) →
     ∃ ip stored,
       getPublicIp W = inr ip
       ∧ checkPublicAddress Mc ip (httpPort flags) = None
       ∧ checkPublicAddress Mc ip (httpsPort flags) = None
       ∧ NewDatabase Mc = inr stored)
  ∧ (∀ ip err, getPublicIp W = inr ip →
       checkPublicAddress Mc ip (httpPort flags) = Some err →
       flow (Listen_startup W Mc flags) (power_on Mc) = Exited
       ∧ bt_trace (exec (Listen_startup W Mc flags) (power_on Mc))
         = [BtLog "Starting up"; BtLog err]
       ∧ bt_stdin (exec (Listen_startup W Mc flags) (power_on Mc)) = stdin_lines Mc).
Proof.
  split.
  - intros names. unfold Listen_startup.
    destruct (getPublicIp W) as [e | ip] eqn:Hip.
    { intros Hin. vm_compute in Hin. split_trace Hin. }
    destruct (checkPublicAddress Mc ip (httpPort flags)) as [e | ] eqn:Hp1.
    { intros Hin. vm_compute in Hin. split_trace Hin. }
    destruct (checkPublicAddress Mc ip (httpsPort flags)) as [e | ] eqn:Hp2.
    { intros Hin. vm_compute in Hin. split_trace Hin. }
    destruct (NewDatabase Mc) as [e | stored] eqn:Hdb.
    { intros Hin. vm_compute in Hin. split_trace Hin. }
    intros _. by exists ip, stored.
  - intros ip err Hip Hprobe. unfold Listen_startup. rewrite Hip, Hprobe. done.
Qed.

Lemma startup_preflight_witness :
  getPublicIp calm = inr "{scopes}"
  ∧ checkPublicAddress machine_unreachable "{scopes}" 80 = Some "Mismatched codes"
  ∧ flow (Listen_startup calm machine_unreachable default_flags)
         (power_on machine_unreachable) = Exited.
Proof.
  assert (Hip : getPublicIp calm = inr "{scopes}") by reflexivity.
  assert (Hprobe : checkPublicAddress machine_unreachable "{scopes}" (httpPort default_flags)
                   = Some "Mismatched codes") by reflexivity.
  split; [ exact Hip | ]. split; [ exact Hprobe | ].
  destruct (startup_preflight calm machine_unreachable default_flags) as (_ & Hfail).
  destruct (Hfail "{scopes}" "Mismatched codes" Hip Hprobe) as (Hflow & _).
  exact Hflow.
Defined.

(** X15.  Option 1 of the admin-domain dialogue: the name typed is stored
    as the admin domain only after its certificate was obtained.  When the
    certificate fails the process exits and the store is as before. *)
Theorem setAdminDomain_manual (W : World) (Mc : Machine) (ip : string) (b : Boot)
    (name : string) (more : list string) :
  bt_stdin b = "1" :: name :: more →
  BtManageSync [name] ∈ boot_added (setAdminDomain W Mc ip) b
  ∧ (ManageSync W [name] = None →
     flow (setAdminDomain W Mc ip) b = Next None
     ∧ bt_db (exec (setAdminDomain W Mc ip) b) = db_SetAdminDomain name (bt_db b)
     ∧ bt_stdin (exec (setAdminDomain W Mc ip) b) = more)
  ∧ (∀ err, ManageSync W [name] = Some err →
       flow (setAdminDomain W Mc ip) b = Exited
       ∧ bt_db (exec (setAdminDomain W Mc ip) b) = bt_db b
       ∧ last (boot_added (setAdminDomain W Mc ip) b) = Some (BtLog err)).
Proof.
  intros Hin. unfold boot_added, flow, exec. boot_unfold. simpl. rewrite Hin. simpl.
  destruct (ManageSync W [name]) as [err | ]; simpl.
  - rewrite <- !app_assoc, drop_app_length. simpl.
    split; [ in_trace | ]. split; [ done | ]. intros e He. injection He as <-. done.
  - rewrite <- !app_assoc, drop_app_length. simpl.
    split; [ in_trace | ]. split; [ done | ]. intros e He. discriminate He.
Qed.

Lemma setAdminDomain_manual_witness :
  bt_stdin (power_on (machine_typing ["1"; "admin.example"])) = ["1"; "admin.example"]
  ∧ BtManageSync ["admin.example"]
    ∈ boot_added (setAdminDomain calm (machine_typing ["1"; "admin.example"]) "198.51.100.1")
                 (power_on (machine_typing ["1"; "admin.example"])).
Proof.
  split; [ reflexivity | ].
  destruct (setAdminDomain_manual calm (machine_typing ["1"; "admin.example"]) "198.51.100.1"
              (power_on (machine_typing ["1"; "admin.example"])) "admin.example" []
              eq_refl) as (Hin & _).
  exact Hin.
Defined.

(** X16.  Option 2 of the admin-domain dialogue, when the bootstrap domain
    is delivered and its certificate obtained: the admin domain stays as it
    was, and one provisioning request for the admin domain, an A record of
    the public address with TTL 300, is stored under the id drawn, which is
    also the id in the link printed last.  The error of the draw is
    dropped: the function returns without error and stores a request also
    when the draw fails. *)
Theorem setAdminDomain_takingnames (W : World) (Mc : Machine) (ip : string) (b : Boot)
    (more : list string) (resp : Response) :
  bt_stdin b = "2" :: more →
  http_Get W "https://takingnames.io/dnsapi/bootstrap-domain" = inr resp →
  StatusCode resp = 200 →
  ManageSync W [body_data (resp_Body resp)] = None →
  ∃ requestId,
    (∀ code, genRandomCode Mc (bt_draws b) 32 = inr code → requestId = code)
    ∧ flow (setAdminDomain W Mc ip) b = Next None
    ∧ bt_db (exec (setAdminDomain W Mc ip) b)
      = db_SetDNSRequest requestId (mkDNSRequest true [mkDNSRecord "A" ip 300]) (bt_db b)
    ∧ db_GetAdminDomain (bt_db (exec (setAdminDomain W Mc ip) b)) = db_GetAdminDomain (bt_db b)
    ∧ last (boot_added (setAdminDomain W Mc ip) b)
      = Some (BtLog ("Use the link below to select an admin domain:" +:+ newline +:+ newline
                     +:+ "https://takingnames.io/dnsapi?requester="
                     +:+ body_data (resp_Body resp)
                     +:+ "&request-id=" +:+ requestId +:+ newline)).
Proof.
  intros Hin Hget Hok Hcert.
  exists (match genRandomCode Mc (bt_draws b) 32 with inl _ => "" | inr c => c end).
  split; [ intros code Hc; by rewrite Hc | ].
  unfold boot_added, flow, exec. boot_unfold. simpl. rewrite Hin. simpl.
  rewrite Hget. simpl. rewrite bool_decide_eq_false_2 by (intros Hne; by apply Hne).
  simpl. rewrite Hcert. simpl.
  rewrite <- !app_assoc, drop_app_length. simpl.
  done.
Qed.

Lemma setAdminDomain_takingnames_witness :
  bt_stdin (power_on (machine_typing ["2"])) = ["2"]
  ∧ flow (setAdminDomain bootstrap_world (machine_typing ["2"]) "198.51.100.1")
         (power_on (machine_typing ["2"])) = Next None.
Proof.
  split; [ reflexivity | ].
  assert (Hget : http_Get bootstrap_world "https://takingnames.io/dnsapi/bootstrap-domain"
                 = inr (mkResponse 200 ∅ (mkBody "boot.example" None))) by reflexivity.
  assert (Hcert : ManageSync bootstrap_world
                    [body_data (resp_Body (mkResponse 200 ∅ (mkBody "boot.example" None)))]
                  = None) by reflexivity.
  destruct (setAdminDomain_takingnames bootstrap_world (machine_typing ["2"]) "198.51.100.1"
              (power_on (machine_typing ["2"])) [] _ eq_refl Hget eq_refl Hcert)
    as (requestId & _ & Hflow & _).
  exact Hflow.
Defined.

(** X17.  Any answer to the first question other than 1 or 2, the empty
    line at the end of input included, ends the process with
    [Invalid option]: no certificate is asked for and the store is as
    before. *)
Theorem setAdminDomain_invalid_option (W : World) (Mc : Machine) (ip : string) (b : Boot) :
  hd "" (bt_stdin b) ≠ "1" →
  hd "" (bt_stdin b) ≠ "2" →
  flow (setAdminDomain W Mc ip) b = Exited
  ∧ bt_db (exec (setAdminDomain W Mc ip) b) = bt_db b
  ∧ (∀ names, BtManageSync names ∉ boot_added (setAdminDomain W Mc ip) b)
  ∧ last (boot_added (setAdminDomain W Mc ip) b) = Some (BtLog "Invalid option").
Proof.
  intros H1 H2. unfold boot_added, flow, exec. boot_unfold. simpl.
  destruct (bt_stdin b) as [ | action more]; simpl in *.
  - rewrite <- !app_assoc, drop_app_length. simpl.
    split; [ done | ]. split; [ done | ]. split; [ not_in_trace | done ].
  - rewrite !decide_False by done. simpl.
    rewrite <- !app_assoc, drop_app_length. simpl.
    split; [ done | ]. split; [ done | ]. split; [ not_in_trace | done ].
Qed.

Lemma setAdminDomain_invalid_option_witness :
  hd "" (bt_stdin (power_on (machine_typing []))) ≠ "1"
  ∧ flow (setAdminDomain calm (machine_typing []) "198.51.100.1")
         (power_on (machine_typing [])) = Exited.
Proof.
  assert (H1 : hd "" (bt_stdin (power_on (machine_typing []))) ≠ "1") by (intros E; discriminate E).
  assert (H2 : hd "" (bt_stdin (power_on (machine_typing []))) ≠ "2") by (intros E; discriminate E).
  split; [ exact H1 | ].
  destruct (setAdminDomain_invalid_option calm (machine_typing []) "198.51.100.1"
              (power_on (machine_typing [])) H1 H2) as (Hflow & _).
  exact Hflow.
Defined.

Lemma addAdminUser_keeps (Mc : Machine) (b : Boot) :
  db_GetAdminDomain (bt_db (exec (addAdminUser Mc) b)) = db_GetAdminDomain (bt_db b)
  ∧ bt_stdin (exec (addAdminUser Mc) b) = bt_stdin b
  ∧ ∃ more, bt_trace (exec (addAdminUser Mc) b) = bt_trace b ++ more
            ∧ ∀ names, BtManageSync names ∉ more.
Proof.
  unfold exec. boot_unfold. unfold db_GetUsers, db_AddToken. simpl.
  case_bool_decide; simpl.
  - rewrite lookup_insert_eq.
    destruct (genRandomCode Mc (bt_draws b) 32) as [e | token]; simpl.
    + split; [ done | ]. split; [ done | ]. eexists. split; [ done | ]. not_in_trace.
    + split; [ done | ]. split; [ done | ]. exists []. rewrite app_nil_r.
      split; [ done | ]. not_in_trace.
  - split; [ done | ]. split; [ done | ]. exists []. rewrite app_nil_r.
    split; [ done | ]. not_in_trace.
Qed.

Lemma printLoginBlock_keeps (flags : Flags) (b : Boot) :
  bt_db (exec (printLoginBlock flags) b) = bt_db b
  ∧ bt_stdin (exec (printLoginBlock flags) b) = bt_stdin b
  ∧ ∃ more, bt_trace (exec (printLoginBlock flags) b) = bt_trace b ++ more
            ∧ ∀ names, BtManageSync names ∉ more.
Proof.
  unfold exec. boot_unfold.
  destruct (printLogin flags); simpl.
  - destruct (filter _ _) as [ | [token td] rest]; simpl.
    + split; [ done | ]. split; [ done | ]. exists []. rewrite app_nil_r.
      split; [ done | ]. not_in_trace.
    + split; [ done | ]. split; [ done | ]. eexists. split; [ done | ]. not_in_trace.
  - split; [ done | ]. split; [ done | ]. exists []. rewrite app_nil_r.
    split; [ done | ]. not_in_trace.
Qed.

(** X18.  The [admin-domain] flag overrides the stored admin domain: a
    start-up that succeeds with the flag set ends with the flag's value as
    admin domain, has obtained the certificate for it and for no other
    name, and has not read the operator's input.  The flag is written to
    the store before the certificate is asked for: when the certificate
    fails the process exits with the new admin domain already stored. *)
Theorem startup_admin_domain_flag (W : World) (Mc : Machine) (flags : Flags) :
  newAdminDomain flags ≠ "" →
  (flow (Listen_startup W Mc flags) (power_on Mc) = Next () →
   db_GetAdminDomain (bt_db (exec (Listen_startup W Mc flags) (power_on Mc)))
     = newAdminDomain flags
   ∧ bt_stdin (exec (Listen_startup W Mc flags) (power_on Mc)) = stdin_lines Mc
   ∧ ManageSync W [newAdminDomain flags] = None
   ∧ ∀ names, BtManageSync names
              ∈ bt_trace (exec (Listen_startup W Mc flags) (power_on Mc)) →
              names = [newAdminDomain flags])
  ∧ (∀ ip stored err,
       getPublicIp W = inr ip →
       checkPublicAddress Mc ip (httpPort flags) = None →
       checkPublicAddress Mc ip (httpsPort flags) = None →
       NewDatabase Mc = inr stored →
       ManageSync W [newAdminDomain flags] = Some err →
       flow (Listen_startup W Mc flags) (power_on Mc) = Exited
       ∧ bt_db (exec (Listen_startup W Mc flags) (power_on Mc))
         = db_SetAdminDomain (newAdminDomain flags) stored).
Proof.
  intros Hflag. split.
  - unfold Listen_startup.
    destruct (getPublicIp W) as [e | ip]; [ done | ].
    destruct (checkPublicAddress Mc ip (httpPort flags)) as [e | ]; [ done | ].
    destruct (checkPublicAddress Mc ip (httpsPort flags)) as [e | ]; [ done | ].
    destruct (NewDatabase Mc) as [e | stored]; [ done | ].
    intros Hflow.
    apply bind_flow_next in Hflow as ([] & _ & Hflow & ->).
    apply bind_flow_next in Hflow as ([] & _ & Hflow & ->).
    apply bind_flow_next in Hflow as ([] & _ & Hflow & ->).
    apply bind_flow_next in Hflow as (b1 & Hget & Hflow & ->).
    apply bind_flow_next in Hflow as ([] & Hblock & Hflow & ->).
    unfold get_boot in Hget. injection Hget as Hb1.
    apply bind_flow_next in Hflow as ([] & _ & _ & ->).
    match goal with |- context [exec (addAdminUser Mc) ?s] => set (b2 := s) in * end.
    destruct (printLoginBlock_keeps flags (exec (addAdminUser Mc) b2))
      as (Hd3 & Hs3 & more3 & Ht3 & Hn3).
    destruct (addAdminUser_keeps Mc b2) as (Hd2 & Hs2 & more2 & Ht2 & Hn2).
    rewrite Hd3, Hs3, Ht3, Hd2, Hs2, Ht2.
    assert (Hb2 : db_GetAdminDomain (bt_db b2) = newAdminDomain flags
                  ∧ bt_stdin b2 = stdin_lines Mc
                  ∧ ManageSync W [newAdminDomain flags] = None
                  ∧ ∀ names, BtManageSync names ∈ bt_trace b2 →
                             names = [newAdminDomain flags]).
    { subst b2 b1. revert Hblock. unfold flow, exec, power_on. boot_unfold. simpl.
      rewrite bool_decide_eq_true_2 by done. simpl.
      rewrite decide_False by done. simpl.
      destruct (ManageSync W [newAdminDomain flags]) as [err | ]; simpl; [ done | ].
      intros _. split; [ done | ]. split; [ done | ]. split; [ done | ].
      intros names Hin. split_trace Hin. by injection Hin as ->. }
    destruct Hb2 as (Hd1 & Hs1 & Hcert & Hn1).
    split; [ done | ]. split; [ done | ]. split; [ done | ].
    intros names Hin.
    apply elem_of_app in Hin as [Hin | Hin]; [ | by apply Hn3 in Hin ].
    apply elem_of_app in Hin as [Hin | Hin]; [ | by apply Hn2 in Hin ].
    by apply Hn1.
  - intros ip stored err Hip Hp1 Hp2 Hdb Hcert.
    unfold Listen_startup. rewrite Hip, Hp1, Hp2, Hdb.
    unfold flow, exec, power_on. boot_unfold. simpl.
    rewrite bool_decide_eq_true_2 by done. simpl.
    rewrite decide_False by done. simpl. rewrite Hcert. simpl. done.
Qed.

Lemma startup_admin_domain_flag_witness :
  newAdminDomain domain_flags ≠ ""
  ∧ db_GetAdminDomain (bt_db (exec (Listen_startup calm (machine_of store_new) domain_flags)
                                   (power_on (machine_of store_new)))) = "new.example".
Proof.
  assert (Hflag : newAdminDomain domain_flags ≠ "") by (intros E; discriminate E).
  assert (Hflow : flow (Listen_startup calm (machine_of store_new) domain_flags)
                       (power_on (machine_of store_new)) = Next ())
    by (vm_compute; reflexivity).
  split; [ exact Hflag | ].
  destruct (startup_admin_domain_flag calm (machine_of store_new) domain_flags Hflag)
    as (Hok & _).
  destruct (Hok Hflow) as (Hdom & _).
  exact Hdom.
Defined.

Lemma no_banner_app (t more : list BootEvent) :
  no_banner t → no_banner more → no_banner (t ++ more).
Proof.
  intros Ht Hm token dom Hin. apply elem_of_app in Hin as [Hin | Hin].
  - by apply Ht in Hin.
  - by apply Hm in Hin.
Qed.

Lemma setAdminDomain_no_banner (W : World) (Mc : Machine) (ip : string) (b : Boot) :
  no_banner (bt_trace b) → no_banner (bt_trace (exec (setAdminDomain W Mc ip) b)).
Proof.
  intros Hb. unfold exec. boot_unfold. simpl.
  assert (Hnew : ∀ more, (∀ token dom, BtLoginInfo token dom ∉ more) →
                         no_banner (bt_trace b ++ more)).
  { intros more Hm. by apply no_banner_app. }
  destruct (bt_stdin b) as [ | action more]; simpl.
  { repeat case_decide; simpl; try done;
      rewrite <- ?app_assoc; apply Hnew; simpl; no_request. }
  destruct (decide (action = "1")) as [H1 | H1]; simpl.
  { destruct more as [ | name more']; simpl; destruct (ManageSync W _); simpl;
      rewrite <- ?app_assoc; apply Hnew; simpl; no_request. }
  destruct (decide (action = "2")) as [H2 | H2]; simpl;
    [ | rewrite <- ?app_assoc; apply Hnew; simpl; no_request ].
  destruct (http_Get W _) as [err | resp]; simpl;
    [ rewrite <- ?app_assoc; apply Hnew; simpl; no_request | ].
  case_bool_decide; simpl; [ rewrite <- ?app_assoc; apply Hnew; simpl; no_request | ].
  destruct (ManageSync W _); simpl; rewrite <- ?app_assoc; apply Hnew; simpl; no_request.
Qed.

Lemma addAdminUser_no_banner (Mc : Machine) (b : Boot) :
  no_banner (bt_trace b) → no_banner (bt_trace (exec (addAdminUser Mc) b)).
Proof.
  intros Hb. unfold exec. boot_unfold. unfold db_GetUsers, db_AddToken. simpl.
  case_bool_decide; simpl; [ | done ].
  rewrite lookup_insert_eq.
  destruct (genRandomCode Mc (bt_draws b) 32) as [e | token]; simpl; [ | done ].
  apply no_banner_app; [ done | no_request ].
Qed.

(** The login block on its own: at most one banner, and only for a token
    of the store owned by [admin]. *)
Lemma printLoginBlock_banner (flags : Flags) (b : Boot) :
  (∃ more, bt_trace (exec (printLoginBlock flags) b) = bt_trace b ++ more
     ∧ (∀ token dom, BtLoginInfo token dom ∈ more →
          more = [BtLoginInfo token dom]
          ∧ printLogin flags = true
          ∧ dom = db_GetAdminDomain (bt_db b)
          ∧ ∃ td, db_GetTokens (bt_db b) !! token = Some td ∧ Owner td = "admin")
     ∧ (printLogin flags = true →
        ∀ token td, db_GetTokens (bt_db b) !! token = Some td → Owner td = "admin" →
        ∃ token', more = [BtLoginInfo token' (db_GetAdminDomain (bt_db b))])).
Proof.
  unfold exec. boot_unfold.
  destruct (printLogin flags); simpl.
  - destruct (filter _ _) as [ | [token td] rest] eqn:Hf; simpl.
    + exists []. rewrite app_nil_r. split; [ done | ]. split.
      * intros token dom Hin. by apply elem_of_nil in Hin.
      * intros _ token td Hlook Hown. exfalso.
        assert (Hin : (token, td) ∈ filter (λ kv : string * TokenData, Owner kv.2 = "admin")
                                      (map_to_list (db_GetTokens (bt_db b)))).
        { apply list_elem_of_filter. split; [ done | by apply elem_of_map_to_list ]. }
        rewrite Hf in Hin. by apply elem_of_nil in Hin.
    + eexists. split; [ done | ]. split.
      * intros token' dom Hin. split_trace Hin. injection Hin as -> ->.
        split; [ done | ]. split; [ done | ]. split; [ done | ].
        assert (Hin : (token, td) ∈ filter (λ kv : string * TokenData, Owner kv.2 = "admin")
                                      (map_to_list (db_GetTokens (bt_db b))))
          by (rewrite Hf; apply list_elem_of_here).
        apply list_elem_of_filter in Hin as [Hown Hin].
        apply elem_of_map_to_list in Hin. by exists td.
      * intros _ token' td' _ _. by exists token.
  - exists []. rewrite app_nil_r. split; [ done | ]. split.
    + intros token dom Hin. by apply elem_of_nil in Hin.
    + intros Hoff. discriminate Hoff.
Qed.

(** X19.  The login banner of a start-up that succeeds: a banner is
    printed only with [print-login], at most once, and then for a token of
    the store that is owned by [admin], with the admin domain of the store;
    with [print-login] and such a token in the store, a banner is printed.
    Which of several admin tokens is shown is left open, as the order in
    which the code ranges over the tokens is. *)
Theorem startup_login_banner (W : World) (Mc : Machine) (flags : Flags) :
  flow (Listen_startup W Mc flags) (power_on Mc) = Next () →
  (∀ token dom,
     BtLoginInfo token dom ∈ bt_trace (exec (Listen_startup W Mc flags) (power_on Mc)) →
     printLogin flags = true
     ∧ dom = db_GetAdminDomain (bt_db (exec (Listen_startup W Mc flags) (power_on Mc)))
     ∧ (∃ td, db_GetTokens (bt_db (exec (Listen_startup W Mc flags) (power_on Mc))) !! token
              = Some td ∧ Owner td = "admin")
     ∧ last (bt_trace (exec (Listen_startup W Mc flags) (power_on Mc)))
       = Some (BtLoginInfo token dom))
  ∧ (printLogin flags = true →
     ∀ token td,
       db_GetTokens (bt_db (exec (Listen_startup W Mc flags) (power_on Mc))) !! token = Some td →
       Owner td = "admin" →
       ∃ token', BtLoginInfo token'
                   (db_GetAdminDomain (bt_db (exec (Listen_startup W Mc flags) (power_on Mc))))
                 ∈ bt_trace (exec (Listen_startup W Mc flags) (power_on Mc))).
Proof.
  unfold Listen_startup.
  destruct (getPublicIp W) as [e | ip]; [ done | ].
  destruct (checkPublicAddress Mc ip (httpPort flags)) as [e | ]; [ done | ].
  destruct (checkPublicAddress Mc ip (httpsPort flags)) as [e | ]; [ done | ].
  destruct (NewDatabase Mc) as [e | stored]; [ done | ].
  intros Hflow.
  apply bind_flow_next in Hflow as ([] & _ & Hflow & ->).
  apply bind_flow_next in Hflow as ([] & _ & Hflow & ->).
  apply bind_flow_next in Hflow as ([] & _ & Hflow & ->).
  apply bind_flow_next in Hflow as (b1 & Hget & Hflow & ->).
  apply bind_flow_next in Hflow as ([] & _ & Hflow & ->).
  unfold get_boot in Hget. injection Hget as Hb1.
  apply bind_flow_next in Hflow as ([] & _ & _ & ->).
  match goal with |- context [exec (addAdminUser Mc) ?s] => set (b2 := s) in * end.
  assert (Hquiet : no_banner (bt_trace (exec (addAdminUser Mc) b2))).
  { apply addAdminUser_no_banner. subst b2.
    assert (Hb1' : no_banner (bt_trace b1)).
    { subst b1. unfold exec, power_on. boot_unfold. simpl.
      destruct (bool_decide (newAdminDomain flags ≠ "")); simpl; no_request. }
    match goal with |- context [exec get_boot ?s] => change (exec get_boot s) with s end.
    rewrite Hb1.
    destruct (decide (db_GetAdminDomain (bt_db b1) = "")) as [Hempty | Hset].
    - pose proof (setAdminDomain_no_banner W Mc ip b1 Hb1') as Hkeep.
      unfold exec, mbind, Go_bind in *.
      destruct (setAdminDomain W Mc ip b1) as [[[err | ] | | msg | ] b']; simpl in *;
        try done.
      apply no_banner_app; [ done | no_request ].
    - unfold exec. boot_unfold. simpl.
      destruct (ManageSync W _); simpl; rewrite <- ?app_assoc;
        (apply no_banner_app; [ done | no_request ]). }
  destruct (printLoginBlock_banner flags (exec (addAdminUser Mc) b2))
    as (more & Ht & Honly & Hsome).
  rewrite (printLoginBlock_db flags (exec (addAdminUser Mc) b2)), Ht.
  split.
  - intros token dom Hin. apply elem_of_app in Hin as [Hin | Hin]; [ by apply Hquiet in Hin | ].
    destruct (Honly token dom Hin) as (-> & Hon & Hdom & Htok).
    split; [ done | ]. split; [ done | ]. split; [ done | ].
    by rewrite last_snoc.
  - intros Hon token td Hlook Hown.
    destruct (Hsome Hon token td Hlook Hown) as (token' & ->).
    exists token'. apply elem_of_app. right. apply list_elem_of_here.
Qed.

Lemma startup_login_banner_witness :
  flow (Listen_startup calm (machine_of store_new) login_flags)
       (power_on (machine_of store_new)) = Next ()
  ∧ (printLogin login_flags = true →
     ∀ token td,
       db_GetTokens (bt_db (exec (Listen_startup calm (machine_of store_new) login_flags)
                                 (power_on (machine_of store_new)))) !! token = Some td →
       Owner td = "admin" →
       ∃ token', BtLoginInfo token'
                   (db_GetAdminDomain
                      (bt_db (exec (Listen_startup calm (machine_of store_new) login_flags)
                                   (power_on (machine_of store_new)))))
                 ∈ bt_trace (exec (Listen_startup calm (machine_of store_new) login_flags)
                                  (power_on (machine_of store_new)))).
Proof.
  assert (Hflow : flow (Listen_startup calm (machine_of store_new) login_flags)
                       (power_on (machine_of store_new)) = Next ())
    by (vm_compute; reflexivity).
  split; [ exact Hflow | ].
  destruct (startup_login_banner calm (machine_of store_new) login_flags Hflow) as (_ & Hsome).
  exact Hsome.
Defined.

(** ** The reachability probe *)

(** X20.  The probe passes exactly when the listener could be opened, a
    code was drawn, the public address could be dialled and what was read
    from it, without error, is the code drawn.  A failed read is reported
    with the address and the guess that it timed out, whatever the error
    was; an answer that is not the code as [Mismatched codes]. *)
Theorem probe_passes_iff (N : Probe.Answers) (host : string) (port : Z)
    (t : list Probe.Event) :
  (flow (Probe.checkPublicAddress N host port) t = Next None
   ↔ Probe.pb_Listen N "tcp" (":" +:+ pretty port) = None
     ∧ ∃ code conn,
         Probe.pb_code N 32 = inr code
         ∧ Probe.pb_Dial N "tcp" (host +:+ ":" +:+ pretty port) Second = inr conn
         ∧ Probe.pb_read N conn = (code, None))
  ∧ (∀ code conn data,
       Probe.pb_Listen N "tcp" (":" +:+ pretty port) = None →
       Probe.pb_code N 32 = inr code →
       Probe.pb_Dial N "tcp" (host +:+ ":" +:+ pretty port) Second = inr conn →
       (∀ err, Probe.pb_read N conn = (data, Some err) →
          flow (Probe.checkPublicAddress N host port) t
          = Next (Some ("Error connecting to public address "
                        +:+ (host +:+ ":" +:+ pretty port) +:+ ". Probably timed out")))
       ∧ (Probe.pb_read N conn = (data, None) → data ≠ code →
          flow (Probe.checkPublicAddress N host port) t = Next (Some "Mismatched codes"))).
Proof.
  unfold flow, Probe.checkPublicAddress, Probe.deferring, Probe.say, mbind, mret, Go_bind, Go_ret.
  simpl. split.
  - destruct (Probe.pb_Listen N "tcp" _) as [err | ]; simpl.
    { split; [ done | ]. by intros [? _]. }
    destruct (Probe.pb_code N 32) as [err | code]; simpl.
    { split; [ done | ]. by intros (_ & ? & ? & ? & _). }
    destruct (Probe.pb_Dial N "tcp" _ Second) as [err | conn]; simpl.
    { split; [ done | ]. by intros (_ & ? & ? & _ & ? & _). }
    destruct (Probe.pb_read N conn) as [data [err | ]] eqn:Hread; simpl.
    { split; [ done | ]. intros (_ & code' & conn' & Hc & Hd & Hr).
      injection Hd as <-. rewrite Hread in Hr. done. }
    case_decide as Hne; simpl.
    + split; [ done | ]. intros (_ & code' & conn' & Hc & Hd & Hr).
      injection Hd as <-. injection Hc as <-. rewrite Hread in Hr. by injection Hr.
    + split; [ | done ]. intros _. split; [ done | ]. exists code, conn.
      split; [ done | ]. split; [ done | ].
      destruct (decide (data = code)) as [-> | Hd]; [ done | by destruct Hne ].
  - intros code conn data -> -> ->. simpl. split.
    + intros err ->. by simpl.
    + intros -> Hne. simpl. by rewrite decide_True.
Qed.

Lemma probe_passes_iff_witness :
  Probe.pb_read probe_reachable conn2 = ("cmVhY2hhYmxl", None)
  ∧ flow (Probe.checkPublicAddress probe_reachable "198.51.100.1" 443) [] = Next None
  ∧ flow (Probe.checkPublicAddress probe_elsewhere "198.51.100.1" 443) []
    = Next (Some "Mismatched codes").
Proof.
  assert (Hread : Probe.pb_read probe_reachable conn2 = ("cmVhY2hhYmxl", None))
    by reflexivity.
  split; [ exact Hread | ].
  destruct (probe_passes_iff probe_reachable "198.51.100.1" 443 []) as ([_ Hpass] & _).
  destruct (probe_passes_iff probe_elsewhere "198.51.100.1" 443 []) as (_ & Hfail).
  split.
  - apply Hpass. split; [ reflexivity | ].
    exists "cmVhY2hhYmxl", conn2. split; [ reflexivity | ]. split; [ reflexivity | exact Hread ].
  - destruct (Hfail "cmVhY2hhYmxl" conn2 "SSH-2.0-OpenSSH" eq_refl eq_refl eq_refl)
      as (_ & Hmis).
    apply Hmis; [ reflexivity | intros E; discriminate E ].
Defined.

(** X21.  The probe cleans up on every way out: when the listener was
    opened it is closed, as the last thing; when the dial succeeded, the
    connection is closed just before that.  When the listener could not be
    opened nothing is dialled and nothing closed.  The probe always comes
    back with its verdict; to end the process is left to the caller. *)
Theorem probe_releases (N : Probe.Answers) (host : string) (port : Z) (t : list Probe.Event) :
  ∃ evs verdict,
    exec (Probe.checkPublicAddress N host port) t = t ++ evs
    ∧ flow (Probe.checkPublicAddress N host port) t = Next verdict
    ∧ (∀ err, Probe.pb_Listen N "tcp" (":" +:+ pretty port) = Some err →
         verdict = Some err ∧ evs = [Probe.PbListen "tcp" (":" +:+ pretty port)])
    ∧ (Probe.pb_Listen N "tcp" (":" +:+ pretty port) = None →
       last evs = Some (Probe.PbCloseListener (":" +:+ pretty port)))
    ∧ (∀ network addr timeout conn,
         Probe.PbDialTimeout network addr timeout ∈ evs →
         Probe.pb_Dial N network addr timeout = inr conn →
         ∃ before, evs = before ++ [Probe.PbCloseConn conn;
                                    Probe.PbCloseListener (":" +:+ pretty port)]).
Proof.
  unfold flow, exec, Probe.checkPublicAddress, Probe.deferring, Probe.say,
    mbind, mret, Go_bind, Go_ret.
  simpl.
  destruct (Probe.pb_Listen N "tcp" _) as [err | ]; simpl.
  { do 2 eexists. split; [ done | ]. split; [ done | ]. split.
    - intros e He. by injection He as <-.
    - split; [ done | ]. intros network addr timeout conn Hin. split_trace Hin. }
  destruct (Probe.pb_code N 32) as [err | code]; simpl.
  { do 2 eexists. rewrite <- !app_assoc. split; [ done | ]. split; [ done | ].
    split; [ done | ]. split; [ done | ].
    intros network addr timeout conn Hin. simpl in Hin. split_trace Hin. }
  destruct (Probe.pb_Dial N "tcp" _ Second) as [err | conn] eqn:Hdial; simpl.
  { do 2 eexists. rewrite <- !app_assoc. split; [ done | ]. split; [ done | ].
    split; [ done | ]. split; [ done | ].
    intros network addr timeout conn Hin. simpl in Hin. split_trace Hin.
    injection Hin as -> -> ->. congruence. }
  destruct (Probe.pb_read N conn) as [data [err | ]]; simpl;
    [ | case_decide; simpl ].
  all: do 2 eexists; rewrite <- !app_assoc; split; [ done | ]; split; [ done | ];
    split; [ done | ]; split; [ done | ];
    intros network addr timeout conn' Hin; simpl in Hin; split_trace Hin;
    injection Hin as -> -> ->; intros Hd; rewrite Hdial in Hd; injection Hd as <-;
    by eexists [_; _; _; _; _].
Qed.

(** ** The reverse proxy of the earlier revision *)

(** X22.  The earlier [proxyRequest] on a writer nothing was written to:
    a host the tunnel manager has no port for gets 500 and
    [No tunnel attached to] with the [Host] as it came, port suffix
    included, and nothing is sent; a URL that does not parse gets 500 and a
    failed upstream request 502, both with the error text as body.  Each
    error is logged after the line [proxy conn]. *)
Theorem rev0_error_status (W : World) (GetPort : string → error + Z) (r : Request)
    (s : Serving) :
  sv_w s = newResponseWriter →
  (∀ err, GetPort (Host r) = inl err →
     flow (Rev0.proxyRequest W GetPort r) s = Returned
     ∧ status (exec (Rev0.proxyRequest W GetPort r) s) = Some 500
     ∧ sent_body (exec (Rev0.proxyRequest W GetPort r) s)
       = "No tunnel attached to " +:+ Host r
     ∧ added (Rev0.proxyRequest W GetPort r) s = [EvPrint "proxy conn"; EvPrint err])
  ∧ (∀ port err, GetPort (Host r) = inr port →
       url_Parse W (upstream_url r port) = inl err →
       flow (Rev0.proxyRequest W GetPort r) s = Returned
       ∧ status (exec (Rev0.proxyRequest W GetPort r) s) = Some 500
       ∧ sent_body (exec (Rev0.proxyRequest W GetPort r) s) = err
       ∧ (∀ req, EvDo req ∉ added (Rev0.proxyRequest W GetPort r) s)
       ∧ last (added (Rev0.proxyRequest W GetPort r) s) = Some (EvPrint err))
  ∧ (∀ port u err, GetPort (Host r) = inr port →
       url_Parse W (upstream_url r port) = inr u →
       client_Do W (mkRequest (if decide (Method r = "") then "GET" else Method r) u
                              (UrlHost u) "" ""
                              (<["X-Forwarded-Host" := [Host r]]> (Header r))
                              (Body r) ∅) = inl err →
       flow (Rev0.proxyRequest W GetPort r) s = Returned
       ∧ status (exec (Rev0.proxyRequest W GetPort r) s) = Some 502
       ∧ sent_body (exec (Rev0.proxyRequest W GetPort r) s) = err
       ∧ last (added (Rev0.proxyRequest W GetPort r) s) = Some (EvPrint err)).
Proof.
  intros Hw.
  unfold added, flow, exec, status, sent_body, Rev0.proxyRequest, upstream_url, Header_Clone.
  go_unfold. simpl. rewrite Hw.
  split; [ | split ].
  - intros err ->. simpl. rewrite <- !app_assoc, drop_app_length. done.
  - intros port err -> ->. simpl. rewrite <- !app_assoc, drop_app_length. simpl.
    split; [ done | ]. split; [ done | ]. split; [ done | ]. split; [ not_in_trace | done ].
  - intros port u err -> ->. simpl. intros ->. simpl.
    rewrite <- !app_assoc, drop_app_length. done.
Qed.

Lemma rev0_error_status_witness :
  sv_w (serving store_example) = newResponseWriter
  ∧ status (exec (Rev0.proxyRequest calm (λ _, inl "no tunnel") request_b_port)
                 (serving store_example)) = Some 500
  ∧ sent_body (exec (Rev0.proxyRequest calm (λ _, inl "no tunnel") request_b_port)
                    (serving store_example)) = "No tunnel attached to b.example:8443".
Proof.
  split; [ reflexivity | ].
  destruct (rev0_error_status calm (λ _, inl "no tunnel") request_b_port
              (serving store_example) eq_refl) as (Hnone & _).
  destruct (Hnone "no tunnel" eq_refl) as (_ & Hs & Hb & _).
  split; [ exact Hs | ]. rewrite Hb. vm_compute. reflexivity.
Defined.

(** X23.  Every request the earlier [proxyRequest] sends is built for
    [localhost] and the port the tunnel manager gives for the [Host] as it
    came; it carries the client's body reader itself, which was not read
    before, the client's headers with [X-Forwarded-Host] set to the
    original [Host], and as [Host] on the wire the host of the upstream
    URL: this revision does not set the [Host] of the upstream request. *)
Theorem rev0_upstream_request (W : World) (GetPort : string → error + Z) (r : Request)
    (s : Serving) (req : Request) :
  EvDo req ∈ added (Rev0.proxyRequest W GetPort r) s →
  ∃ port later,
    GetPort (Host r) = inr port
    ∧ url_Parse W (upstream_url r port) = inr (URL req)
    ∧ added (Rev0.proxyRequest W GetPort r) s
      = EvPrint "proxy conn"
        :: EvNewRequest (Method r) (upstream_url r port) (Body r)
        :: EvDo req :: later
    ∧ Body req = Body r
    ∧ wire_Host req = UrlHost (URL req)
    ∧ Header req !! "X-Forwarded-Host" = Some [Host r]
    ∧ ∀ k, k ≠ "X-Forwarded-Host" → Header req !! k = Header r !! k.
Proof.
  unfold added, exec, Rev0.proxyRequest, upstream_url, Header_Clone, wire_Host.
  go_unfold. simpl.
  destruct (GetPort (Host r)) as [err | port]; simpl.
  { rewrite <- !app_assoc, drop_app_length. intros Hin. split_trace Hin. }
  destruct (url_Parse W _) as [err | u] eqn:Hu; simpl.
  { rewrite <- !app_assoc, drop_app_length. intros Hin. split_trace Hin. }
  destruct (client_Do W _) as [err | res]; simpl.
  all: rewrite <- !app_assoc, drop_app_length; intros Hin; simpl in Hin; split_trace Hin.
  all: injection Hin as ->; exists port; eexists; simpl.
  all: split; [ done | ]; split; [ done | ]; split; [ done | ]; split; [ done | ].
  all: split; [ by case_decide | ]; split; [ apply lookup_insert_eq | ].
  all: intros k Hk; by rewrite lookup_insert_ne.
Qed.

Lemma rev0_upstream_request_witness :
  EvDo (mkRequest "GET" (mkURL "http" "localhost:9002" "/x" "") "localhost:9002" "" ""
                  {[ "X-Forwarded-Host" := ["b.example:8443"] ]} (mkBody "" None) ∅)
    ∈ added (Rev0.proxyRequest calm (λ _, inr 9002) request_b_port) (serving store_example)
  ∧ wire_Host (mkRequest "GET" (mkURL "http" "localhost:9002" "/x" "") "localhost:9002" "" ""
                         {[ "X-Forwarded-Host" := ["b.example:8443"] ]} (mkBody "" None) ∅)
    = "localhost:9002".
Proof.
  assert (Hin : EvDo (mkRequest "GET" (mkURL "http" "localhost:9002" "/x" "")
                                "localhost:9002" "" ""
                                {[ "X-Forwarded-Host" := ["b.example:8443"] ]}
                                (mkBody "" None) ∅)
                  ∈ added (Rev0.proxyRequest calm (λ _, inr 9002) request_b_port)
                          (serving store_example)).
  { vm_compute. in_trace. }
  split; [ exact Hin | ].
  destruct (rev0_upstream_request calm (λ _, inr 9002) request_b_port
              (serving store_example) _ Hin) as (port & later & _ & _ & _ & _ & Hhost & _).
  rewrite Hhost. reflexivity.
Defined.

(** ** The administrative API of the earlier revision *)

(** X24.  [handleTunnels] by method.  The list of tunnels is given to
    whoever asks with GET: neither the token nor the authorisation is
    looked at, the answer is 200 with the encoded tunnels, or 500 when they
    do not encode.  A method other than GET, POST and DELETE gets 405 and
    reaches no collaborator. *)
Theorem api_tunnels_methods (B : Api.Backing) (r : Request) :
  (Method r = "GET" →
   Api.ap_trace (exec (Api.handleTunnels B r) Api.handling) = [Api.ApGetTunnels]
   ∧ (∀ body, Api.json_Marshal_tunnels B (Api.GetTunnels B) = inr body →
        Api.final_status (exec (Api.handleTunnels B r) Api.handling) = 200
        ∧ rw_body (Api.ap_w (exec (Api.handleTunnels B r) Api.handling)) = body)
   ∧ (∀ err, Api.json_Marshal_tunnels B (Api.GetTunnels B) = inl err →
        Api.final_status (exec (Api.handleTunnels B r) Api.handling) = 500
        ∧ rw_body (Api.ap_w (exec (Api.handleTunnels B r) Api.handling))
          = "Error encoding tunnels"))
  ∧ (Method r ≠ "GET" → Method r ≠ "POST" → Method r ≠ "DELETE" →
     Api.final_status (exec (Api.handleTunnels B r) Api.handling) = 405
     ∧ rw_body (Api.ap_w (exec (Api.handleTunnels B r) Api.handling))
       = "Invalid method for /tunnels"
     ∧ Api.ap_trace (exec (Api.handleTunnels B r) Api.handling) = []).
Proof.
  unfold exec, Api.handleTunnels, Api.did, Api.WriteHeader, Api.Write, Api.final_status,
    Api.handling, return_, call, mbind, mret, Go_bind, Go_ret.
  split.
  - intros Hget. rewrite decide_True by done. simpl.
    destruct (Api.json_Marshal_tunnels B (Api.GetTunnels B)) as [err | body]; simpl.
    + split; [ done | ]. split; [ intros body Hb; discriminate Hb | done ].
    + split; [ done | ]. split; [ | intros err He; discriminate He ].
      intros body' Hb. by injection Hb as <-.
  - intros H1 H2 H3. rewrite !decide_False by done. done.
Qed.

Lemma api_tunnels_methods_witness :
  Method (api_request "GET" ∅) = "GET"
  ∧ Api.ap_trace (exec (Api.handleTunnels api_backing (api_request "GET" ∅)) Api.handling)
    = [Api.ApGetTunnels]
  ∧ Api.final_status (exec (Api.handleTunnels api_backing (api_request "PUT" ∅)) Api.handling)
    = 405.
Proof.
  split; [ reflexivity | ].
  destruct (api_tunnels_methods api_backing (api_request "GET" ∅)) as (Hget & _).
  destruct (api_tunnels_methods api_backing (api_request "PUT" ∅)) as (_ & Hother).
  destruct (Hget eq_refl) as (Htrace & _).
  split; [ exact Htrace | ].
  assert (H1 : Method (api_request "PUT" ∅) ≠ "GET") by (intros E; discriminate E).
  assert (H2 : Method (api_request "PUT" ∅) ≠ "POST") by (intros E; discriminate E).
  assert (H3 : Method (api_request "PUT" ∅) ≠ "DELETE") by (intros E; discriminate E).
  destruct (Hother H1 H2 H3) as (Hs & _).
  exact Hs.
Defined.

(** X25.  The tunnel manager is asked to create or to delete a tunnel only
    for a request whose token was extracted and is authorised, and only for
    the one [domain] parameter of the query; creation only on POST,
    deletion only on DELETE. *)
Theorem api_writes_need_authorisation (B : Api.Backing) (r : Request) (domain : string) :
  Api.ApCreateTunnel domain ∈ Api.ap_trace (exec (Api.handleTunnels B r) Api.handling)
  ∨ Api.ApDeleteTunnel domain ∈ Api.ap_trace (exec (Api.handleTunnels B r) Api.handling) →
  ∃ token,
    Api.extractToken B "access_token" r = inr token
    ∧ Api.Authorized B token = true
    ∧ Api.URL_Query B r !! "domain" = Some [domain]
    ∧ (Api.ap_trace (exec (Api.handleTunnels B r) Api.handling)
         = [Api.ApExtractToken "access_token"; Api.ApAuthorized token;
            Api.ApCreateTunnel domain] ∧ Method r = "POST"
       ∨ Api.ap_trace (exec (Api.handleTunnels B r) Api.handling)
         = [Api.ApExtractToken "access_token"; Api.ApAuthorized token;
            Api.ApDeleteTunnel domain] ∧ Method r = "DELETE").
Proof.
  unfold exec, Api.handleTunnels, Api.validateSession, Api.handleCreateTunnel,
    Api.handleDeleteTunnel, Api.did, Api.WriteHeader, Api.Write, Api.handling,
    return_, call, mbind, mret, Go_bind, Go_ret.
  destruct (decide (Method r = "GET")) as [Hg | Hg]; simpl.
  { destruct (Api.json_Marshal_tunnels B _); simpl; intros [Hin | Hin]; split_trace Hin. }
  destruct (decide (Method r = "POST")) as [Hp | Hp]; simpl.
  { destruct (Api.extractToken B "access_token" r) as [err | token]; simpl.
    { intros [Hin | Hin]; split_trace Hin. }
    destruct (Api.Authorized B token) eqn:Hauth; simpl.
    2:{ intros [Hin | Hin]; split_trace Hin. }
    destruct (Api.URL_Query B r !! "domain") as [[ | d [ | d' more]] | ] eqn:Hq; simpl.
    1,3,4: intros [Hin | Hin]; split_trace Hin.
    destruct (Api.CreateTunnel B d) as [err | tunnel]; simpl;
      [ | destruct (Api.json_MarshalIndent_tunnel B tunnel); simpl ].
    all: intros [Hin | Hin]; split_trace Hin; injection Hin as ->.
    all: exists token; split; [ done | ]; split; [ done | ]; split; [ done | ]; by left. }
  destruct (decide (Method r = "DELETE")) as [Hd | Hd]; simpl.
  { destruct (Api.extractToken B "access_token" r) as [err | token]; simpl.
    { intros [Hin | Hin]; split_trace Hin. }
    destruct (Api.Authorized B token) eqn:Hauth; simpl.
    2:{ intros [Hin | Hin]; split_trace Hin. }
    destruct (Api.URL_Query B r !! "domain") as [[ | d [ | d' more]] | ] eqn:Hq; simpl.
    1,3,4: intros [Hin | Hin]; split_trace Hin.
    destruct (Api.DeleteTunnel B d) as [err | ]; simpl.
    all: intros [Hin | Hin]; split_trace Hin; injection Hin as ->.
    all: exists token; split; [ done | ]; split; [ done | ]; split; [ done | ]; by right. }
  intros [Hin | Hin]; split_trace Hin.
Qed.

Lemma api_writes_need_authorisation_witness :
  Api.ApCreateTunnel "x.example"
    ∈ Api.ap_trace (exec (Api.handleTunnels api_backing
                            (api_request "POST" {[ "access_token" := ["good"];
                                                   "domain" := ["x.example"] ]}))
                         Api.handling)
  ∧ ∃ token, Api.Authorized api_backing token = true.
Proof.
  assert (Hin : Api.ApCreateTunnel "x.example"
                  ∈ Api.ap_trace (exec (Api.handleTunnels api_backing
                                          (api_request "POST"
                                             {[ "access_token" := ["good"];
                                                "domain" := ["x.example"] ]}))
                                       Api.handling)).
  { vm_compute. in_trace. }
  split; [ exact Hin | ].
  destruct (api_writes_need_authorisation api_backing _ "x.example" (or_introl Hin))
    as (token & _ & Hauth & _).
  exact (ex_intro _ token Hauth).
Defined.

(** X26.  A POST or DELETE without a token gets 401 and
    [No token provided], and the authorisation is not consulted; one with a
    token that is not authorised gets 403 and [Not authorized].  Neither
    reaches the tunnel manager. *)
Theorem api_session_rejected (B : Api.Backing) (r : Request) :
  Method r = "POST" ∨ Method r = "DELETE" →
  (∀ err, Api.extractToken B "access_token" r = inl err →
     flow (Api.handleTunnels B r) Api.handling = Next ()
     ∧ Api.final_status (exec (Api.handleTunnels B r) Api.handling) = 401
     ∧ rw_body (Api.ap_w (exec (Api.handleTunnels B r) Api.handling)) = "No token provided"
     ∧ Api.ap_trace (exec (Api.handleTunnels B r) Api.handling)
       = [Api.ApExtractToken "access_token"])
  ∧ (∀ token, Api.extractToken B "access_token" r = inr token →
       Api.Authorized B token = false →
       flow (Api.handleTunnels B r) Api.handling = Next ()
       ∧ Api.final_status (exec (Api.handleTunnels B r) Api.handling) = 403
       ∧ rw_body (Api.ap_w (exec (Api.handleTunnels B r) Api.handling)) = "Not authorized"
       ∧ Api.ap_trace (exec (Api.handleTunnels B r) Api.handling)
         = [Api.ApExtractToken "access_token"; Api.ApAuthorized token]).
Proof.
  intros Hm.
  assert (Hg : Method r ≠ "GET") by (destruct Hm as [Hm | Hm]; rewrite Hm; done).
  unfold flow, exec, Api.handleTunnels, Api.validateSession, Api.did, Api.WriteHeader,
    Api.Write, Api.final_status, Api.handling, return_, call, mbind, mret, Go_bind, Go_ret.
  rewrite (decide_False (P := Method r = "GET")) by done.
  destruct Hm as [Hm | Hm]; rewrite Hm; simpl.
  all: split; [ intros err ->; done | intros token -> ->; done ].
Qed.

Lemma api_session_rejected_witness :
  Method (api_request "DELETE" {[ "domain" := ["b.example"] ]}) = "DELETE"
  ∧ Api.final_status (exec (Api.handleTunnels api_backing
                              (api_request "DELETE" {[ "domain" := ["b.example"] ]}))
                           Api.handling) = 401.
Proof.
  split; [ reflexivity | ].
  destruct (api_session_rejected api_backing
              (api_request "DELETE" {[ "domain" := ["b.example"] ]})
              (or_intror eq_refl)) as (Hnone & _).
  assert (Hex : Api.extractToken api_backing "access_token"
                  (api_request "DELETE" {[ "domain" := ["b.example"] ]})
                = inl "No token provided") by (vm_compute; reflexivity).
  destruct (Hnone _ Hex) as (_ & Hs & _).
  exact Hs.
Defined.

(** X27.  [handleCreateTunnel]: a query without exactly one [domain]
    parameter gets 400 and the tunnel manager is not called; a refusal of
    the tunnel manager gets 400 with its error text.  When the new tunnel
    does not encode the answer is 500, and the tunnel stays created: the
    manager was called once and is not called again.  Otherwise the answer
    is 200 with the encoded tunnel. *)
Theorem api_create_tunnel (B : Api.Backing) (r : Request) :
  (length (default [] (Api.URL_Query B r !! "domain")) ≠ 1%nat →
   Api.final_status (exec (Api.handleCreateTunnel B r) Api.handling) = 400
   ∧ rw_body (Api.ap_w (exec (Api.handleCreateTunnel B r) Api.handling))
     = "Invalid domain parameter"
   ∧ Api.ap_trace (exec (Api.handleCreateTunnel B r) Api.handling) = [])
  ∧ (∀ domain, Api.URL_Query B r !! "domain" = Some [domain] →
       Api.ap_trace (exec (Api.handleCreateTunnel B r) Api.handling)
       = [Api.ApCreateTunnel domain]
       ∧ (∀ err, Api.CreateTunnel B domain = inl err →
            Api.final_status (exec (Api.handleCreateTunnel B r) Api.handling) = 400
            ∧ rw_body (Api.ap_w (exec (Api.handleCreateTunnel B r) Api.handling)) = err)
       ∧ (∀ tunnel err, Api.CreateTunnel B domain = inr tunnel →
            Api.json_MarshalIndent_tunnel B tunnel = inl err →
            Api.final_status (exec (Api.handleCreateTunnel B r) Api.handling) = 500
            ∧ rw_body (Api.ap_w (exec (Api.handleCreateTunnel B r) Api.handling))
              = "Error encoding tunnel")
       ∧ (∀ tunnel tunnelJson, Api.CreateTunnel B domain = inr tunnel →
            Api.json_MarshalIndent_tunnel B tunnel = inr tunnelJson →
            Api.final_status (exec (Api.handleCreateTunnel B r) Api.handling) = 200
            ∧ rw_body (Api.ap_w (exec (Api.handleCreateTunnel B r) Api.handling))
              = tunnelJson)).
Proof.
  unfold exec, Api.handleCreateTunnel, Api.did, Api.WriteHeader, Api.Write, Api.final_status,
    Api.handling, return_, call, mbind, mret, Go_bind, Go_ret.
  split.
  - destruct (Api.URL_Query B r !! "domain") as [[ | d [ | d' more]] | ]; simpl; done.
  - intros domain ->. simpl.
    destruct (Api.CreateTunnel B domain) as [err | tunnel]; simpl.
    { split; [ done | ]. split; [ | split ].
      - intros e He. by injection He as <-.
      - intros t e Ht. discriminate Ht.
      - intros t j Ht. discriminate Ht. }
    destruct (Api.json_MarshalIndent_tunnel B tunnel) as [err | js] eqn:Hjs; simpl.
    + split; [ done | ]. split; [ intros ? H; discriminate H | ]. split.
      * intros t e Ht _. done.
      * intros t j Ht Hj. injection Ht as <-. rewrite Hjs in Hj. discriminate Hj.
    + split; [ done | ]. split; [ intros ? H; discriminate H | ]. split.
      * intros t e Ht He. injection Ht as <-. rewrite Hjs in He. discriminate He.
      * intros t j Ht Hj. injection Ht as <-. rewrite Hjs in Hj. by injection Hj as <-.
Qed.

Lemma api_create_tunnel_witness :
  Api.URL_Query api_backing (api_request "POST" {[ "domain" := ["x.example"] ]}) !! "domain"
    = Some ["x.example"]
  ∧ Api.final_status (exec (Api.handleCreateTunnel api_backing
                              (api_request "POST" {[ "domain" := ["x.example"] ]}))
                           Api.handling) = 200
  ∧ Api.final_status (exec (Api.handleCreateTunnel api_backing (api_request "POST" ∅))
                           Api.handling) = 400.
Proof.
  assert (Hq : Api.URL_Query api_backing (api_request "POST" {[ "domain" := ["x.example"] ]})
                 !! "domain" = Some ["x.example"]) by (vm_compute; reflexivity).
  assert (Hnone : length (default [] (Api.URL_Query api_backing (api_request "POST" ∅)
                                        !! "domain")) ≠ 1%nat)
    by (vm_compute; intros E; discriminate E).
  split; [ exact Hq | ].
  destruct (api_create_tunnel api_backing (api_request "POST" {[ "domain" := ["x.example"] ]}))
    as (_ & Hone).
  destruct (api_create_tunnel api_backing (api_request "POST" ∅)) as (Hbad & _).
  destruct (Hone "x.example" Hq) as (_ & _ & _ & Hok).
  destruct (Hok _ "{tunnel}" eq_refl eq_refl) as (Hs & _).
  destruct (Hbad Hnone) as (Hs' & _).
  split; [ exact Hs | exact Hs' ].
Defined.

(** X28.  [handleDeleteTunnel]: a query without exactly one [domain]
    parameter gets 400 and the tunnel manager is not called.  A deletion
    that succeeds writes nothing, so the client gets 200 with an empty
    body; one that fails gets 500 and [Failed to delete tunnel], whatever
    the error was. *)
Theorem api_delete_tunnel (B : Api.Backing) (r : Request) :
  (length (default [] (Api.URL_Query B r !! "domain")) ≠ 1%nat →
   Api.final_status (exec (Api.handleDeleteTunnel B r) Api.handling) = 400
   ∧ rw_body (Api.ap_w (exec (Api.handleDeleteTunnel B r) Api.handling))
     = "Invalid domain parameter"
   ∧ Api.ap_trace (exec (Api.handleDeleteTunnel B r) Api.handling) = [])
  ∧ (∀ domain, Api.URL_Query B r !! "domain" = Some [domain] →
       Api.ap_trace (exec (Api.handleDeleteTunnel B r) Api.handling)
       = [Api.ApDeleteTunnel domain]
       ∧ (Api.DeleteTunnel B domain = None →
          Api.ap_w (exec (Api.handleDeleteTunnel B r) Api.handling) = newResponseWriter
          ∧ Api.final_status (exec (Api.handleDeleteTunnel B r) Api.handling) = 200
          ∧ rw_body (Api.ap_w (exec (Api.handleDeleteTunnel B r) Api.handling)) = "")
       ∧ (∀ err, Api.DeleteTunnel B domain = Some err →
            Api.final_status (exec (Api.handleDeleteTunnel B r) Api.handling) = 500
            ∧ rw_body (Api.ap_w (exec (Api.handleDeleteTunnel B r) Api.handling))
              = "Failed to delete tunnel")).
Proof.
  unfold exec, Api.handleDeleteTunnel, Api.did, Api.WriteHeader, Api.Write, Api.final_status,
    Api.handling, return_, call, mbind, mret, Go_bind, Go_ret.
  split.
  - destruct (Api.URL_Query B r !! "domain") as [[ | d [ | d' more]] | ]; simpl; done.
  - intros domain ->. simpl.
    destruct (Api.DeleteTunnel B domain) as [err | ]; simpl.
    + split; [ done | ]. split; [ intros H; discriminate H | done ].
    + split; [ done | ]. split; [ done | intros ? H; discriminate H ].
Qed.

Lemma api_delete_tunnel_witness :
  Api.URL_Query api_backing (api_request "DELETE" {[ "domain" := ["b.example"] ]}) !! "domain"
    = Some ["b.example"]
  ∧ Api.ap_w (exec (Api.handleDeleteTunnel api_backing
                      (api_request "DELETE" {[ "domain" := ["b.example"] ]}))
                   Api.handling) = newResponseWriter.
Proof.
  assert (Hq : Api.URL_Query api_backing
                 (api_request "DELETE" {[ "domain" := ["b.example"] ]}) !! "domain"
               = Some ["b.example"]) by (vm_compute; reflexivity).
  split; [ exact Hq | ].
  destruct (api_delete_tunnel api_backing
              (api_request "DELETE" {[ "domain" := ["b.example"] ]})) as (_ & Hone).
  destruct (Hone "b.example" Hq) as (_ & Hok & _).
  destruct (Hok eq_refl) as (Hw & _).
  exact Hw.
Defined.

(** ** The redirect of the earlier revision *)

(** X29.  The earlier [redirectTLS], with the port fixed, writes the
    response the current one writes for [https-port] 443, a 301 to
    [https://<host>:443<request-uri>], and differs from it only in logging
    the target first. *)
Theorem redirectTLS_443_agrees (r : Request) (d : Database) :
  sv_w (exec (redirectTLS_443 r) (serving d)) = sv_w (exec (redirectTLS 443 r) (serving d))
  ∧ status (exec (redirectTLS_443 r) (serving d)) = Some 301
  ∧ sent_header (exec (redirectTLS_443 r) (serving d)) "Location"
    = Some ["https://" +:+ Host r +:+ ":443" +:+ RequestURI r]
  ∧ added (redirectTLS_443 r) (serving d)
    = [EvPrint ("redir " +:+ "https://" +:+ Host r +:+ ":443" +:+ RequestURI r)]
  ∧ added (redirectTLS 443 r) (serving d) = [].
Proof.
  destruct (redirect_fresh r ("https://" +:+ Host r +:+ ":443" +:+ RequestURI r) 301
              (mkServing newResponseWriter d
                 [EvPrint ("redir " +:+ "https://" +:+ Host r +:+ ":443" +:+ RequestURI r)])
              eq_refl) as (_ & Hs & Hl & _).
  split; [ | split; [ exact Hs | split; [ exact Hl | ] ] ].
  - unfold exec, redirectTLS_443, redirectTLS, http_Redirect, on_w, emit, mbind, Go_bind.
    simpl. reflexivity.
  - split; reflexivity.
Qed.

(** ** The guard of the admin-user block *)

(** X30.  The admin-user block looks at the number of users, not at the
    user [admin]: a start-up that succeeds on a store with users leaves
    users and tokens as stored, so a store with users and without the user
    [admin] has no user [admin] afterwards either, although the block is
    headed [Add admin user if it doesn't already exist]. *)
Theorem startup_guard_counts_users (W : World) (Mc : Machine) (flags : Flags) :
  flow (Listen_startup W Mc flags) (power_on Mc) = Next () →
  ∃ stored,
    NewDatabase Mc = inr stored
    ∧ (size (db_GetUsers stored) ≠ 0%nat →
       db_GetUsers (bt_db (exec (Listen_startup W Mc flags) (power_on Mc)))
         = db_GetUsers stored
       ∧ db_GetTokens (bt_db (exec (Listen_startup W Mc flags) (power_on Mc)))
         = db_GetTokens stored
       ∧ (db_GetUsers stored !! "admin" = None →
          db_GetUsers (bt_db (exec (Listen_startup W Mc flags) (power_on Mc))) !! "admin"
          = None)).
Proof.
  intros Hflow.
  destruct (startup_reaches_admin_block W Mc flags Hflow)
    as (stored & b & Hstored & Hacc & Hnext & Hdb).
  exists stored. split; [ done | ].
  unfold accounts in Hacc. injection Hacc as Husers Htokens.
  unfold db_GetUsers, db_GetTokens. rewrite Hdb.
  intros Hsome. rewrite <- Husers in Hsome.
  unfold exec. rewrite (addAdminUser_some_users Mc b Hsome). simpl.
  rewrite Husers. done.
Qed.

Lemma startup_guard_counts_users_witness :
  flow (Listen_startup calm (machine_of store_bob) default_flags)
       (power_on (machine_of store_bob)) = Next ()
  ∧ db_GetUsers store_bob !! "admin" = None
  ∧ db_GetUsers (bt_db (exec (Listen_startup calm (machine_of store_bob) default_flags)
                             (power_on (machine_of store_bob)))) !! "admin" = None.
Proof.
  assert (Hflow : flow (Listen_startup calm (machine_of store_bob) default_flags)
                       (power_on (machine_of store_bob)) = Next ())
    by (vm_compute; reflexivity).
  assert (Hno : db_GetUsers store_bob !! "admin" = None) by (vm_compute; reflexivity).
  split; [ exact Hflow | ]. split; [ exact Hno | ].
  destruct (startup_guard_counts_users calm (machine_of store_bob) default_flags Hflow)
    as (stored & Hstored & Hkeep).
  assert (Hsame : stored = store_bob) by (injection Hstored as <-; reflexivity).
  assert (Hsize : size (db_GetUsers stored) ≠ 0%nat)
    by (rewrite Hsame; vm_compute; intros E; discriminate E).
  destruct (Hkeep Hsize) as (_ & _ & Hadmin).
  rewrite Hsame in Hadmin. exact (Hadmin Hno).
Defined.
